(** * Telegram search-and-deletion tool: selection and batch deletion

    A shallow embedding of [json_analyzer.py], [auto_delete_old.py],
    [telegram_deleter.py] and [config.py].

    - Python [int]s are [Z]; [str]s are [string]s of ASCII characters
      ([str.lower], [str.isdigit] and the word-character class of [re] are
      modelled on ASCII only).
    - Durations handed to [asyncio.sleep] are whole seconds ([Z]), as
      [FloodWaitError.seconds] and [Config.DELAY_BETWEEN_BATCHES] are.
    - An [async] method is a computation in the monad [M]: it threads the
      state of the remote service, the deleter's [stats] dictionary and a
      chronological trace of the remote calls and sleeps it performs, and it
      either returns or raises.
    - The Telethon client and the [re] engine are interfaces (type classes);
      what is proved of the deleter holds for every client.
    - In an export, the ['id'] of a chat and of a message is an integer;
      the ['name'] and ['type'] of a chat may be absent or [null], and a
      [null] makes the column value of the row a missing value.
    - Logging, [tqdm] progress bars and [print] are left out: they touch
      neither the statistics nor the remote service. *)

From Stdlib Require Import ZArith List String Ascii Bool Lia.
From Stdlib Require Import DecimalString DecimalPos.
Import ListNotations.

Local Open Scope string_scope.
Local Open Scope list_scope.
Local Open Scope Z_scope.

(* ================================================================= *)
(** * Part I: definitions *)
(* ================================================================= *)

(** ** Exceptions and results *)

Inductive exn : Type :=
| FloodWaitError (seconds : Z)
| ChatAdminRequiredError
| MessageDeleteForbiddenError
| ValueError (msg : string)
| KeyError (key : string)
| AttributeError (msg : string)
| OtherError (msg : string).

Inductive result (A : Type) : Type :=
| Ok (a : A)
| Raise (e : exn).
Arguments Ok {A} a.
Arguments Raise {A} e.

Definition rbind {A B} (r : result A) (k : A -> result B) : result B :=
  match r with
  | Ok a => k a
  | Raise e => Raise e
  end.

(** ** Python built-ins used by the sources *)

Module Py.

(** [str(n)] for an [int]. *)
Definition str_of_Z (z : Z) : string :=
  NilZero.string_of_int (Z.to_int z).

(** [len(l)]. *)
Definition len {A} (l : list A) : Z := Z.of_nat (List.length l).

(** Index normalisation of a slice bound: a negative bound counts from
    the end, and every bound is clamped to [0, len]. *)
Definition norm_index (n i : Z) : Z :=
  if i <? 0 then Z.max 0 (i + n) else Z.min i n.

(** [l[i:j]]. *)
Definition slice {A} (l : list A) (i j : Z) : list A :=
  let a := norm_index (len l) i in
  let b := norm_index (len l) j in
  firstn (Z.to_nat (b - a)) (skipn (Z.to_nat a) l).

(** The iteration of a [range] object: [i, i+step, ...] while the bound
    is not reached.  [fuel] bounds the number of iterations. *)
Fixpoint range_up (fuel : nat) (i stop step : Z) : list Z :=
  match fuel with
  | O => []
  | S fuel' =>
      if i <? stop then i :: range_up fuel' (i + step) stop step else []
  end.

Fixpoint range_down (fuel : nat) (i stop step : Z) : list Z :=
  match fuel with
  | O => []
  | S fuel' =>
      if stop <? i then i :: range_down fuel' (i + step) stop step else []
  end.

(** [range(start, stop, step)]: a zero step raises [ValueError].  As
    [|step| >= 1], [|stop - start|] iterations are always enough. *)
Definition range (start stop step : Z) : result (list Z) :=
  if step =? 0 then Raise (ValueError "range() arg 3 must not be zero")
  else if 0 <? step
       then Ok (range_up (Z.to_nat (stop - start)) start stop step)
       else Ok (range_down (Z.to_nat (start - stop)) start stop step).

Definition is_upper (c : ascii) : bool :=
  let n := nat_of_ascii c in (65 <=? n)%nat && (n <=? 90)%nat.

Definition lower_char (c : ascii) : ascii :=
  if is_upper c then ascii_of_nat (nat_of_ascii c + 32) else c.

(** [s.lower()]. *)
Fixpoint lower (s : string) : string :=
  match s with
  | EmptyString => EmptyString
  | String c s' => String (lower_char c) (lower s')
  end.

Definition is_digit (c : ascii) : bool :=
  let n := nat_of_ascii c in (48 <=? n)%nat && (n <=? 57)%nat.

Fixpoint all_chars (p : ascii -> bool) (s : string) : bool :=
  match s with
  | EmptyString => true
  | String c s' => p c && all_chars p s'
  end.

(** [s.isdigit()]: every character is a digit and there is at least
    one. *)
Definition isdigit (s : string) : bool :=
  match s with
  | EmptyString => false
  | _ => all_chars is_digit s
  end.

(** [s.startswith(p)]. *)
Definition startswith (s p : string) : bool := String.prefix p s.

(** [s[1:]]. *)
Definition tail (s : string) : string :=
  match s with
  | EmptyString => EmptyString
  | String _ s' => s'
  end.

(** [needle in hay]. *)
Fixpoint contains (needle hay : string) : bool :=
  String.prefix needle hay ||
  match hay with
  | EmptyString => false
  | String _ hay' => contains needle hay'
  end.

(** [sep.join(l)]. *)
Fixpoint join (sep : string) (l : list string) : string :=
  match l with
  | [] => EmptyString
  | [x] => x
  | x :: l' => (x ++ sep ++ join sep l')%string
  end.

Definition digit_value (c : ascii) : Z := Z.of_nat (nat_of_ascii c) - 48.

Fixpoint digits_value (acc : Z) (s : string) : Z :=
  match s with
  | EmptyString => acc
  | String c s' => digits_value (10 * acc + digit_value c) s'
  end.

(** [int(s)] for an optionally signed decimal literal; anything else
    raises [ValueError]. *)
Definition int_of_str (s : string) : result Z :=
  if isdigit s then Ok (digits_value 0 s)
  else if startswith s "-" && isdigit (tail s)
       then Ok (- digits_value 0 (tail s))
       else Raise (ValueError "invalid literal for int() with base 10").

End Py.

(** ** The rows handed to the deleter, and pandas frames *)

(** A row of [messages_df]: the columns the pipeline reads.  [chat_name]
    and [chat_type] are [None] where the export has [null]. *)
Record row : Type := mkRow {
  chat_id : Z;
  chat_name : option string;
  chat_type : option string;
  message_id : Z;
  date : Z;
  text : string
}.

(** [pd.DataFrame(records)]: a frame built from an empty list of records
    has no columns at all, and stays different from a frame with columns
    and no rows. *)
Inductive DataFrame (R : Type) : Type :=
| NoColumns
| Frame (rows : list R).
Arguments NoColumns {R}.
Arguments Frame {R} rows.

Definition from_records {R} (l : list R) : DataFrame R :=
  match l with
  | [] => NoColumns
  | _ => Frame l
  end.

Definition frame_rows {R} (df : DataFrame R) : list R :=
  match df with
  | NoColumns => []
  | Frame l => l
  end.

(** [df.empty]. *)
Definition frame_empty {R} (df : DataFrame R) : bool :=
  match frame_rows df with
  | [] => true
  | _ => false
  end.

(** [df[name]] for a column [name] read by [get]: a frame without columns
    raises [KeyError]. *)
Definition column {R A} (name : string) (get : R -> A) (df : DataFrame R)
  : result (list A) :=
  match df with
  | NoColumns => Raise (KeyError name)
  | Frame l => Ok (map get l)
  end.

(** [df[mask]] for a boolean mask that has the rows of [df]. *)
Definition mask_rows {R} (mask : list bool) (df : DataFrame R) : DataFrame R :=
  match df with
  | NoColumns => NoColumns
  | Frame l => Frame (map fst (filter snd (combine l mask)))
  end.

(** *** [groupby(['chat_id', 'chat_name'])]

    Groups come out sorted by key; the rows of a group keep the order they
    have in the frame.  With the default [dropna=True], a row whose key
    holds a missing value is in no group. *)

Definition group_key : Type := (Z * string)%type.

Definition key_of (r : row) : option group_key :=
  match chat_name r with
  | Some name => Some (chat_id r, name)
  | None => None
  end.

Definition key_compare (k1 k2 : group_key) : comparison :=
  match Z.compare (fst k1) (fst k2) with
  | Eq => String.compare (snd k1) (snd k2)
  | c => c
  end.

Fixpoint insert_row (key : group_key) (r : row)
         (gs : list (group_key * list row)) : list (group_key * list row) :=
  match gs with
  | [] => [(key, [r])]
  | (k, rs) :: gs' =>
      match key_compare key k with
      | Eq => (k, rs ++ [r]) :: gs'
      | Lt => (key, [r]) :: gs
      | Gt => (k, rs) :: insert_row key r gs'
      end
  end.

Definition group_row (gs : list (group_key * list row)) (r : row)
  : list (group_key * list row) :=
  match key_of r with
  | Some key => insert_row key r gs
  | None => gs
  end.

Definition groupby (rows : list row) : list (group_key * list row) :=
  fold_left group_row rows [].

(** ** Batching ([delete_messages_batch], lines 238-243) *)

(** The batches the loop [for i in range(0, len(message_ids), batch_size)]
    cuts with [message_ids[i:i + batch_size]]. *)
Definition batches_of (message_ids : list Z) (batch_size : Z)
  : result (list (list Z)) :=
  rbind (Py.range 0 (Py.len message_ids) batch_size)
        (fun idxs =>
           Ok (map (fun i => Py.slice message_ids i (i + batch_size)) idxs)).


(** ** The deleter's statistics ([TelegramDeleter.__init__], lines 44-50) *)

(** An entry of [stats['errors']]: the dictionary with the keys
    ['chat_name'], ['message_id'] and ['error']. *)
Record error_entry : Type := mkError {
  e_chat_name : string;
  e_message_id : Z;
  e_error : string
}.

Record Stats : Type := mkStats {
  total_processed : Z;
  successfully_deleted : Z;
  failed : Z;
  skipped : Z;
  errors : list error_entry
}.

Definition init_stats : Stats := mkStats 0 0 0 0 [].

Definition add_total_processed (n : Z) (st : Stats) : Stats :=
  mkStats (total_processed st + n) (successfully_deleted st) (failed st)
          (skipped st) (errors st).

Definition add_successfully_deleted (n : Z) (st : Stats) : Stats :=
  mkStats (total_processed st) (successfully_deleted st + n) (failed st)
          (skipped st) (errors st).

Definition add_failed (n : Z) (st : Stats) : Stats :=
  mkStats (total_processed st) (successfully_deleted st) (failed st + n)
          (skipped st) (errors st).

Definition add_skipped (n : Z) (st : Stats) : Stats :=
  mkStats (total_processed st) (successfully_deleted st) (failed st)
          (skipped st + n) (errors st).

Definition append_error (e : error_entry) (st : Stats) : Stats :=
  mkStats (total_processed st) (successfully_deleted st) (failed st)
          (skipped st) (errors st ++ [e]).

(** ** The Telethon client *)

(** What [get_entity] is called with: an integer id or a string. *)
Inductive peer : Type :=
| PeerId (id : Z)
| PeerName (username : string).

(** A fetched [telethon.tl.types.Message]; the deleter reads [out] only. *)
Record Message : Type := mkMessage { out : bool }.

(** An item of [get_dialogs()]; [dialog.name] may be [None]. *)
Record dialog (entity : Type) : Type := mkDialog {
  dialog_name : option string;
  dialog_entity : entity
}.
Arguments mkDialog {entity}.
Arguments dialog_name {entity}.
Arguments dialog_entity {entity}.

(** The four client methods the deleter awaits.  [W] is the state of the
    remote service; a call returns or raises, and may change that state.
    [delete_messages] answers with the truth value of its result.  Chat
    entities are objects, hence truthy. *)
Class TelegramClient (W entity : Type) : Type := {
  get_entity : peer -> W -> result entity * W;
  get_dialogs : W -> result (list (dialog entity)) * W;
  get_messages : entity -> Z -> W -> result (option Message) * W;
  delete_messages : entity -> list Z -> bool -> W -> result bool * W
}.

(** The two [asyncio.sleep] sites of the deleter. *)
Inductive sleep_site : Type :=
| FloodBackoff   (* delete_message, line 183 *)
| BatchPacing.   (* delete_messages_batch, line 271 *)

(** What a run does to the outside, in the order it does it. *)
Inductive event (entity : Type) : Type :=
| EvGetEntity (p : peer)
| EvGetDialogs
| EvGetMessages (chat : entity) (id : Z)
| EvDeleteMessages (chat : entity) (ids : list Z) (revoke : bool)
| EvSleep (site : sleep_site) (secs : Z).
Arguments EvGetEntity {entity}.
Arguments EvGetDialogs {entity}.
Arguments EvGetMessages {entity}.
Arguments EvDeleteMessages {entity}.
Arguments EvSleep {entity}.

Record state (W entity : Type) : Type := mkState {
  world : W;
  stats : Stats;
  trace : list (event entity)
}.
Arguments mkState {W entity}.
Arguments world {W entity}.
Arguments stats {W entity}.
Arguments trace {W entity}.

(** ** The monad of the deleter's methods *)

Definition M (W entity A : Type) : Type :=
  state W entity -> result A * state W entity.

Section Monad.
Context {W entity : Type}.

Definition ret {A} (a : A) : M W entity A := fun s => (Ok a, s).

Definition bind {A B} (m : M W entity A) (k : A -> M W entity B)
  : M W entity B :=
  fun s =>
    match m s with
    | (Ok a, s') => k a s'
    | (Raise e, s') => (Raise e, s')
    end.

Definition raise {A} (e : exn) : M W entity A := fun s => (Raise e, s).

(** [try: body except Exception as e: handler(e)]. *)
Definition try_except {A} (body : M W entity A)
           (handler : exn -> M W entity A) : M W entity A :=
  fun s =>
    match body s with
    | (Ok a, s') => (Ok a, s')
    | (Raise e, s') => handler e s'
    end.

Definition lift_result {A} (r : result A) : M W entity A :=
  fun s => (r, s).

(** A remote call: the service answers and moves on, the call is
    traced. *)
Definition remote {A} (ev : event entity) (call : W -> result A * W)
  : M W entity A :=
  fun s =>
    let (r, w') := call (world s) in
    (r, mkState w' (stats s) (trace s ++ [ev])).

(** [await asyncio.sleep(secs)]. *)
Definition sleep (site : sleep_site) (secs : Z) : M W entity unit :=
  fun s => (Ok tt, mkState (world s) (stats s) (trace s ++ [EvSleep site secs])).

Definition update_stats (f : Stats -> Stats) : M W entity unit :=
  fun s => (Ok tt, mkState (world s) (f (stats s)) (trace s)).

Definition get_stats : M W entity Stats := fun s => (Ok (stats s), s).

End Monad.

Notation "x <- c1 ;; c2" := (bind c1 (fun x => c2))
  (at level 61, c1 at next level, right associativity).
Notation "c1 ;; c2" := (bind c1 (fun _ => c2))
  (at level 61, right associativity).

(** [for x in l: body(x)]. *)
Fixpoint for_each {W entity A} (l : list A) (body : A -> M W entity unit)
  : M W entity unit :=
  match l with
  | [] => ret tt
  | x :: l' => body x ;; for_each l' body
  end.

(** ** [TelegramDeleter] *)

Section Deleter.
Context {W entity : Type} {client : TelegramClient W entity}.

(** The first dialog whose name contains the identifier, both in lower
    case (lines 117-121). *)
Fixpoint search_dialogs (chat_identifier : string)
         (dialogs : list (dialog entity)) : option entity :=
  match dialogs with
  | [] => None
  | d :: dialogs' =>
      match dialog_name d with
      | Some (String c n) =>
          if Py.contains (Py.lower chat_identifier)
                         (Py.lower (String c n))
          then Some (dialog_entity d)
          else search_dialogs chat_identifier dialogs'
      | _ => search_dialogs chat_identifier dialogs'
      end
  end.

(** [find_chat_by_name_or_id] (lines 95-125): every exception becomes
    [None]. *)
Definition find_chat_by_name_or_id (chat_identifier : string)
  : M W entity (option entity) :=
  try_except
    (if Py.isdigit chat_identifier
        || (Py.startswith chat_identifier "-"
            && Py.isdigit (Py.tail chat_identifier))
     then
       chat_id <- lift_result (Py.int_of_str chat_identifier) ;;
       e <- remote (EvGetEntity (PeerId chat_id))
                   (get_entity (PeerId chat_id)) ;;
       ret (Some e)
     else if Py.startswith chat_identifier "@"
     then
       e <- remote (EvGetEntity (PeerName chat_identifier))
                   (get_entity (PeerName chat_identifier)) ;;
       ret (Some e)
     else
       dialogs <- remote EvGetDialogs get_dialogs ;;
       ret (search_dialogs chat_identifier dialogs))
    (fun _ => ret None).

(** [get_message_from_chat] (lines 127-143): every exception becomes
    [None]. *)
Definition get_message_from_chat (chat_entity : entity) (message_id : Z)
  : M W entity (option Message) :=
  try_except
    (message <- remote (EvGetMessages chat_entity message_id)
                       (get_messages chat_entity message_id) ;;
     ret message)
    (fun _ => ret None).

(** [str(e)] in the last handler of [delete_message]. *)
Definition exn_text (e : exn) : string :=
  match e with
  | FloodWaitError n =>
      ("A wait of " ++ Py.str_of_Z n ++ " seconds is required")%string
  | ChatAdminRequiredError => "Chat admin privileges are required"
  | MessageDeleteForbiddenError => "You can't delete one of the messages"
  | ValueError m => m
  | KeyError k => ("'" ++ k ++ "'")%string
  | AttributeError m => m
  | OtherError m => m
  end.

(** [delete_message] (lines 145-195). *)
Definition delete_message (chat_entity : entity) (message_id : Z)
           (revoke dry_run : bool) : M W entity (bool * string) :=
  try_except
    (if dry_run then ret (true, "DRY RUN: Would delete message")
     else
       message <- get_message_from_chat chat_entity message_id ;;
       match message with
       | None => ret (false, "Message not found")
       | Some message =>
           if negb (out message)
           then ret (false, "Message is not from you")
           else
             result <- remote (EvDeleteMessages chat_entity [message_id] revoke)
                              (delete_messages chat_entity [message_id] revoke) ;;
             if (result : bool)
             then ret (true, "Message deleted successfully")
             else ret (false, "Deletion failed")
       end)
    (fun e =>
       match e with
       | FloodWaitError wait_time =>
           sleep FloodBackoff wait_time ;;
           ret (false, ("Rate limited, waited " ++ Py.str_of_Z wait_time ++ "s")%string)
       | ChatAdminRequiredError => ret (false, "Admin rights required")
       | MessageDeleteForbiddenError =>
           ret (false, "Message deletion forbidden")
       | _ => ret (false, ("Unexpected error: " ++ exn_text e)%string)
       end).

(** The body of the innermost loop (lines 248-266): one attempt and its
    bookkeeping. *)
Definition process_message (chat_entity : entity) (chat_name : string)
           (dry_run : bool) (msg_id : Z) : M W entity unit :=
  r <- delete_message chat_entity msg_id true dry_run ;;
  let '(success, message) := r in
  update_stats (add_total_processed 1) ;;
  if (success : bool) then
    if dry_run
    then update_stats (add_skipped 1)
    else update_stats (add_successfully_deleted 1)
  else
    update_stats (add_failed 1) ;;
    update_stats (append_error (mkError chat_name msg_id message)).

(** The body of the batch loop (lines 240-271). *)
Definition process_batch (chat_entity : entity) (chat_name : string)
           (message_ids : list Z) (dry_run : bool)
           (batch_size delay_between_batches : Z) (i : Z) : M W entity unit :=
  let batch := Py.slice message_ids i (i + batch_size) in
  for_each batch (process_message chat_entity chat_name dry_run) ;;
  if (i + batch_size <? Py.len message_ids) && (0 <? delay_between_batches)
  then sleep BatchPacing delay_between_batches
  else ret tt.

(** The body of the chat loop (lines 226-271). *)
Definition process_chat (dry_run : bool)
           (batch_size delay_between_batches : Z)
           (group : group_key * list row) : M W entity unit :=
  let '((chat_id, chat_name), chat_messages) := group in
  chat_entity <- find_chat_by_name_or_id (Py.str_of_Z chat_id) ;;
  match chat_entity with
  | None => update_stats (add_failed (Py.len chat_messages))
  | Some chat_entity =>
      let message_ids := map message_id chat_messages in
      idxs <- lift_result (Py.range 0 (Py.len message_ids) batch_size) ;;
      for_each idxs
               (process_batch chat_entity chat_name message_ids dry_run
                              batch_size delay_between_batches)
  end.

(** [delete_messages_batch] (lines 197-273). *)
Definition delete_messages_batch (messages_df : DataFrame row)
           (dry_run : bool) (batch_size delay_between_batches : Z)
  : M W entity Stats :=
  if frame_empty messages_df then get_stats
  else
    let chat_groups := groupby (frame_rows messages_df) in
    for_each chat_groups
             (process_chat dry_run batch_size delay_between_batches) ;;
    get_stats.

End Deleter.

(** A deleter fresh from [__init__], facing the service in state [w]. *)
Definition fresh {W entity} (w : W) : state W entity :=
  mkState w init_stats [].

(** ** The [re] engine *)

(** [re.compile(pattern, flags)], which may raise [re.error], and the truth
    value of [compiled.search(text)].  The only flag the sources pass is
    [re.IGNORECASE]. *)
Class RegexEngine (compiled : Type) : Type := {
  re_compile : string -> bool -> result compiled;
  pattern_search : compiled -> string -> bool
}.

(** [re.search(pattern, text, flags)], as a truth value. *)
Definition re_search {compiled} {engine : RegexEngine compiled}
           (pattern text : string) (ignorecase : bool) : result bool :=
  rbind (re_compile pattern ignorecase)
        (fun c => Ok (pattern_search c text)).

(** An engine for the patterns the sources build from keywords made of
    ordinary characters: alternations of sequences of literal characters
    and [\b].  A backslash before a character that is neither a letter nor
    a digit makes that character literal, as in the output of
    [re.escape].  Any other pattern is outside this engine, which answers
    it with an exception. *)
Module Re.

Inductive atom : Type :=
| Lit (c : ascii)
| WordBoundary.

Record compiled : Type := mkCompiled {
  branches : list (list atom);
  ignorecase : bool
}.

Definition is_lower (c : ascii) : bool :=
  let n := nat_of_ascii c in (97 <=? n)%nat && (n <=? 122)%nat.

Definition is_alnum (c : ascii) : bool :=
  Py.is_digit c || Py.is_upper c || is_lower c.

(** The class [\w], on ASCII. *)
Definition is_word_char (c : ascii) : bool :=
  is_alnum c || Ascii.eqb c "_".

Definition is_meta (c : ascii) : bool :=
  existsb (Ascii.eqb c)
          ["."; "^"; "$"; "*"; "+"; "?"; "{"; "}"; "["; "]"; "("; ")"]%char.

Fixpoint parse (s : string) (cur : list atom) : option (list (list atom)) :=
  match s with
  | EmptyString => Some [rev cur]
  | String c s' =>
      if Ascii.eqb c "\" then
        match s' with
        | EmptyString => None
        | String d s'' =>
            if Ascii.eqb d "b" then parse s'' (WordBoundary :: cur)
            else if is_alnum d then None
                 else parse s'' (Lit d :: cur)
        end
      else if Ascii.eqb c "|" then
             option_map (cons (rev cur)) (parse s' [])
           else if is_meta c then None
                else parse s' (Lit c :: cur)
  end.

Definition compile (pattern : string) (ic : bool) : result compiled :=
  match parse pattern [] with
  | Some bs => Ok (mkCompiled bs ic)
  | None => Raise (OtherError "pattern outside the modelled fragment")
  end.

Definition char_matches (ic : bool) (c d : ascii) : bool :=
  if ic then Ascii.eqb (Py.lower_char c) (Py.lower_char d)
  else Ascii.eqb c d.

Definition word_before (prev : option ascii) : bool :=
  match prev with
  | Some c => is_word_char c
  | None => false
  end.

Definition word_after (rest : string) : bool :=
  match rest with
  | String c _ => is_word_char c
  | EmptyString => false
  end.

(** Does the sequence of atoms match at the position whose previous
    character is [prev] and whose remaining text is [rest]? *)
Fixpoint match_here (ic : bool) (atoms : list atom) (prev : option ascii)
         (rest : string) : bool :=
  match atoms with
  | [] => true
  | WordBoundary :: atoms' =>
      xorb (word_before prev) (word_after rest)
      && match_here ic atoms' prev rest
  | Lit c :: atoms' =>
      match rest with
      | String d rest' =>
          char_matches ic c d && match_here ic atoms' (Some d) rest'
      | EmptyString => false
      end
  end.

(** Scanning: some alternative matches at some position. *)
Fixpoint search_from (ic : bool) (bs : list (list atom))
         (prev : option ascii) (rest : string) : bool :=
  existsb (fun atoms => match_here ic atoms prev rest) bs
  || match rest with
     | String d rest' => search_from ic bs (Some d) rest'
     | EmptyString => false
     end.

Definition search (p : compiled) (text : string) : bool :=
  search_from (ignorecase p) (branches p) None text.

Definition is_special (c : ascii) : bool :=
  existsb (Ascii.eqb c)
          ["("; ")"; "["; "]"; "{"; "}"; "?"; "*"; "+"; "-"; "|"; "^"; "$";
           "\"; "."; "&"; "~"; "#"; " "; "009"; "010"; "013"; "011";
           "012"]%char.

(** [re.escape(s)]. *)
Fixpoint escape (s : string) : string :=
  match s with
  | EmptyString => EmptyString
  | String c s' =>
      if is_special c then String "\" (String c (escape s'))
      else String c (escape s')
  end.

End Re.

#[global] Instance fragment_engine : RegexEngine Re.compiled := {|
  re_compile := Re.compile;
  pattern_search := Re.search
|}.

(** ** [TelegramJSONAnalyzer] *)

(** A value looked up with [dict.get]: the key may be absent, or hold
    [null], or a string. *)
Inductive jfield : Type :=
| Absent
| Null
| Str (s : string).

(** An item of a [text] list: a plain string, or a text entity with or
    without a ['text'] key. *)
Inductive text_item : Type :=
| ItemStr (s : string)
| ItemDict (entity_text : option string).

Inductive json_text : Type :=
| TextStr (s : string)
| TextList (items : list text_item).

(** A message of the export.  [j_out] is the truth value of
    [message.get('out', False)], [j_date] the timestamp read from
    ['date_unixtime'] or ['date'], in seconds. *)
Record json_message : Type := mkJMessage {
  j_id : Z;
  j_date : Z;
  j_text : json_text;
  j_out : bool;
  j_from_id : jfield;
  j_from : jfield
}.

Record json_chat : Type := mkJChat {
  c_id : Z;
  c_name : jfield;
  c_type : jfield;
  c_messages : list json_message
}.

Record personal_info : Type := mkPersonal {
  p_user_id : option Z;
  p_first_name : option string
}.

(** The loaded object: the two keys the analyzer reads, each of which
    may be absent, and whether the object has any other key. *)
Record export : Type := mkExport {
  personal_information : option personal_info;
  chats_entry : option (list json_chat);
  other_keys : bool
}.

(** [data.get('chats', {}).get('list', [])]. *)
Definition chats (data : export) : list json_chat :=
  match chats_entry data with
  | Some l => l
  | None => []
  end.

(** [not data] for a loaded object: it has no key at all. *)
Definition is_empty_object (data : export) : bool :=
  match personal_information data, chats_entry data with
  | None, None => negb (other_keys data)
  | _, _ => false
  end.

(** [user_id] is the integer of [personal_information], or the [from_id]
    string found by the fallback scan. *)
Inductive uid : Type :=
| UidInt (n : Z)
| UidStr (s : string).

Definition str_of_uid (u : uid) : string :=
  match u with
  | UidInt n => Py.str_of_Z n
  | UidStr s => s
  end.

Definition uid_truthy (u : option uid) : bool :=
  match u with
  | Some (UidInt n) => negb (n =? 0)
  | Some (UidStr EmptyString) => false
  | Some (UidStr _) => true
  | None => false
  end.

Definition jfield_is (f : jfield) (s : string) : bool :=
  match f with
  | Str s' => String.eqb s' s
  | _ => false
  end.

(** The fallback scan of lines 50-56 within one chat:
    [message.get('from_id', '').startswith('user')] fails on [null]. *)
Fixpoint first_user_from_id (messages : list json_message)
  : result (option string) :=
  match messages with
  | [] => Ok None
  | m :: messages' =>
      match j_from_id m with
      | Null =>
          Raise (AttributeError
                   "'NoneType' object has no attribute 'startswith'")
      | Absent => first_user_from_id messages'
      | Str s =>
          if Py.startswith s "user" then Ok (Some s)
          else first_user_from_id messages'
      end
  end.

Fixpoint scan_user_id (cs : list json_chat) : result (option string) :=
  match cs with
  | [] => Ok None
  | c :: cs' =>
      rbind (first_user_from_id (c_messages c))
            (fun found =>
               match found with
               | Some (String a s) => Ok (Some (String a s))
               | _ => scan_user_id cs'
               end)
  end.

(** Lines 46-56. *)
Definition determine_user_id (data : export) : result (option uid) :=
  let user_id :=
      match personal_information data with
      | Some p => option_map UidInt (p_user_id p)
      | None => None
      end in
  if uid_truthy user_id then Ok user_id
  else rbind (scan_user_id (chats data)) (fun found => Ok (option_map UidStr found)).

Definition first_name_of (data : export) : string :=
  match personal_information data with
  | Some p =>
      match p_first_name p with
      | Some n => n
      | None => EmptyString
      end
  | None => EmptyString
  end.

(** The four methods of lines 72-88. *)
Definition is_outgoing (user_id : option uid) (first_name : string)
           (message : json_message) : bool :=
  if j_out message then true
  else if uid_truthy user_id
          && match user_id with
             | Some u => jfield_is (j_from_id message)
                                   ("user" ++ str_of_uid u)%string
             | None => false
             end
  then true
  else if uid_truthy user_id
          && match user_id with
             | Some u => jfield_is (j_from_id message) (str_of_uid u)
             | None => false
             end
  then true
  else match j_from message with
       | Str (String a s) => String.eqb (String a s) first_name
       | _ => false
       end.

(** Lines 92-95. *)
Definition text_content (t : json_text) : string :=
  match t with
  | TextStr s => s
  | TextList items =>
      Py.join " " (flat_map (fun item =>
                               match item with
                               | ItemDict (Some s) => [s]
                               | _ => []
                               end) items)
  end.

(** [d.get(key, default)]: the default stands in for an absent key only,
    a [null] comes out as [None]. *)
Definition get_default (f : jfield) (default : string) : option string :=
  match f with
  | Absent => Some default
  | Null => None
  | Str s => Some s
  end.

(** Lines 65-67 and 97-104. *)
Definition row_of (chat : json_chat) (message : json_message) : row :=
  mkRow (c_id chat)
        (get_default (c_name chat) ("Chat_" ++ Py.str_of_Z (c_id chat)))
        (get_default (c_type chat) "unknown")
        (j_id message) (j_date message) (text_content (j_text message)).

(** [extract_outgoing_messages] (lines 37-124).  [if not self.data]
    holds of [None] and of a loaded object without keys. *)
Definition extract_outgoing_messages (data : option export)
  : result (DataFrame row) :=
  match data with
  | None => Raise (ValueError "No data loaded. Call load_export() first.")
  | Some data =>
      if is_empty_object data
      then Raise (ValueError "No data loaded. Call load_export() first.")
      else
      rbind (determine_user_id data)
            (fun user_id =>
               Ok (from_records
                     (flat_map
                        (fun chat =>
                           map (row_of chat)
                               (filter (is_outgoing user_id (first_name_of data))
                                       (c_messages chat)))
                        (chats data))))
  end.

Section Analyzer.
Context {compiled : Type} {engine : RegexEngine compiled}.

(** The pattern of one keyword (lines 149 and 166-169). *)
Definition kw_pattern (whole_words : bool) (kw : string) : string :=
  if whole_words then ("\b" ++ kw ++ "\b")%string else kw.

(** Lines 164-173: the keywords that match the text, in input order. *)
Fixpoint matched_keywords (keywords : list string)
         (case_sensitive whole_words : bool) (text : string)
  : result (list string) :=
  match keywords with
  | [] => Ok []
  | kw :: keywords' =>
      rbind (re_search (kw_pattern whole_words kw) text
                       (negb case_sensitive))
            (fun hit =>
               rbind (matched_keywords keywords' case_sensitive whole_words
                                       text)
                     (fun others =>
                        Ok (if (hit : bool) then kw :: others else others)))
  end.

(** Lines 160-177: the rows the combined pattern finds, each with its
    [matched_keywords] column. *)
Fixpoint scan_rows (pattern : compiled) (keywords : list string)
         (case_sensitive whole_words : bool) (rows : list row)
  : result (list (row * string)) :=
  match rows with
  | [] => Ok []
  | r :: rows' =>
      if pattern_search pattern (text r) then
        rbind (matched_keywords keywords case_sensitive whole_words (text r))
              (fun found =>
                 rbind (scan_rows pattern keywords case_sensitive
                                  whole_words rows')
                       (fun matches =>
                          Ok ((r, Py.join ", " found) :: matches)))
      else scan_rows pattern keywords case_sensitive whole_words rows'
  end.

(** [find_messages_by_keywords] (lines 126-182). *)
Definition find_messages_by_keywords (messages_df : option (DataFrame row))
           (keywords : list string) (case_sensitive whole_words : bool)
  : result (DataFrame (row * string)) :=
  match messages_df with
  | None =>
      Raise (ValueError
               "No messages loaded. Call extract_outgoing_messages() first.")
  | Some df =>
      match keywords with
      | [] => Ok NoColumns
      | _ :: _ =>
          let keyword_patterns := map (kw_pattern whole_words) keywords in
          let combined_pattern := Py.join "|" keyword_patterns in
          rbind (re_compile combined_pattern (negb case_sensitive))
                (fun pattern =>
                   rbind (scan_rows pattern keywords case_sensitive
                                    whole_words (frame_rows df))
                         (fun matches => Ok (from_records matches)))
      end
  end.

(** [series.isin(values)]. *)
Definition isin (series values : list Z) : list bool :=
  map (fun v => existsb (Z.eqb v) values) series.

(** The selection of [auto_delete_old_messages] (lines 228-250):
    [old_messages] as it is handed to the deleter.  [now] is
    [datetime.now()], in seconds. *)
Definition select_old_messages (all_messages : DataFrame row)
           (now hours_to_keep : Z) (keywords : list string)
           (case_sensitive whole_words : bool) : result (DataFrame row) :=
  let cutoff_time := now - hours_to_keep * 3600 in
  rbind (column "date" date all_messages)
        (fun dates =>
           let old_messages :=
               mask_rows (map (fun d => d <? cutoff_time) dates)
                         all_messages in
           match keywords with
           | _ :: _ =>
               rbind (find_messages_by_keywords (Some all_messages) keywords
                                                case_sensitive whole_words)
                     (fun keyword_matches =>
                        rbind (column "message_id" message_id old_messages)
                              (fun old_ids =>
                                 rbind (column "message_id"
                                               (fun m => message_id (fst m))
                                               keyword_matches)
                                       (fun matched_ids =>
                                          Ok (mask_rows
                                                (isin old_ids matched_ids)
                                                old_messages))))
           | [] => Ok old_messages
           end).

(** The candidates of a run of [auto_delete_old_messages]: an exception
    anywhere before the deletion ends the run (lines 314-316). *)
Definition candidates (data : option export) (now hours_to_keep : Z)
           (keywords : list string) (case_sensitive whole_words : bool)
  : list row :=
  match rbind (extract_outgoing_messages data)
              (fun all_messages =>
                 select_old_messages all_messages now hours_to_keep
                                     keywords case_sensitive whole_words)
  with
  | Ok old_messages => frame_rows old_messages
  | Raise _ => []
  end.

(** The keyword loop of [api_only_delete_messages] (lines 105-119). *)
Fixpoint api_keyword_loop (keywords : list string)
         (case_sensitive whole_words : bool) (message_text : string)
  : result bool :=
  match keywords with
  | [] => Ok false
  | keyword :: keywords' =>
      let search_keyword :=
          if negb case_sensitive then Py.lower keyword else keyword in
      if whole_words then
        rbind (re_search ("\b" ++ Re.escape search_keyword ++ "\b")%string
                         message_text (negb case_sensitive))
              (fun hit =>
                 if (hit : bool) then Ok true
                 else api_keyword_loop keywords' case_sensitive whole_words
                                       message_text)
      else if Py.contains search_keyword message_text then Ok true
           else api_keyword_loop keywords' case_sensitive whole_words
                                 message_text
  end.

(** Lines 101-122: does a message whose text is [text], that is
    [str(message.text or "")], pass the keyword filter? *)
Definition api_keyword_filter (keywords : list string)
           (case_sensitive whole_words : bool) (text : string)
  : result bool :=
  match keywords with
  | [] => Ok true
  | _ :: _ =>
      let message_text := Py.lower text in
      api_keyword_loop keywords case_sensitive whole_words message_text
  end.

End Analyzer.

(** ** Vocabulary of the statements about the deleter *)

(** The rows that [groupby] keeps, hence the candidates the deleter gets
    to see: those whose chat name is not missing. *)
Definition has_chat_name (r : row) : bool :=
  match chat_name r with
  | Some _ => true
  | None => false
  end.

Definition with_chat_name (rows : list row) : list row :=
  filter has_chat_name rows.

(** The relation between the counters and the error ledger that every
    attempt maintains. *)
Definition stats_inv (st : Stats) : Prop :=
  total_processed st =
  successfully_deleted st + skipped st + Py.len (errors st).

(** What a stretch of a run adds to the statistics. *)
Definition stats_delta (st st' : Stats) (processed deleted nfailed nskipped : Z)
           (ledger : list error_entry) : Prop :=
  total_processed st' = total_processed st + processed /\
  successfully_deleted st' = successfully_deleted st + deleted /\
  failed st' = failed st + nfailed /\
  skipped st' = skipped st + nskipped /\
  errors st' = errors st ++ ledger.

Definition is_fetch_call {entity} (ev : event entity) : bool :=
  match ev with
  | EvGetMessages _ _ => true
  | _ => false
  end.

Definition is_delete_call {entity} (ev : event entity) : bool :=
  match ev with
  | EvDeleteMessages _ _ _ => true
  | _ => false
  end.

Definition is_pacing_sleep {entity} (ev : event entity) : bool :=
  match ev with
  | EvSleep BatchPacing _ => true
  | _ => false
  end.

Definition count_events {entity} (p : event entity -> bool)
           (tr : list (event entity)) : Z :=
  Py.len (filter p tr).

(** The fetches and deletions a run asks of the service about messages. *)
Definition message_calls {entity} (tr : list (event entity))
  : list (event entity) :=
  filter (fun ev => is_fetch_call ev || is_delete_call ev) tr.



(** Batches run one after the other with a pacing sleep between two
    consecutive ones and none after the last: the pacing rule of one chat,
    written down independently of the index arithmetic of the loop. *)
Fixpoint paced {W entity} (delay_between_batches : Z)
         (jobs : list (M W entity unit)) : M W entity unit :=
  match jobs with
  | [] => ret tt
  | job :: jobs' =>
      match jobs' with
      | [] => job ;; ret tt
      | _ :: _ =>
          job ;;
          (if 0 <? delay_between_batches
           then sleep BatchPacing delay_between_batches
           else ret tt) ;;
          paced delay_between_batches jobs'
      end
  end.

(** The terminal states of a message, and what each one does to the
    statistics (lines 253-266). *)
Inductive outcome : Type :=
| Deleted
| Skipped
| Failed (detail : string).

Definition record_outcome (name : string) (id : Z) (o : outcome)
           (st : Stats) : Stats :=
  match o with
  | Deleted => add_successfully_deleted 1 (add_total_processed 1 st)
  | Skipped => add_skipped 1 (add_total_processed 1 st)
  | Failed detail =>
      append_error (mkError name id detail)
                   (add_failed 1 (add_total_processed 1 st))
  end.

(** The outcome of a live attempt whose delete call was answered by [r]
    (lines 173-195), and the back-off sleep that goes with it. *)
Definition outcome_of_answer (r : result bool) : outcome :=
  match r with
  | Ok true => Deleted
  | Ok false => Failed "Deletion failed"
  | Raise (FloodWaitError n) =>
      Failed ("Rate limited, waited " ++ Py.str_of_Z n ++ "s")%string
  | Raise ChatAdminRequiredError => Failed "Admin rights required"
  | Raise MessageDeleteForbiddenError => Failed "Message deletion forbidden"
  | Raise e => Failed ("Unexpected error: " ++ exn_text e)%string
  end.

Definition backoff_of_answer {entity} (r : result bool)
  : list (event entity) :=
  match r with
  | Raise (FloodWaitError n) => [EvSleep FloodBackoff n]
  | _ => []
  end.

Definition zsum (l : list Z) : Z := fold_right Z.add 0 l.

(** A graded relation between the states before and after a stretch of
    a run that handles [n] candidates: stretches compose and the grades
    add up, and a stretch that only resolves chats or sleeps has grade 0. *)
Class Graded {W entity} (R : Z -> state W entity -> state W entity -> Prop)
  : Prop := {
  graded_quiet : forall s s' tr,
      stats s' = stats s -> trace s' = trace s ++ tr ->
      message_calls tr = [] -> R 0 s s';
  graded_add : forall a b s s1 s2,
      R a s s1 -> R b s1 s2 -> R (a + b) s s2
}.

(** Grade [n] of a dry run: [n] attempts, all skipped, and nothing asked
    of the service about messages. *)
Definition dry_grade {W entity} (n : Z) (s s' : state W entity) : Prop :=
  stats_delta (stats s) (stats s') n 0 0 n [] /\
  message_calls (trace s') = message_calls (trace s).

(** Grade [n] of any run: at most [n] attempts and at most [n] delete
    calls. *)
Definition attempt_grade {W entity} (n : Z) (s s' : state W entity) : Prop :=
  total_processed (stats s) <= total_processed (stats s')
  <= total_processed (stats s) + n /\
  count_events is_delete_call (trace s)
  <= count_events is_delete_call (trace s')
  <= count_events is_delete_call (trace s) + n.

(** Grade [n]: [n] attempts have been counted. *)
Definition processed_grade {W entity} (n : Z) (s s' : state W entity)
  : Prop :=
  total_processed (stats s') = total_processed (stats s) + n.

(** [m] keeps the property [P] of the state, whether it returns or
    raises. *)
Definition preserves {W entity A} (P : state W entity -> Prop)
           (m : M W entity A) : Prop :=
  forall s, P s -> P (snd (m s)).

(** [m] always returns, leaves the statistics alone and adds to the trace
    only events that satisfy [p]. *)
Definition quiet {W entity A} (p : event entity -> bool)
           (m : M W entity A) : Prop :=
  forall s, exists a s' tr,
    m s = (Ok a, s') /\ stats s' = stats s /\
    trace s' = trace s ++ tr /\ forallb p tr = true.

Definition is_resolution_call {entity} (ev : event entity) : bool :=
  match ev with
  | EvGetEntity _ | EvGetDialogs => true
  | _ => false
  end.

(** ** A scripted service, for the concrete scenarios *)

(** The chats [get_entity] does not know, and what fetching and deleting
    each message id answers. *)
Record script : Type := mkScript {
  unknown_chats : list Z;
  fetch_answer : Z -> result (option Message);
  delete_answer : Z -> result bool
}.

Definition scripted_client (sc : script) : TelegramClient unit Z := {|
  get_entity p w :=
    match p with
    | PeerId c =>
        if existsb (Z.eqb c) (unknown_chats sc)
        then (Raise (ValueError "Could not find the input entity"), w)
        else (Ok c, w)
    | PeerName _ =>
        (Raise (ValueError "Could not find the input entity"), w)
    end;
  get_dialogs w := (Ok [], w);
  get_messages _ id w := (fetch_answer sc id, w);
  delete_messages _ ids _ w :=
    (match ids with
     | [id] => delete_answer sc id
     | _ => Ok true
     end, w)
|}.

(** Every chat is known, every message is there and owner-authored, every
    deletion is acknowledged. *)
Definition all_fine : script :=
  mkScript [] (fun _ => Ok (Some (mkMessage true))) (fun _ => Ok true).

Definition candidate (chat : Z) (name : string) (id : Z) : row :=
  mkRow chat (Some name) (Some "private") id 0 "text".

(** Chat A with ids 1, 2, 3 and chat B with id 4. *)
Definition two_chats : DataFrame row :=
  Frame [candidate 1 "A" 1; candidate 1 "A" 2; candidate 1 "A" 3;
         candidate 2 "B" 4].

(** Three candidates: the second has no chat name, the chat of the third
    is chat 2. *)
Definition one_without_name : DataFrame row :=
  Frame [candidate 1 "A" 1;
         mkRow 5 None (Some "personal_chat") 9 0 "text";
         candidate 2 "B" 4].

(** Three chats, the second of which cannot be resolved. *)
Definition three_chats : DataFrame row :=
  Frame [candidate 1 "A" 1; candidate 2 "B" 2; candidate 2 "B" 3;
         candidate 3 "C" 4].

Definition second_unknown : script :=
  mkScript [2] (fun _ => Ok (Some (mkMessage true))) (fun _ => Ok true).

(** Deleting message 2 hits a flood wait of five seconds. *)
Definition flood_on_2 : script :=
  mkScript [] (fun _ => Ok (Some (mkMessage true)))
           (fun id => if id =? 2 then Raise (FloodWaitError 5) else Ok true).

(** Fetching message 1 is refused for want of admin rights, fetching
    message 2 hits a flood wait of five seconds. *)
Definition signals_on_fetch : script :=
  mkScript []
           (fun id => if id =? 1 then Raise ChatAdminRequiredError
                      else if id =? 2 then Raise (FloodWaitError 5)
                      else Ok (Some (mkMessage true)))
           (fun _ => Ok true).

(** Message 1 is gone, message 2 is not the owner's, message 3 is not
    acknowledged. *)
Definition mixed_answers : script :=
  mkScript []
           (fun id => if id =? 1 then Ok None
                      else if id =? 2 then Ok (Some (mkMessage false))
                      else Ok (Some (mkMessage true)))
           (fun id => if id =? 3 then Ok false else Ok true).

(** ** Messages for the keyword scenarios *)

Definition card_row : row :=
  mkRow 1 (Some "A") (Some "private") 1 0 "my card is here".

Definition cardboard_row : row :=
  mkRow 1 (Some "A") (Some "private") 2 0 "cardboard box".

(** An export of the account 42 with two chats.  Each chat holds one
    message of the owner, and both messages have the id 5: a supergroup
    numbers its messages on its own.  Only the second text contains the
    word card. *)
Definition colliding_export : export :=
  mkExport (Some (mkPersonal (Some 42) (Some "Me")))
           (Some
              [mkJChat 10 (Str "Alice") (Str "personal_chat")
                       [mkJMessage 5 1000 (TextStr "see you tomorrow") false
                                   (Str "user42") (Str "Me")];
               mkJChat 20 (Str "Bank") (Str "public_supergroup")
                       [mkJMessage 5 2000 (TextStr "my card number") false
                                   (Str "user42") (Str "Me")]])
           true.

Definition alice_row : row :=
  mkRow 10 (Some "Alice") (Some "personal_chat") 5 1000 "see you tomorrow".

Definition bank_row : row :=
  mkRow 20 (Some "Bank") (Some "public_supergroup") 5 2000
        "my card number".

(** ** Vocabulary of the further statements about the deleter *)

(** The test of the dialog scan (line 118). *)
Definition dialog_matches {entity} (chat_identifier : string)
           (d : dialog entity) : bool :=
  match dialog_name d with
  | Some (String c n) =>
      Py.contains (Py.lower chat_identifier) (Py.lower (String c n))
  | _ => false
  end.

(** A delete call for a candidate among [rows]: it asks, with [revoke]
    set, for the one message of a row that has a chat name, in a chat
    entity that [find_chat_by_name_or_id] answered for the chat id of that
    very row.  Any other event passes. *)
Definition delete_call_of_candidate {W entity}
           {client : TelegramClient W entity} (rows : list row)
           (ev : event entity) : Prop :=
  match ev with
  | EvDeleteMessages chat ids revoke =>
      revoke = true /\
      exists r, In r rows /\ has_chat_name r = true /\
                ids = [message_id r] /\
                exists s0 s1 : state W entity,
                  find_chat_by_name_or_id (Py.str_of_Z (chat_id r)) s0
                  = (Ok (Some chat), s1)
  | _ => True
  end.

(** Grade [n]: the three counters of terminal states have grown by [n] in
    total. *)
Definition account_grade {W entity} (n : Z) (s s' : state W entity) : Prop :=
  successfully_deleted (stats s') + failed (stats s') + skipped (stats s')
  = successfully_deleted (stats s) + failed (stats s) + skipped (stats s) + n.

(** Grade [n] of a live run whose chats all resolve: [n] attempts, each
    one a deletion or a failure, and one ledger entry per failure. *)
Definition ledger_grade {W entity} (n : Z) (s s' : state W entity) : Prop :=
  total_processed (stats s') = total_processed (stats s) + n /\
  skipped (stats s') = skipped (stats s) /\
  successfully_deleted (stats s') + failed (stats s')
  = successfully_deleted (stats s) + failed (stats s) + n /\
  Py.len (errors (stats s')) - Py.len (errors (stats s))
  = failed (stats s') - failed (stats s) /\
  successfully_deleted (stats s) <= successfully_deleted (stats s') /\
  failed (stats s) <= failed (stats s').

(** Two dialogs for the fuzzy resolution: the name of the second contains
    the name of the first. *)
Definition named_dialogs : list (dialog Z) :=
  [mkDialog None 7; mkDialog (Some "Family Group") 8;
   mkDialog (Some "My family group chat") 9].

(** A service that lists the given dialogs and otherwise behaves as
    [all_fine]. *)
Definition dialogs_client (dialogs : list (dialog Z)) : TelegramClient unit Z := {|
  get_entity p w := get_entity (TelegramClient := scripted_client all_fine) p w;
  get_dialogs w := (Ok dialogs, w);
  get_messages e id w :=
    get_messages (TelegramClient := scripted_client all_fine) e id w;
  delete_messages e ids revoke w :=
    delete_messages (TelegramClient := scripted_client all_fine) e ids revoke w
|}.

(** ** Vocabulary of the further statements about the analyzer *)

(** A message the fallback scan of the user id passes over: it has no
    [from_id], or one that does not start with [user]. *)
Definition no_user_from_id (m : json_message) : bool :=
  match j_from_id m with
  | Absent => true
  | Str s => negb (Py.startswith s "user")
  | Null => false
  end.

(** An export without [personal_information]: a message of somebody else
    comes first, the owner's answer has its [out] flag set. *)
Definition anonymous_export : export :=
  mkExport None
           (Some
              [mkJChat 10 Absent Absent
                       [mkJMessage 1 1000 (TextStr "service") false Absent
                                   Absent;
                        mkJMessage 2 1100 (TextStr "hello") false
                                   (Str "user77") (Str "Bob");
                        mkJMessage 3 1200 (TextStr "hi Bob") true
                                   (Str "user42") (Str "Me");
                        mkJMessage 4 1300 (TextStr "bye") false
                                   (Str "user77") (Str "Bob")]])
           true.

(** The same export, led by a message whose [from_id] is [null]. *)
Definition null_sender_export : export :=
  mkExport None
           (Some
              [mkJChat 10 Absent Absent
                       [mkJMessage 1 1000 (TextStr "gone") false Null Null;
                        mkJMessage 3 1200 (TextStr "hi Bob") true
                                   (Str "user42") (Str "Me")]])
           true.

(** An export of account 42 in which nothing is outgoing. *)
Definition incoming_only_export : export :=
  mkExport (Some (mkPersonal (Some 42) (Some "Me")))
           (Some
              [mkJChat 10 (Str "Bob") (Str "personal_chat")
                       [mkJMessage 2 1100 (TextStr "hello") false
                                   (Str "user77") (Str "Bob")]])
           true.

(** ** [Config] (config.py) *)

(** The three settings read with [os.getenv]: unset, or a string. *)
Record Config : Type := mkConfig {
  API_ID : option string;
  API_HASH : option string;
  PHONE_NUMBER : option string
}.

Definition BATCH_SIZE : Z := 100.
Definition DELAY_BETWEEN_BATCHES : Z := 2.

(** The truth value of a setting: unset and the empty string are falsy. *)
Definition env_truthy (v : option string) : bool :=
  match v with
  | Some (String _ _) => true
  | _ => false
  end.

(** The names of [required] whose setting is falsy (line 40). *)
Definition missing_settings (cls : Config) : list string :=
  map fst
      (filter (fun setting => negb (env_truthy (snd setting)))
              [("API_ID", API_ID cls); ("API_HASH", API_HASH cls);
               ("PHONE_NUMBER", PHONE_NUMBER cls)]).

(** [Config.validate] (lines 36-45). *)
Definition validate (cls : Config) : result bool :=
  match missing_settings cls with
  | [] => Ok true
  | missing =>
      Raise (ValueError ("Missing required configuration: "
                           ++ Py.join ", " missing)%string)
  end.

(** ** The command line of the deleter (telegram_deleter.py, lines 318-330) *)

(** An [argparse] flag with [action='store_true']: [True] when given, its
    default otherwise. *)
Definition store_true (default given : bool) : bool :=
  if given then true else default.

(** [dry_run = not args.execute if args.execute else args.dry_run], where
    [--dry-run] has the default [True] and [--execute] the default
    [False]. *)
Definition main_dry_run (dry_run_given execute_given : bool) : bool :=
  let args_dry_run := store_true true dry_run_given in
  let args_execute := store_true false execute_given in
  if args_execute then negb args_execute else args_dry_run.

(** ** Sessions *)

(** Opening and closing the session: [client.start], [client.get_me] and
    [client.disconnect].  They move the state of the service and may
    raise; the trace, which records what is asked about chats and
    messages, has no event for them. *)
Class SessionClient (W : Type) : Type := {
  start : W -> result unit * W;
  get_me : W -> result unit * W;
  disconnect : W -> result unit * W
}.

(** What the file system answers to the three writes of a run of
    [auto_delete_old_messages]: the preview [to_csv] under [output/]
    (lines 269-273), which does not create that directory, the log file
    that [TelegramDeleter.__init__] opens through [setup_logging]
    (telegram_deleter.py, lines 52-68), and the error report of
    [save_error_report] (telegram_deleter.py, lines 293-310). *)
Record files : Type := mkFiles {
  preview_to_csv : result unit;
  setup_logging : result unit;
  save_error_report : result unit
}.

Section Session.
Context {W entity : Type} {client : TelegramClient W entity}
        {session : SessionClient W}.
Context {compiled : Type} {engine : RegexEngine compiled}.

Definition untraced {A} (call : W -> result A * W) : M W entity A :=
  fun s =>
    let (r, w') := call (world s) in
    (r, mkState w' (stats s) (trace s)).

(** [try: body finally: cleanup]. *)
Definition try_finally {A} (body : M W entity A) (cleanup : M W entity unit)
  : M W entity A :=
  fun s =>
    match body s with
    | (r, s1) =>
        match cleanup s1 with
        | (Ok _, s2) => (r, s2)
        | (Raise e, s2) => (Raise e, s2)
        end
    end.

(** [TelegramDeleter.connect] (lines 70-88). *)
Definition connect : M W entity bool :=
  try_except
    (untraced start ;;
     untraced get_me ;;
     ret true)
    (fun _ => ret false).

(** [TelegramDeleter.disconnect] (lines 90-93), once [connect] has set
    the client. *)
Definition disconnect_deleter : M W entity unit := untraced disconnect.

(** [auto_delete_old_messages] (auto_delete_old.py, lines 200-316).
    [loaded] is what [load_export] gives for the export file, [now] is
    [datetime.now()] and [disk] is what the file system answers.  The
    deleter is built when there is something to delete, with the
    statistics of [__init__].  The function returns nothing: every
    [return] is a bare one, and the handler of line 314 ends every
    exception. *)
Definition auto_delete_old_messages (config : Config) (loaded : result export)
           (disk : files) (now hours_to_keep : Z) (keywords : list string)
           (case_sensitive whole_words : bool) : M W entity unit :=
  try_except
    (_ <- lift_result (validate config) ;;
     data <- lift_result loaded ;;
     all_messages <- lift_result (extract_outgoing_messages (Some data)) ;;
     old_messages <- lift_result
                       (select_old_messages all_messages now hours_to_keep
                                            keywords case_sensitive
                                            whole_words) ;;
     if frame_empty old_messages then ret tt
     else
       lift_result (preview_to_csv disk) ;;
       lift_result (setup_logging disk) ;;
       update_stats (fun _ => init_stats) ;;
       connected <- connect ;;
       if negb connected then ret tt
       else
         try_finally
           (stats <- delete_messages_batch old_messages false BATCH_SIZE
                                           DELAY_BETWEEN_BATCHES ;;
            match errors stats with
            | [] => ret tt
            | _ :: _ => lift_result (save_error_report disk)
            end)
           disconnect_deleter)
    (fun _ => ret tt).

(** An entry of [messages_to_delete] in [api_only_delete_messages]
    (lines 125-131); the dialog stands for its entity. *)
Record to_delete : Type := mkToDelete {
  td_chat_entity : entity;
  td_message_id : Z;
  td_chat_name : string;
  td_date : Z;
  td_text : string
}.

(** The deletion loop of [api_only_delete_messages] (lines 160-182),
    from given counts; it returns [(deleted_count, failed_count)]. *)
Fixpoint api_delete_loop (messages_to_delete : list to_delete)
         (deleted_count failed_count : Z) : M W entity (Z * Z) :=
  match messages_to_delete with
  | [] => ret (deleted_count, failed_count)
  | msg :: rest =>
      success <- try_except
                   (r <- delete_message (td_chat_entity msg)
                                        (td_message_id msg) true false ;;
                    ret (fst r))
                   (fun _ => ret false) ;;
      if (success : bool)
      then api_delete_loop rest (deleted_count + 1) failed_count
      else api_delete_loop rest deleted_count (failed_count + 1)
  end.

End Session.

(** A session that opens and closes without incident. *)
Definition easy_session : SessionClient unit := {|
  start w := (Ok tt, w);
  get_me w := (Ok tt, w);
  disconnect w := (Ok tt, w)
|}.

(** A session that cannot be opened. *)
Definition refused_session : SessionClient unit := {|
  start w := (Raise (OtherError "Could not connect"), w);
  get_me w := (Ok tt, w);
  disconnect w := (Ok tt, w)
|}.

Definition full_config : Config :=
  mkConfig (Some "12345") (Some "0123456789abcdef") (Some "+15550100").

(** A file system on which every write succeeds, and one without the
    directory [output]. *)
Definition writable : files := mkFiles (Ok tt) (Ok tt) (Ok tt).

Definition no_output_directory : files :=
  mkFiles (Raise (OtherError
                    "Cannot save file into a non-existent directory: 'output'"))
          (Ok tt) (Ok tt).

(* ================================================================= *)
(** * Part II: theorems *)
(* ================================================================= *)

(** ** Ranges and slices *)


Lemma slice_window {A} (l : list A) (i b : Z) :
  0 <= i -> 0 < b ->
  Py.slice l i (i + b) = firstn (Z.to_nat b) (skipn (Z.to_nat i) l).
Proof.
  intros Hi Hb. unfold Py.slice, Py.norm_index, Py.len.
  destruct (Z.ltb_spec i 0); [lia|].
  destruct (Z.ltb_spec (i + b) 0); [lia|].
  set (n := Z.of_nat (List.length l)).
  assert (Hn : 0 <= n) by (subst n; lia).
  destruct (Z_le_gt_dec (i + b) n) as [Hle|Hgt].
  - rewrite (Z.min_l (i + b)), (Z.min_l i) by lia.
    f_equal. f_equal. lia.
  - rewrite (Z.min_r (i + b)) by lia.
    destruct (Z_le_gt_dec i n) as [Hin|Hin].
    + rewrite (Z.min_l i) by lia.
      rewrite !firstn_all2; auto; rewrite List.length_skipn; subst n; lia.
    + rewrite (Z.min_r i) by lia.
      rewrite !skipn_all2 by (subst n; lia).
      now rewrite !firstn_nil.
Qed.

Lemma concat_slices {A} (l : list A) (b : Z) (fuel : nat) (i : Z) :
  0 < b -> 0 <= i -> Py.len l - i <= Z.of_nat fuel ->
  List.concat (map (fun j => Py.slice l j (j + b))
              (Py.range_up fuel i (Py.len l) b))
  = skipn (Z.to_nat i) l.
Proof.
  intros Hb. revert i. induction fuel as [|fuel IH]; intros i Hi Hf; simpl.
  - rewrite skipn_all2; [reflexivity | unfold Py.len in Hf; lia].
  - destruct (Z.ltb_spec i (Py.len l)) as [Hlt|Hge].
    + simpl. rewrite IH by lia. rewrite slice_window by lia.
      replace (Z.to_nat (i + b)) with (Z.to_nat b + Z.to_nat i)%nat by lia.
      rewrite <- skipn_skipn. apply firstn_skipn.
    + simpl. rewrite skipn_all2; [reflexivity | unfold Py.len in Hge; lia].
Qed.



(** ** The monad *)

Ltac munfold :=
  unfold bind, ret, raise, try_except, lift_result, remote, sleep,
    update_stats, get_stats in *.

Section MonadFacts.
Context {W entity : Type}.
Implicit Types s : state W entity.

Lemma preserves_bind {A B} (P : state W entity -> Prop)
      (m : M W entity A) (k : A -> M W entity B) :
  preserves P m -> (forall a, preserves P (k a)) -> preserves P (bind m k).
Proof.
  intros Hm Hk s HP. unfold bind.
  specialize (Hm s HP). destruct (m s) as [[a|e] s1]; simpl in *.
  - now apply Hk.
  - exact Hm.
Qed.

Lemma preserves_try {A} (P : state W entity -> Prop)
      (m : M W entity A) (h : exn -> M W entity A) :
  preserves P m -> (forall e, preserves P (h e)) ->
  preserves P (try_except m h).
Proof.
  intros Hm Hh s HP. unfold try_except.
  specialize (Hm s HP). destruct (m s) as [[a|e] s1]; simpl in *.
  - exact Hm.
  - now apply Hh.
Qed.

Lemma preserves_for_each {A} (P : state W entity -> Prop) (l : list A)
      (body : A -> M W entity unit) :
  (forall x, preserves P (body x)) -> preserves P (for_each l body).
Proof.
  intros Hb. induction l as [|x l IH]; simpl.
  - intros s HP. exact HP.
  - apply preserves_bind; auto.
Qed.

Lemma for_each_app {A} (l1 l2 : list A) (body : A -> M W entity unit) s :
  for_each (l1 ++ l2) body s =
  (for_each l1 body ;; for_each l2 body) s.
Proof.
  revert s. induction l1 as [|x l1 IH]; intros s; simpl.
  - reflexivity.
  - unfold bind. destruct (body x s) as [[[]|e] s1]; [|reflexivity].
    rewrite IH. reflexivity.
Qed.

End MonadFacts.

(** ** Resolution and single attempts *)

Section DeleterFacts.
Context {W entity : Type} {client : TelegramClient W entity}.
Implicit Types s : state W entity.

(** Resolving a chat never raises, never touches the statistics and
    talks to the service about entities and dialogs only. *)
Lemma find_chat_quiet (chat_identifier : string) :
  quiet is_resolution_call
        (find_chat_by_name_or_id (client := client) chat_identifier).
Proof.
  intros s. unfold find_chat_by_name_or_id. munfold.
  destruct (Py.isdigit chat_identifier
            || Py.startswith chat_identifier "-"
               && Py.isdigit (Py.tail chat_identifier)).
  - destruct (Py.int_of_str chat_identifier) as [c|e].
    + destruct (get_entity (PeerId c) (world s)) as [[en|e] w1];
        do 3 eexists; (split; [reflexivity|]); simpl;
        (split; [reflexivity|]); (split; [reflexivity|]); reflexivity.
    + exists None, s, []. rewrite app_nil_r. auto.
  - destruct (Py.startswith chat_identifier "@").
    + destruct (get_entity (PeerName chat_identifier) (world s))
        as [[en|e] w1];
        do 3 eexists; (split; [reflexivity|]); simpl;
        (split; [reflexivity|]); (split; [reflexivity|]); reflexivity.
    + destruct (get_dialogs (world s)) as [[ds|e] w1];
        do 3 eexists; (split; [reflexivity|]); simpl;
        (split; [reflexivity|]); (split; [reflexivity|]); reflexivity.
Qed.

(** A dry-run attempt does nothing at all. *)
Lemma delete_message_dry (chat_entity : entity) (id : Z) (revoke : bool) s :
  delete_message chat_entity id revoke true s =
  (Ok (true, "DRY RUN: Would delete message"), s).
Proof. reflexivity. Qed.

(** An attempt never raises and never touches the statistics. *)
Lemma delete_message_returns (chat_entity : entity) (id : Z)
      (revoke dry_run : bool) s :
  exists success detail s',
    delete_message chat_entity id revoke dry_run s
    = (Ok (success, detail), s') /\
    stats s' = stats s.
Proof.
  destruct dry_run.
  - exists true, "DRY RUN: Would delete message", s. auto.
  - unfold delete_message, get_message_from_chat. munfold.
    destruct (get_messages chat_entity id (world s)) as [[[m|]|e] w1];
      simpl; try (do 3 eexists; split; reflexivity).
    destruct (out m); simpl; try (do 3 eexists; split; reflexivity).
    destruct (delete_messages chat_entity [id] revoke w1)
      as [[[|]|e] w2]; simpl; try (do 3 eexists; split; reflexivity).
    destruct e; do 3 eexists; split; reflexivity.
Qed.

(** What one attempt adds to the statistics: a deletion, a dry-run
    skip, or a failure with its ledger entry. *)
Lemma process_message_delta (chat_entity : entity) (name : string)
      (dry_run : bool) (id : Z) s :
  exists s',
    process_message chat_entity name dry_run id s = (Ok tt, s') /\
    ((dry_run = false /\ stats_delta (stats s) (stats s') 1 1 0 0 []) \/
     (dry_run = true /\ stats_delta (stats s) (stats s') 1 0 0 1 []) \/
     (dry_run = false /\ exists detail,
         stats_delta (stats s) (stats s') 1 0 1 0 [mkError name id detail])).
Proof.
  unfold process_message.
  destruct (delete_message_returns chat_entity id true dry_run s)
    as (ok & detail & s1 & Hrun & Hst).
  unfold bind at 1. rewrite Hrun.
  assert (Hdry : ok = false -> dry_run = false).
  { intros ->. destruct dry_run; [|reflexivity].
    rewrite delete_message_dry in Hrun. discriminate. }
  destruct ok.
  - destruct dry_run; munfold; simpl; eexists; (split; [reflexivity|]);
      simpl; rewrite Hst; unfold stats_delta; simpl.
    + right; left. rewrite app_nil_r. repeat split; lia.
    + left. rewrite app_nil_r. repeat split; lia.
  - rewrite (Hdry eq_refl). munfold; simpl. eexists.
    split; [reflexivity|]. right; right. split; [reflexivity|].
    exists detail. simpl. rewrite Hst. unfold stats_delta; simpl.
    repeat split; lia.
Qed.

Lemma stats_delta_inv (st st' : Stats) (p d f k : Z)
      (ledger : list error_entry) :
  stats_delta st st' p d f k ledger ->
  p = d + k + Py.len ledger ->
  stats_inv st -> stats_inv st'.
Proof.
  unfold stats_delta, stats_inv, Py.len.
  intros (Ht & Hd & Hf & Hk & He) Hp Hinv.
  rewrite Ht, Hd, Hk, He, List.length_app. lia.
Qed.

Lemma process_message_inv (chat_entity : entity) (name : string)
      (dry_run : bool) (id : Z) :
  preserves (fun s => stats_inv (stats s))
            (process_message chat_entity name dry_run id).
Proof.
  intros s Hinv.
  destruct (process_message_delta chat_entity name dry_run id s)
    as (s' & Hrun & Hcases).
  rewrite Hrun. simpl.
  destruct Hcases as [[_ H]|[[_ H]|[_ [detail H]]]];
    eapply stats_delta_inv; eauto.
Qed.

Lemma process_batch_inv (chat_entity : entity) (name : string)
      (ids : list Z) (dry_run : bool) (batch_size delay : Z) (i : Z) :
  preserves (fun s => stats_inv (stats s))
            (process_batch chat_entity name ids dry_run batch_size delay i).
Proof.
  unfold process_batch. apply preserves_bind.
  - apply preserves_for_each. intros id. apply process_message_inv.
  - intros _. destruct (_ && _); intros s H; exact H.
Qed.

(** A chat that does not resolve costs its whole candidate count in
    [failed], and nothing else: no attempt is counted and the ledger
    gets no entry. *)
Lemma process_chat_unresolved (dry_run : bool) (batch_size delay : Z)
      (cid : Z) (name : string) (rows : list row) s s1 :
  find_chat_by_name_or_id (Py.str_of_Z cid) s = (Ok None, s1) ->
  process_chat dry_run batch_size delay ((cid, name), rows) s
  = (Ok tt, mkState (world s1) (add_failed (Py.len rows) (stats s))
                    (trace s1)).
Proof.
  intros Hres. unfold process_chat. unfold bind at 1. rewrite Hres.
  destruct (find_chat_quiet (Py.str_of_Z cid) s)
    as (a & s' & tr & Hrun & Hst & _).
  rewrite Hres in Hrun. injection Hrun as _ <-.
  unfold update_stats. now rewrite Hst.
Qed.

Lemma process_chat_inv (dry_run : bool) (batch_size delay : Z)
      (group : group_key * list row) :
  preserves (fun s => stats_inv (stats s))
            (process_chat dry_run batch_size delay group).
Proof.
  destruct group as [[cid name] rows]. unfold process_chat.
  apply preserves_bind.
  - intros s Hinv.
    destruct (find_chat_quiet (Py.str_of_Z cid) s)
      as (a & s' & tr & Hrun & Hst & _).
    rewrite Hrun. simpl. now rewrite Hst.
  - intros [chat_entity|].
    + apply preserves_bind.
      * intros s Hinv. exact Hinv.
      * intros idxs. apply preserves_for_each. intros i.
        apply process_batch_inv.
    + intros s Hinv. unfold update_stats, stats_inv in *. simpl. exact Hinv.
Qed.

Lemma delete_messages_batch_inv (df : DataFrame row) (dry_run : bool)
      (batch_size delay : Z) :
  preserves (fun s => stats_inv (stats s))
            (delete_messages_batch df dry_run batch_size delay).
Proof.
  unfold delete_messages_batch. destruct (frame_empty df).
  - intros s H. exact H.
  - apply preserves_bind.
    + apply preserves_for_each. intros g. apply process_chat_inv.
    + intros _ s H. exact H.
Qed.

End DeleterFacts.

(** ** Statistics *)

(** C10. The statistics satisfy
    [total_processed = successfully_deleted + skipped + len(errors)]
    throughout a call of [delete_messages_batch]: the relation holds for
    the statistics of [__init__], and from statistics that satisfy it every
    attempt, every chat and the whole call lead to statistics that satisfy
    it.  [failed] is not tied to the ledger: a chat that does not resolve
    adds its number of candidates to [failed] while [total_processed] and
    the ledger stay as they are, and a run that meets such a chat ends with
    [failed] above [len(errors)]. *)
Theorem C10_stats_invariant :
  stats_inv init_stats /\
  (forall (W entity : Type) (client : TelegramClient W entity)
          (df : DataFrame row) (dry_run : bool) (batch_size delay : Z)
          (s : state W entity),
      stats_inv (stats s) ->
      stats_inv (stats (snd (delete_messages_batch df dry_run batch_size
                                                   delay s))) /\
      (forall chat_entity name id s0,
          stats_inv (stats s0) ->
          stats_inv (stats (snd (process_message chat_entity name dry_run
                                                 id s0)))) /\
      (forall group s0,
          stats_inv (stats s0) ->
          stats_inv (stats (snd (process_chat dry_run batch_size delay
                                              group s0)))) /\
      (forall cid name rows s0 s1,
          find_chat_by_name_or_id (Py.str_of_Z cid) s0 = (Ok None, s1) ->
          exists s2,
            process_chat dry_run batch_size delay ((cid, name), rows) s0
            = (Ok tt, s2) /\
            stats_delta (stats s0) (stats s2) 0 0 (Py.len rows) 0 [])) /\
  (let st := stats (snd (delete_messages_batch
                           (client := scripted_client second_unknown)
                           three_chats false 2 2 (fresh tt))) in
   stats_inv st /\ Py.len (errors st) < failed st).
Proof.
  split; [reflexivity|]. split.
  - intros W entity client df dry_run batch_size delay s Hinv.
    split; [now apply delete_messages_batch_inv|].
    split; [intros; now apply process_message_inv|].
    split; [intros; now apply process_chat_inv|].
    intros cid name rows s0 s1 Hres. eexists.
    split; [apply process_chat_unresolved; exact Hres|].
    unfold stats_delta; simpl. rewrite app_nil_r. repeat split; lia.
  - vm_compute. split; reflexivity.
Qed.

(** C10 at the run over three chats whose second chat is unknown, started
    from fresh statistics. *)
Lemma C10_stats_invariant_witness :
  stats_inv (stats (fresh (W := unit) (entity := Z) tt)) /\
  stats_inv (stats (snd (delete_messages_batch
                           (client := scripted_client second_unknown)
                           three_chats false 2 2 (fresh tt)))).
Proof.
  split; [reflexivity|].
  apply (proj1 (proj1 (proj2 C10_stats_invariant) unit Z
                  (scripted_client second_unknown) three_chats false 2 2
                  (fresh tt) eq_refl)).
Defined.

(** ** Chats that do not resolve *)

Section Resolution.
Context {W entity : Type} {client : TelegramClient W entity}.
Implicit Types s : state W entity.

(** C3, as the code has it. When a chat does not resolve, the run goes
    on with the next chat from a state in which only [failed] has grown,
    by the number of the chat's candidates: no attempt is counted, the
    ledger gets no entry, and no message of the chat is fetched or
    deleted. The chats before and after it are processed as they would
    be without it. *)
Theorem C3_unresolved_chat (dry_run : bool) (batch_size delay : Z)
        (before after : list (group_key * list row))
        (cid : Z) (name : string) (rows : list row) s0 s s1 :
  for_each before (process_chat dry_run batch_size delay) s0 = (Ok tt, s) ->
  find_chat_by_name_or_id (Py.str_of_Z cid) s = (Ok None, s1) ->
  let s2 := mkState (world s1) (add_failed (Py.len rows) (stats s))
                    (trace s1) in
  for_each (before ++ ((cid, name), rows) :: after)
           (process_chat dry_run batch_size delay) s0
  = for_each after (process_chat dry_run batch_size delay) s2 /\
  stats_delta (stats s) (stats s2) 0 0 (Py.len rows) 0 [] /\
  message_calls (trace s2) = message_calls (trace s).
Proof.
  intros Hbefore Hres s2. split; [|split].
  - rewrite for_each_app. unfold bind at 1. rewrite Hbefore.
    change (for_each (((cid, name), rows) :: after)
                     (process_chat dry_run batch_size delay) s)
      with ((process_chat dry_run batch_size delay ((cid, name), rows) ;;
             for_each after (process_chat dry_run batch_size delay)) s).
    unfold bind at 1.
    now rewrite (process_chat_unresolved dry_run batch_size delay
                   cid name rows s s1 Hres).
  - unfold stats_delta; simpl. rewrite app_nil_r. repeat split; lia.
  - destruct (find_chat_quiet (Py.str_of_Z cid) s)
      as (a & s' & tr & Hrun & _ & Htr & Hall).
    rewrite Hres in Hrun. injection Hrun as _ <-.
    subst s2. simpl. rewrite Htr. unfold message_calls.
    rewrite filter_app.
    assert (Hnil : filter (fun ev : event entity =>
                             is_fetch_call ev || is_delete_call ev) tr = []).
    { clear -Hall. induction tr as [|ev tr IH]; [reflexivity|].
      simpl in Hall. apply andb_prop in Hall as [Hev Htl].
      simpl. destruct ev; try discriminate; simpl; auto. }
    rewrite Hnil. apply app_nil_r.
Qed.

End Resolution.

(** C3 at the three chats whose second chat is unknown: chat A has been
    processed, chat B does not resolve, chat C comes next. *)
Lemma C3_unresolved_chat_witness :
  let s := mkState tt (mkStats 1 1 0 0 [])
                   [EvGetEntity (PeerId 1); EvGetMessages 1 1;
                    EvDeleteMessages 1 [1] true] in
  let s1 := mkState tt (mkStats 1 1 0 0 [])
                    (trace s ++ [EvGetEntity (PeerId 2)]) in
  let s2 := mkState tt (mkStats 1 1 2 0 []) (trace s1) in
  for_each (groupby (frame_rows three_chats))
           (process_chat (client := scripted_client second_unknown)
                         false 2 2) (fresh tt)
  = for_each [((3, "C"), [candidate 3 "C" 4])]
             (process_chat (client := scripted_client second_unknown)
                           false 2 2) s2 /\
  stats_delta (stats s) (stats s2) 0 0 2 0 [] /\
  message_calls (trace s2) = message_calls (trace s).
Proof.
  exact (C3_unresolved_chat (client := scripted_client second_unknown)
           false 2 2
           [((1, "A"), [candidate 1 "A" 1])]
           [((3, "C"), [candidate 3 "C" 4])]
           2 "B" [candidate 2 "B" 2; candidate 2 "B" 3]
           (fresh tt) _ _ eq_refl eq_refl).
Defined.

(** C3 as stated fails: after the run over the three chats, live, the
    candidates 2 and 3 of the unknown chat B have no entry in the ledger,
    under whatever reason; the ledger is empty and [failed] is 2. *)
Lemma C3_counterexample :
  let run := delete_messages_batch
               (client := scripted_client second_unknown)
               three_chats false 2 2 (fresh tt) in
  fst run = Ok (mkStats 2 2 2 0 []) /\
  ~ (forall r, In r (frame_rows three_chats) -> chat_id r = 2 ->
               exists name detail,
                 In (mkError name (message_id r) detail)
                    (errors (stats (snd run)))).
Proof.
  split; [vm_compute; reflexivity|].
  intros H.
  destruct (H (candidate 2 "B" 2)) as (name & detail & Hin).
  - simpl. auto.
  - reflexivity.
  - vm_compute in Hin. exact Hin.
Qed.

(** ** Single attempts in live mode *)

Section LiveAttempt.
Context {W entity : Type} {client : TelegramClient W entity}.
Implicit Types s : state W entity.

(** A fetch that misses or raises: the attempt ends there. *)
Lemma process_message_fetch_miss (chat_entity : entity) (name : string)
      (id : Z) s r w1 :
  get_messages chat_entity id (world s) = (r, w1) ->
  (r = Ok None \/ exists e, r = Raise e) ->
  process_message chat_entity name false id s
  = (Ok tt, mkState w1 (record_outcome name id (Failed "Message not found")
                                       (stats s))
                    (trace s ++ [EvGetMessages chat_entity id])).
Proof.
  intros Hget Hr.
  unfold process_message, delete_message, get_message_from_chat. munfold.
  rewrite Hget. destruct Hr as [->|[e ->]]; reflexivity.
Qed.

Lemma process_message_not_out (chat_entity : entity) (name : string)
      (id : Z) s m w1 :
  get_messages chat_entity id (world s) = (Ok (Some m), w1) ->
  out m = false ->
  process_message chat_entity name false id s
  = (Ok tt, mkState w1 (record_outcome name id
                                       (Failed "Message is not from you")
                                       (stats s))
                    (trace s ++ [EvGetMessages chat_entity id])).
Proof.
  intros Hget Hout.
  unfold process_message, delete_message, get_message_from_chat. munfold.
  rewrite Hget. simpl. rewrite Hout. reflexivity.
Qed.

Lemma process_message_delete_call (chat_entity : entity) (name : string)
      (id : Z) s m w1 r w2 :
  get_messages chat_entity id (world s) = (Ok (Some m), w1) ->
  out m = true ->
  delete_messages chat_entity [id] true w1 = (r, w2) ->
  process_message chat_entity name false id s
  = (Ok tt, mkState w2 (record_outcome name id (outcome_of_answer r)
                                       (stats s))
                    (trace s ++ [EvGetMessages chat_entity id;
                                 EvDeleteMessages chat_entity [id] true]
                       ++ backoff_of_answer r)).
Proof.
  intros Hget Hout Hdel.
  unfold process_message, delete_message, get_message_from_chat. munfold.
  rewrite Hget. simpl. rewrite Hout. simpl. rewrite Hdel.
  destruct r as [[|]|e]; simpl; rewrite <- ?app_assoc; simpl;
    try reflexivity.
  destruct e; simpl; rewrite <- ?app_assoc; reflexivity.
Qed.

End LiveAttempt.

(** ** The loops of [delete_messages_batch] *)

Lemma zsum_app (l1 l2 : list Z) : zsum (l1 ++ l2) = zsum l1 + zsum l2.
Proof. induction l1 as [|x l1 IH]; simpl; lia. Qed.

Lemma zsum_ones {A} (l : list A) : zsum (map (fun _ => 1) l) = Py.len l.
Proof.
  unfold Py.len. induction l as [|x l IH]; [reflexivity|].
  change (zsum (map (fun _ => 1) (x :: l)))
    with (1 + zsum (map (fun _ : A => 1) l)).
  rewrite IH. simpl List.length. lia.
Qed.

Lemma zsum_lens {A} (ll : list (list A)) :
  zsum (map (@Py.len A) ll) = Py.len (List.concat ll).
Proof.
  induction ll as [|l ll IH]; [reflexivity|].
  change (zsum (map (@Py.len A) (l :: ll)))
    with (Py.len l + zsum (map (@Py.len A) ll)).
  rewrite IH. simpl List.concat. unfold Py.len.
  rewrite List.length_app. lia.
Qed.

Lemma len_nonneg {A} (l : list A) : 0 <= Py.len l.
Proof. unfold Py.len. lia. Qed.

Lemma message_calls_app {entity} (tr1 tr2 : list (event entity)) :
  message_calls (tr1 ++ tr2) = message_calls tr1 ++ message_calls tr2.
Proof. apply filter_app. Qed.

Lemma count_events_app {entity} (p : event entity -> bool)
      (tr1 tr2 : list (event entity)) :
  count_events p (tr1 ++ tr2) = count_events p tr1 + count_events p tr2.
Proof.
  unfold count_events, Py.len. rewrite filter_app, List.length_app. lia.
Qed.

Lemma no_message_calls_no_delete {entity} (tr : list (event entity)) :
  message_calls tr = [] -> count_events is_delete_call tr = 0.
Proof.
  unfold message_calls, count_events, Py.len.
  induction tr as [|ev tr IH]; [reflexivity|].
  simpl. destruct ev; simpl; auto; discriminate.
Qed.

Section Loops.
Context {W entity : Type} {client : TelegramClient W entity}.
Implicit Types s : state W entity.

Lemma bind_assoc_at {A B C} (m : M W entity A) (k : A -> M W entity B)
      (h : B -> M W entity C) s :
  ((x <- (y <- m ;; k y) ;; h x)) s = (y <- m ;; x <- k y ;; h x) s.
Proof.
  unfold bind. destruct (m s) as [[a|e] s1]; reflexivity.
Qed.

Lemma bind_ext_at {A B} (m : M W entity A) (k1 k2 : A -> M W entity B) s :
  (forall a s', k1 a s' = k2 a s') -> bind m k1 s = bind m k2 s.
Proof.
  intros H. unfold bind. destruct (m s) as [[a|e] s1]; auto.
Qed.

Lemma bind_ret_unit (m : M W entity unit) s : (m ;; ret tt) s = m s.
Proof.
  unfold bind, ret. destruct (m s) as [[[]|e] s1]; reflexivity.
Qed.

(** A loop whose every iteration returns and has a grade returns, with
    the sum of the grades. *)
Lemma for_each_additive {A}
      (R : Z -> state W entity -> state W entity -> Prop)
      (size : A -> Z) (body : A -> M W entity unit) (l : list A) :
  (forall s, R 0 s s) ->
  (forall a b s s1 s2, R a s s1 -> R b s1 s2 -> R (a + b) s s2) ->
  (forall x s, In x l -> exists s', body x s = (Ok tt, s') /\ R (size x) s s') ->
  forall s, exists s',
    for_each l body s = (Ok tt, s') /\ R (zsum (map size l)) s s'.
Proof.
  intros Hrefl Hadd. induction l as [|x l IH]; intros Hbody s.
  - exists s. split; [reflexivity | apply Hrefl].
  - destruct (Hbody x s (or_introl eq_refl)) as (s1 & Hx & HR1).
    destruct (IH (fun y s0 Hy => Hbody y s0 (or_intror Hy)) s1)
      as (s2 & Hl & HR2).
    exists s2. simpl. unfold bind. rewrite Hx. split; [exact Hl|].
    eapply Hadd; eauto.
Qed.

Lemma graded_refl (R : Z -> state W entity -> state W entity -> Prop)
      `{!Graded R} s : R 0 s s.
Proof.
  apply (graded_quiet s s []); auto using app_nil_r.
Qed.

(** The batch loop of a chat is the paced run of its batches. *)
Lemma batch_loop_paced (chat_entity : entity) (name : string)
      (ids : list Z) (dry_run : bool) (batch_size delay : Z)
      (fuel : nat) (i : Z) s :
  0 < batch_size -> Py.len ids - i <= Z.of_nat fuel ->
  for_each (Py.range_up fuel i (Py.len ids) batch_size)
           (process_batch chat_entity name ids dry_run batch_size delay) s
  = paced delay
          (map (fun batch =>
                  for_each batch (process_message chat_entity name dry_run))
               (map (fun j => Py.slice ids j (j + batch_size))
                    (Py.range_up fuel i (Py.len ids) batch_size))) s.
Proof.
  intros HB. revert i s. induction fuel as [|fuel IH]; intros i s Hf.
  - reflexivity.
  - simpl Py.range_up.
    destruct (Z.ltb_spec i (Py.len ids)) as [Hlt|Hge]; [|reflexivity].
    simpl for_each. simpl map. unfold process_batch at 1.
    destruct fuel as [|fuel'].
    + (* no fuel left: this was the last batch *)
      simpl Py.range_up. simpl for_each. simpl map. simpl paced.
      destruct (Z.ltb_spec (i + batch_size) (Py.len ids)); [lia|].
      simpl andb. rewrite bind_ret_unit. reflexivity.
    + remember (S fuel') as f eqn:Hfuel.
      destruct (Z.ltb_spec (i + batch_size) (Py.len ids)) as [Hnext|Hlast].
      * (* another batch follows *)
        assert (Hne : Py.range_up f (i + batch_size) (Py.len ids) batch_size
                      = (i + batch_size)
                          :: Py.range_up fuel' (i + batch_size + batch_size)
                               (Py.len ids) batch_size).
        { subst f. simpl. destruct (Z.ltb_spec (i + batch_size) (Py.len ids));
            [reflexivity | lia]. }
        simpl andb.
        rewrite bind_assoc_at.
        assert (Hpaced : forall job jobs s0,
                   jobs <> [] ->
                   paced delay (job :: jobs) s0
                   = (job ;;
                      (if 0 <? delay then sleep BatchPacing delay
                       else ret tt) ;;
                      paced delay jobs) s0).
        { intros job [|j jobs] s0 Hj; [congruence | reflexivity]. }
        rewrite Hpaced by (rewrite Hne; discriminate).
        apply bind_ext_at. intros _ s1.
        apply bind_ext_at. intros _ s2.
        apply IH. lia.
      * (* this is the last batch *)
        assert (Hnil : Py.range_up f (i + batch_size) (Py.len ids) batch_size
                       = []).
        { subst f. simpl. destruct (Z.ltb_spec (i + batch_size) (Py.len ids));
            [lia | reflexivity]. }
        rewrite Hnil. simpl for_each. simpl map. simpl paced.
        simpl andb. rewrite bind_ret_unit. reflexivity.
Qed.

End Loops.

(** ** [groupby] *)

Lemma zsum_cons (x : Z) (l : list Z) : zsum (x :: l) = x + zsum l.
Proof. reflexivity. Qed.

Lemma insert_row_sizes (key : group_key) (r : row)
      (gs : list (group_key * list row)) :
  zsum (map (fun g => Py.len (snd g)) (insert_row key r gs))
  = zsum (map (fun g => Py.len (snd g)) gs) + 1.
Proof.
  induction gs as [|[k rs] gs IH]; [reflexivity|].
  simpl insert_row. destruct (key_compare key k).
  - rewrite !map_cons, !zsum_cons. simpl snd. unfold Py.len.
    rewrite List.length_app. simpl List.length. lia.
  - rewrite !map_cons, !zsum_cons. simpl snd. unfold Py.len.
    simpl List.length. lia.
  - rewrite !map_cons, !zsum_cons, IH. lia.
Qed.

Lemma key_of_has_chat_name (r : row) :
  has_chat_name r = match key_of r with Some _ => true | None => false end.
Proof. unfold has_chat_name, key_of. destruct (chat_name r); reflexivity. Qed.

Lemma with_chat_name_le (rows : list row) :
  Py.len (with_chat_name rows) <= Py.len rows.
Proof.
  unfold Py.len, with_chat_name.
  pose proof (List.filter_length_le has_chat_name rows). lia.
Qed.

Lemma key_of_some (r : row) (cid : Z) (name : string) :
  key_of r = Some (cid, name) ->
  chat_id r = cid /\ chat_name r = Some name.
Proof.
  unfold key_of. destruct (chat_name r); [|discriminate].
  intros H. injection H as <- <-. auto.
Qed.

(** The groups partition the rows that have a chat name: their sizes add
    up to the number of those rows. *)
Lemma groupby_sizes (rows : list row) :
  zsum (map (fun g => Py.len (snd g)) (groupby rows))
  = Py.len (with_chat_name rows).
Proof.
  unfold groupby.
  assert (H : forall acc,
             zsum (map (fun g => Py.len (snd g))
                       (fold_left group_row rows acc))
             = zsum (map (fun g => Py.len (snd g)) acc)
               + Py.len (with_chat_name rows)).
  { induction rows as [|r rows IH]; intros acc; simpl fold_left.
    - unfold Py.len. simpl. lia.
    - rewrite IH. unfold with_chat_name. simpl filter.
      rewrite key_of_has_chat_name. unfold group_row.
      destruct (key_of r) as [key|].
      + rewrite insert_row_sizes. unfold Py.len. simpl List.length. lia.
      + reflexivity. }
  rewrite H. reflexivity.
Qed.

Lemma insert_row_keys (key : group_key) (r : row)
      (gs : list (group_key * list row)) (k : group_key) (rs : list row) :
  In (k, rs) (insert_row key r gs) ->
  k = key \/ exists rs', In (k, rs') gs.
Proof.
  induction gs as [|[k0 rs0] gs IH]; simpl.
  - intros [H|[]]. left. congruence.
  - destruct (key_compare key k0); simpl.
    + intros [H|H]; right.
      * injection H as <- _. eauto.
      * eauto.
    + intros [H|[H|H]].
      * left. congruence.
      * right. injection H as <- <-. eauto.
      * right. eauto.
    + intros [H|H].
      * right. injection H as <- <-. eauto.
      * destruct (IH H) as [Hk|[rs' Hin]]; eauto.
  Qed.

(** Every group is the group of some row. *)
Lemma groupby_keys (rows : list row) (k : group_key) (rs : list row) :
  In (k, rs) (groupby rows) -> exists r, In r rows /\ key_of r = Some k.
Proof.
  unfold groupby.
  assert (H : forall acc rs,
             In (k, rs) (fold_left group_row rows acc) ->
             (exists r, In r rows /\ key_of r = Some k) \/
             exists rs', In (k, rs') acc).
  { induction rows as [|r rows IH]; intros acc rs0; simpl fold_left.
    - eauto.
    - intros Hin. destruct (IH _ _ Hin) as [(r' & Hr' & Hk)|[rs' Hin']].
      + left. exists r'. simpl. auto.
      + unfold group_row in Hin'. destruct (key_of r) as [key|] eqn:Hkey.
        * destruct (insert_row_keys _ _ _ _ _ Hin') as [->|Hacc].
          -- left. exists r. simpl. auto.
          -- right. exact Hacc.
        * right. eauto. }
  intros Hin. destruct (H [] rs Hin) as [Hr|[rs' []]]. exact Hr.
Qed.

(** ** Graded runs *)

Section GradedRuns.
Context {W entity : Type} {client : TelegramClient W entity}.
Context (R : Z -> state W entity -> state W entity -> Prop) `{!Graded R}.
Context (dry_run : bool) (batch_size delay : Z).
Implicit Types s : state W entity.

Hypothesis positive_batch_size : 0 < batch_size.

Hypothesis attempt_graded :
  forall chat_entity name id s, exists s',
    process_message chat_entity name dry_run id s = (Ok tt, s') /\
    R 1 s s'.

Lemma for_each_message_graded (chat_entity : entity) (name : string)
      (batch : list Z) s :
  exists s',
    for_each batch (process_message chat_entity name dry_run) s
    = (Ok tt, s') /\
    R (Py.len batch) s s'.
Proof.
  rewrite <- zsum_ones.
  apply (for_each_additive R (fun _ => 1)).
  - intros s0. now apply graded_refl.
  - apply graded_add.
  - intros id s0 _. apply attempt_graded.
Qed.

Lemma process_batch_graded (chat_entity : entity) (name : string)
      (ids : list Z) (i : Z) s :
  exists s',
    process_batch chat_entity name ids dry_run batch_size delay i s
    = (Ok tt, s') /\
    R (Py.len (Py.slice ids i (i + batch_size))) s s'.
Proof.
  unfold process_batch.
  destruct (for_each_message_graded chat_entity name
              (Py.slice ids i (i + batch_size)) s) as (s1 & Hrun & HR).
  unfold bind. rewrite Hrun.
  destruct ((i + batch_size <? Py.len ids) && (0 <? delay)).
  - eexists. split; [reflexivity|].
    rewrite <- (Z.add_0_r (Py.len _)). eapply graded_add; [exact HR|].
    eapply graded_quiet; simpl; reflexivity.
  - exists s1. split; [reflexivity | exact HR].
Qed.

Lemma process_chat_graded (cid : Z) (name : string) (rows : list row)
      s chat_entity s1 :
  find_chat_by_name_or_id (Py.str_of_Z cid) s = (Ok (Some chat_entity), s1) ->
  exists s',
    process_chat dry_run batch_size delay ((cid, name), rows) s
    = (Ok tt, s') /\
    R (Py.len rows) s s'.
Proof.
  intros Hres. unfold process_chat. unfold bind at 1. rewrite Hres.
  unfold Py.range.
  destruct (Z.eqb_spec batch_size 0); [lia|].
  destruct (Z.ltb_spec 0 batch_size); [|lia].
  unfold bind, lift_result.
  set (ids := map message_id rows).
  destruct (for_each_additive R
              (fun i => Py.len (Py.slice ids i (i + batch_size)))
              (process_batch chat_entity name ids dry_run batch_size delay)
              (Py.range_up (Z.to_nat (Py.len ids - 0)) 0 (Py.len ids)
                           batch_size)
              (graded_refl R) graded_add
              (fun i s0 _ => process_batch_graded chat_entity name ids i s0)
              s1)
    as (s' & Hrun & HR).
  exists s'. split; [exact Hrun|].
  rewrite <- (map_map (fun i => Py.slice ids i (i + batch_size))
                      (@Py.len Z)) in HR.
  rewrite zsum_lens, concat_slices in HR
    by (pose proof (len_nonneg ids); lia).
  simpl skipn in HR.
  replace (Py.len rows) with (0 + Py.len ids)
    by (subst ids; unfold Py.len; rewrite List.length_map; lia).
  eapply graded_add; [|exact HR].
  destruct (find_chat_quiet (Py.str_of_Z cid) s)
    as (a & s0 & tr & Hq & Hst & Htr & Hall).
  rewrite Hres in Hq. injection Hq as _ <-.
  apply (graded_quiet s s1 tr Hst Htr).
  clear -Hall. unfold message_calls.
  induction tr as [|ev tr IH]; [reflexivity|].
  simpl in Hall. apply andb_prop in Hall as [Hev Htl].
  destruct ev; try discriminate; simpl; auto.
Qed.

(** A run has the grade of the number of its candidates that have a chat
    name, provided a chat that does not resolve is within the grade of its
    candidates. *)
Lemma delete_messages_batch_graded (df : DataFrame row) :
  (forall r s0 s1 n,
      In r (frame_rows df) ->
      find_chat_by_name_or_id (Py.str_of_Z (chat_id r)) s0 = (Ok None, s1) ->
      0 <= n ->
      R n s0 (mkState (world s1) (add_failed n (stats s0)) (trace s1))) ->
  forall s, exists s',
    delete_messages_batch df dry_run batch_size delay s
    = (Ok (stats s'), s') /\
    R (Py.len (with_chat_name (frame_rows df))) s s'.
Proof.
  intros Hunresolved s. unfold delete_messages_batch, frame_empty.
  destruct (frame_rows df) as [|r0 rows0] eqn:Hrows.
  - exists s. split; [reflexivity | now apply graded_refl].
  - rewrite <- Hrows in *. clear Hrows r0 rows0.
    destruct (for_each_additive R (fun g => Py.len (snd g))
                (process_chat dry_run batch_size delay)
                (groupby (frame_rows df))
                (graded_refl R) graded_add) with (s := s)
      as (s' & Hrun & HR).
    + intros [[cid name] rows] s0 Hin.
      destruct (groupby_keys _ _ _ Hin) as (r & Hr & Hkey).
      apply key_of_some in Hkey as [Hcid _].
      destruct (find_chat_quiet (Py.str_of_Z cid) s0)
        as ([chat_entity|] & s1 & tr & Hq & _).
      * now apply (process_chat_graded cid name rows s0 chat_entity s1).
      * eexists.
        split; [apply process_chat_unresolved; exact Hq|]. simpl snd.
        apply (Hunresolved r); auto using len_nonneg.
        now rewrite Hcid.
    + exists s'. unfold bind, get_stats. rewrite Hrun.
      split; [reflexivity|]. now rewrite groupby_sizes in HR.
Qed.

End GradedRuns.

(** ** What a single attempt leaves in the trace *)

Section AttemptTrace.
Context {W entity : Type} {client : TelegramClient W entity}.
Implicit Types s : state W entity.

Lemma record_outcome_total (name : string) (id : Z) (o : outcome)
      (st : Stats) :
  total_processed (record_outcome name id o st) = total_processed st + 1.
Proof. destruct o; reflexivity. Qed.

Lemma process_message_dry (chat_entity : entity) (name : string)
      (id : Z) s :
  process_message chat_entity name true id s
  = (Ok tt, mkState (world s) (record_outcome name id Skipped (stats s))
                    (trace s)).
Proof. reflexivity. Qed.

(** An attempt is counted once, issues at most one delete call and no
    pacing sleep. *)
Lemma process_message_trace (chat_entity : entity) (name : string)
      (dry_run : bool) (id : Z) s :
  exists s' tr,
    process_message chat_entity name dry_run id s = (Ok tt, s') /\
    trace s' = trace s ++ tr /\
    total_processed (stats s') = total_processed (stats s) + 1 /\
    0 <= count_events is_delete_call tr <= 1 /\
    count_events is_pacing_sleep tr = 0.
Proof.
  destruct dry_run.
  - rewrite process_message_dry. do 2 eexists.
    split; [reflexivity|]. simpl.
    split; [symmetry; apply app_nil_r|].
    split; [reflexivity|]. split; [vm_compute; split; discriminate|].
    reflexivity.
  - destruct (get_messages chat_entity id (world s)) as [r1 w1] eqn:Hget.
    assert (Hmiss : (r1 = Ok None \/ exists e, r1 = Raise e) ->
                    exists s' tr,
                      process_message chat_entity name false id s
                      = (Ok tt, s') /\
                      trace s' = trace s ++ tr /\
                      total_processed (stats s')
                      = total_processed (stats s) + 1 /\
                      0 <= count_events is_delete_call tr <= 1 /\
                      count_events is_pacing_sleep tr = 0).
    { intros Hr.
      rewrite (process_message_fetch_miss chat_entity name id s r1 w1
                 Hget Hr).
      do 2 eexists. split; [reflexivity|]. simpl.
      split; [reflexivity|]. split; [reflexivity|].
      split; [vm_compute; split; discriminate | reflexivity]. }
    destruct r1 as [[m|]|e]; [|apply Hmiss; auto|apply Hmiss; eauto].
    destruct (out m) eqn:Hout.
    + destruct (delete_messages chat_entity [id] true w1) as [r2 w2] eqn:Hdel.
      rewrite (process_message_delete_call chat_entity name id s m w1 r2 w2
                 Hget Hout Hdel).
      do 2 eexists. split; [reflexivity|]. simpl trace. simpl stats.
      split; [reflexivity|].
      split; [apply record_outcome_total|].
      destruct r2 as [[|]|[]]; vm_compute; repeat split; congruence.
    + rewrite (process_message_not_out chat_entity name id s m w1 Hget Hout).
      do 2 eexists. split; [reflexivity|]. simpl.
      split; [reflexivity|]. split; [reflexivity|].
      split; [vm_compute; split; discriminate | reflexivity].
Qed.

#[global] Instance dry_grade_graded : Graded (@dry_grade W entity).
Proof.
  split.
  - intros s s' tr Hst Htr Hmc. unfold dry_grade, stats_delta.
    rewrite Hst, Htr, message_calls_app, Hmc, !app_nil_r.
    repeat split; lia.
  - intros a b s s1 s2 [(T1 & D1 & F1 & K1 & E1) M1]
           [(T2 & D2 & F2 & K2 & E2) M2].
    unfold dry_grade, stats_delta.
    rewrite T2, D2, F2, K2, E2, M2, T1, D1, F1, K1, E1, M1, !app_nil_r.
    repeat split; lia.
Qed.

#[global] Instance attempt_grade_graded : Graded (@attempt_grade W entity).
Proof.
  split.
  - intros s s' tr Hst Htr Hmc. unfold attempt_grade.
    rewrite Hst, Htr, count_events_app.
    rewrite (no_message_calls_no_delete tr Hmc). lia.
  - unfold attempt_grade. intros a b s s1 s2 [T1 C1] [T2 C2]. lia.
Qed.

Lemma process_message_dry_grade (chat_entity : entity) (name : string)
      (id : Z) s :
  exists s',
    process_message chat_entity name true id s = (Ok tt, s') /\
    dry_grade 1 s s'.
Proof.
  rewrite process_message_dry. eexists. split; [reflexivity|].
  unfold dry_grade, stats_delta. simpl. rewrite app_nil_r.
  repeat split; lia.
Qed.

Lemma process_message_attempt_grade (chat_entity : entity) (name : string)
      (dry_run : bool) (id : Z) s :
  exists s',
    process_message chat_entity name dry_run id s = (Ok tt, s') /\
    attempt_grade 1 s s'.
Proof.
  destruct (process_message_trace chat_entity name dry_run id s)
    as (s' & tr & Hrun & Htr & Htot & Hdel & _).
  exists s'. split; [exact Hrun|].
  unfold attempt_grade. rewrite Htr, Htot, count_events_app. lia.
Qed.

(** A run, in either mode, makes at most one attempt and at most one
    delete call per candidate. *)
Lemma delete_messages_batch_attempts (df : DataFrame row) (dry_run : bool)
      (batch_size delay : Z) s :
  0 < batch_size ->
  exists s',
    delete_messages_batch df dry_run batch_size delay s
    = (Ok (stats s'), s') /\
    attempt_grade (Py.len (frame_rows df)) s s'.
Proof.
  intros HB.
  cut (exists s',
          delete_messages_batch df dry_run batch_size delay s
          = (Ok (stats s'), s') /\
          attempt_grade (Py.len (with_chat_name (frame_rows df))) s s').
  { intros (s' & Hrun & Htot & Hdel). exists s'. split; [exact Hrun|].
    pose proof (with_chat_name_le (frame_rows df)).
    unfold attempt_grade. lia. }
  apply (delete_messages_batch_graded attempt_grade dry_run batch_size
           delay HB).
  - intros. apply process_message_attempt_grade.
  - intros r s0 s1 n _ Hres Hn.
    destruct (find_chat_quiet (Py.str_of_Z (chat_id r)) s0)
      as (a & s0' & tr & Hq & Hst & Htr & Hall).
    rewrite Hres in Hq. injection Hq as _ <-.
    unfold attempt_grade. simpl. rewrite Htr, count_events_app.
    assert (Hz : count_events is_delete_call tr = 0).
    { clear -Hall. unfold count_events, Py.len.
      induction tr as [|ev tr IH]; [reflexivity|].
      simpl in Hall. apply andb_prop in Hall as [Hev Htl].
      destruct ev; try discriminate; simpl; auto. }
    lia.
Qed.

End AttemptTrace.

(** ** Pacing *)

Section Pacing.
Context {W entity : Type} {client : TelegramClient W entity}.
Implicit Types s : state W entity.

Lemma for_each_message_no_pacing (chat_entity : entity) (name : string)
      (dry_run : bool) (batch : list Z) s :
  exists s',
    for_each batch (process_message chat_entity name dry_run) s
    = (Ok tt, s') /\
    count_events is_pacing_sleep (trace s')
    = count_events is_pacing_sleep (trace s).
Proof.
  destruct (for_each_additive
              (fun _ s0 s1 => count_events is_pacing_sleep (trace s1)
                              = count_events is_pacing_sleep (trace s0))
              (fun _ => 0)
              (process_message chat_entity name dry_run) batch)
    with (s := s) as (s' & Hrun & Hc); eauto; try congruence.
  intros id s0 _.
  destruct (process_message_trace chat_entity name dry_run id s0)
    as (s1 & tr & Hrun & Htr & _ & _ & Hp).
  exists s1. split; [exact Hrun|].
  rewrite Htr, count_events_app. lia.
Qed.

(** A paced run of jobs that do not sleep for pacing themselves sleeps
    once between two consecutive jobs when the delay is positive, and
    never otherwise. *)
Lemma paced_count (delay : Z) (jobs : list (M W entity unit)) :
  (forall job s, In job jobs ->
                 exists s', job s = (Ok tt, s') /\
                            count_events is_pacing_sleep (trace s')
                            = count_events is_pacing_sleep (trace s)) ->
  forall s, exists s',
    paced delay jobs s = (Ok tt, s') /\
    count_events is_pacing_sleep (trace s')
    = count_events is_pacing_sleep (trace s)
      + (if 0 <? delay then Z.max 0 (Py.len jobs - 1) else 0).
Proof.
  induction jobs as [|job jobs IH]; intros Hjobs s.
  - exists s. split; [reflexivity|].
    destruct (0 <? delay); vm_compute Z.max; lia.
  - destruct (Hjobs job s (or_introl eq_refl)) as (s1 & Hjob & Hc1).
    destruct jobs as [|job' jobs'].
    + exists s1. simpl. unfold bind, ret. rewrite Hjob.
      split; [reflexivity|]. rewrite Hc1.
      destruct (0 <? delay); vm_compute Z.max; lia.
    + remember (job' :: jobs') as rest eqn:Hrest.
      assert (Hlen : 1 <= Py.len rest)
        by (subst rest; unfold Py.len; simpl List.length; lia).
      assert (Hstep : paced delay (job :: rest) s
                      = ((if 0 <? delay then sleep BatchPacing delay
                          else ret tt) ;; paced delay rest) s1).
      { subst rest. simpl. unfold bind at 1. now rewrite Hjob. }
      rewrite Hstep. unfold bind.
      assert (Hlen' : Py.len (job :: rest) = Py.len rest + 1)
        by (unfold Py.len; simpl List.length; lia).
      destruct (0 <? delay) eqn:Hd.
      * unfold sleep at 1.
        destruct (IH (fun j s0 Hj => Hjobs j s0 (or_intror Hj))
                     (mkState (world s1) (stats s1)
                              (trace s1 ++ [EvSleep BatchPacing delay])))
          as (s2 & Hrun & Hc2).
        exists s2. split; [exact Hrun|].
        rewrite Hc2. simpl trace. rewrite count_events_app, Hc1, Hlen'.
        change (count_events is_pacing_sleep
                  [@EvSleep entity BatchPacing delay]) with 1.
        lia.
      * unfold ret at 1.
        destruct (IH (fun j s0 Hj => Hjobs j s0 (or_intror Hj)) s1)
          as (s2 & Hrun & Hc2).
        exists s2. split; [exact Hrun|]. rewrite Hc2, Hc1. lia.
Qed.

(** C7, as the code has it. Within a chat that resolves, with a positive
    batch size, the batches run one after the other with a sleep of
    [delay_between_batches] seconds between two consecutive batches when
    that delay is positive, and no sleep after the chat's last batch,
    whether the chat is the last one or not: a chat with k >= 1 batches
    adds k - 1 pacing sleeps to the run, and none at all when the delay
    is zero or negative. *)
Theorem C7_pacing_within_chat (dry_run : bool) (batch_size delay : Z)
        (cid : Z) (name : string) (rows : list row)
        (chat_entity : entity) (batches : list (list Z)) s s1 :
  0 < batch_size ->
  find_chat_by_name_or_id (Py.str_of_Z cid) s = (Ok (Some chat_entity), s1) ->
  batches_of (map message_id rows) batch_size = Ok batches ->
  process_chat dry_run batch_size delay ((cid, name), rows) s
  = paced delay
          (map (fun batch =>
                  for_each batch (process_message chat_entity name dry_run))
               batches) s1 /\
  exists s',
    process_chat dry_run batch_size delay ((cid, name), rows) s
    = (Ok tt, s') /\
    count_events is_pacing_sleep (trace s')
    = count_events is_pacing_sleep (trace s)
      + (if 0 <? delay then Z.max 0 (Py.len batches - 1) else 0).
Proof.
  intros HB Hres Hbatches.
  assert (Hpaced :
            process_chat dry_run batch_size delay ((cid, name), rows) s
            = paced delay
                (map (fun batch =>
                        for_each batch
                                 (process_message chat_entity name dry_run))
                     batches) s1).
  { unfold process_chat. unfold bind at 1. rewrite Hres.
    unfold batches_of, Py.range in *.
    destruct (Z.eqb_spec batch_size 0); [lia|].
    destruct (Z.ltb_spec 0 batch_size); [|lia].
    simpl in Hbatches. injection Hbatches as <-.
    unfold bind, lift_result.
    apply batch_loop_paced; [exact HB|].
    pose proof (len_nonneg (map message_id rows)). lia. }
  split; [exact Hpaced|].
  rewrite Hpaced.
  destruct (paced_count delay
              (map (fun batch =>
                      for_each batch
                               (process_message chat_entity name dry_run))
                   batches)) with (s := s1) as (s' & Hrun & Hc).
  - intros job s0 Hin. apply in_map_iff in Hin as (batch & <- & _).
    apply for_each_message_no_pacing.
  - exists s'. split; [exact Hrun|]. rewrite Hc.
    destruct (find_chat_quiet (Py.str_of_Z cid) s)
      as (a & s0 & tr & Hq & _ & Htr & Hall).
    rewrite Hres in Hq. injection Hq as _ <-.
    rewrite Htr, count_events_app.
    assert (Hz : count_events is_pacing_sleep tr = 0).
    { clear -Hall. unfold count_events, Py.len.
      induction tr as [|ev tr IH]; [reflexivity|].
      simpl in Hall. apply andb_prop in Hall as [Hev Htl].
      destruct ev; try discriminate; simpl; auto. }
    rewrite Hz. unfold Py.len. rewrite List.length_map. lia.
Qed.

End Pacing.

(** C7 at chat A of the two-chat scenario: ids 1, 2, 3 in batches of 2,
    live, with a delay of 2 seconds. *)
Lemma C7_pacing_within_chat_witness :
  let s1 := mkState tt init_stats [EvGetEntity (PeerId 1)] in
  let rows := [candidate 1 "A" 1; candidate 1 "A" 2; candidate 1 "A" 3] in
  let run := process_chat (client := scripted_client all_fine) false 2 2
                          ((1, "A"), rows) (fresh tt) in
  0 < 2 /\
  run = paced 2 (map (fun batch =>
                        for_each batch
                                 (process_message
                                    (client := scripted_client all_fine)
                                    1 "A" false))
                     [[1; 2]; [3]]) s1 /\
  exists s',
    run = (Ok tt, s') /\
    count_events is_pacing_sleep (trace s')
    = count_events is_pacing_sleep (trace (fresh (W := unit) (entity := Z) tt))
      + (if 0 <? 2 then Z.max 0 (Py.len [[1; 2]; [3]] - 1) else 0).
Proof.
  split; [lia|].
  exact (C7_pacing_within_chat (client := scripted_client all_fine)
           false 2 2 1 "A"
           [candidate 1 "A" 1; candidate 1 "A" 2; candidate 1 "A" 3]
           1 [[1; 2]; [3]] (fresh tt) _ eq_refl eq_refl eq_refl).
Defined.

(** C7 as stated fails. Two chats, A with ids 1, 2, 3 and B with id 4,
    batches of 2, live, every call succeeding, a delay of 2 seconds: the run
    has three batches and one pacing sleep only, between the two batches of
    chat A; after the last batch of chat A, which is not the last chat, the
    run goes straight on to resolving chat B. *)
Lemma C7_counterexample :
  let run := delete_messages_batch (client := scripted_client all_fine)
                                   two_chats false 2 2 (fresh tt) in
  trace (snd run)
  = [EvGetEntity (PeerId 1);
     EvGetMessages 1 1; EvDeleteMessages 1 [1] true;
     EvGetMessages 1 2; EvDeleteMessages 1 [2] true;
     EvSleep BatchPacing 2;
     EvGetMessages 1 3; EvDeleteMessages 1 [3] true;
     EvGetEntity (PeerId 2);
     EvGetMessages 2 4; EvDeleteMessages 2 [4] true] /\
  batches_of [1; 2; 3] 2 = Ok [[1; 2]; [3]] /\
  batches_of [4] 2 = Ok [[4]] /\
  count_events is_pacing_sleep (trace (snd run)) <> 3 - 1.
Proof.
  vm_compute. repeat split; discriminate.
Qed.

(** ** The batches of a chat *)

#[global] Instance processed_grade_graded {W entity} :
  Graded (@processed_grade W entity).
Proof.
  split.
  - intros s s' tr Hst _ _. unfold processed_grade. rewrite Hst. lia.
  - unfold processed_grade. intros a b s s1 s2 H1 H2. lia.
Qed.



Section Batches.
Context {W entity : Type} {client : TelegramClient W entity}.
Implicit Types s : state W entity.






End Batches.


(** ** Dry runs *)

Section DryRun.
Context {W entity : Type} {client : TelegramClient W entity}.
Implicit Types s : state W entity.

(** A dry run over chats that all resolve adds one skipped attempt per
    candidate with a chat name to the statistics it starts from, and asks
    the service for no message. *)
Lemma dry_run_grade (df : DataFrame row) (batch_size delay : Z) s :
  0 < batch_size ->
  (forall r s0, In r (frame_rows df) ->
                exists chat_entity s1,
                  find_chat_by_name_or_id (Py.str_of_Z (chat_id r)) s0
                  = (Ok (Some chat_entity), s1)) ->
  exists s',
    delete_messages_batch df true batch_size delay s = (Ok (stats s'), s') /\
    dry_grade (Py.len (with_chat_name (frame_rows df))) s s'.
Proof.
  intros HB Hres.
  apply (delete_messages_batch_graded dry_grade true batch_size delay HB).
  - intros. apply process_message_dry_grade.
  - intros r s0 s1 n Hin Hnone _.
    destruct (Hres r s0 Hin) as (e & s1' & Hsome). congruence.
Qed.

(** C4, as the code has it. With a positive batch size and chats that
    all resolve, a dry run by a fresh deleter returns the statistics
    [total_processed = skipped = number of candidates that have a chat
    name] (a candidate whose chat name is missing is dropped by [groupby]
    and not counted at all), [successfully_deleted = failed = 0] and an
    empty ledger, and neither fetches nor deletes a message; a second dry
    run on the same candidates, by a fresh deleter facing the service as
    the first run left it, returns the same statistics. *)
Theorem C4_dry_run_repeatable (df : DataFrame row) (batch_size delay : Z)
        (w : W) :
  0 < batch_size ->
  (forall r s0, In r (frame_rows df) ->
                exists chat_entity s1,
                  find_chat_by_name_or_id (Py.str_of_Z (chat_id r)) s0
                  = (Ok (Some chat_entity), s1)) ->
  let n := Py.len (with_chat_name (frame_rows df)) in
  let first := delete_messages_batch df true batch_size delay (fresh w) in
  let second := delete_messages_batch df true batch_size delay
                                      (fresh (world (snd first))) in
  fst first = Ok (mkStats n 0 0 n []) /\
  fst second = fst first /\
  message_calls (trace (snd first)) = [] /\
  message_calls (trace (snd second)) = [].
Proof.
  intros HB Hres n first second.
  assert (Hfresh : forall w0,
             fst (delete_messages_batch df true batch_size delay (fresh w0))
             = Ok (mkStats n 0 0 n []) /\
             message_calls
               (trace (snd (delete_messages_batch df true batch_size delay
                                                  (fresh w0)))) = []).
  { intros w0.
    destruct (dry_run_grade df batch_size delay (fresh w0) HB Hres)
      as (s' & Hrun & (T & D & F & K & E) & Hmc).
    rewrite Hrun. simpl. split; [|exact Hmc].
    f_equal. destruct (stats s') as [t d f k e]. simpl in *.
    subst. reflexivity. }
  destruct (Hfresh w) as [H1 M1].
  destruct (Hfresh (world (snd first))) as [H2 M2].
  fold first in H1, M1. fold second in H2, M2.
  repeat split; auto. now rewrite H2, H1.
Qed.

End DryRun.

(** C4 at three candidates, the second of which has no chat name, with
    a service that knows every chat: two attempts are skipped. *)
Lemma C4_dry_run_repeatable_witness :
  let first := delete_messages_batch (client := scripted_client all_fine)
                                     one_without_name true 2 2 (fresh tt) in
  let second := delete_messages_batch (client := scripted_client all_fine)
                                      one_without_name true 2 2
                                      (fresh (world (snd first))) in
  fst first = Ok (mkStats 2 0 0 2 []) /\
  fst second = fst first /\
  message_calls (trace (snd first)) = [] /\
  message_calls (trace (snd second)) = [].
Proof.
  apply (C4_dry_run_repeatable (client := scripted_client all_fine)
           one_without_name 2 2 tt).
  - lia.
  - intros r s0 Hin. simpl in Hin.
    destruct Hin as [<-|[<-|[<-|[]]]]; do 2 eexists; reflexivity.
Defined.

(** C4 as stated fails. A dry run over the three chats, the second of
    which does not resolve, ends with [failed = 2] and [skipped = 2] for
    four candidates; and a dry run over three candidates of which one has
    no chat name, all chats resolving, ends with [skipped = 2]. *)
Lemma C4_counterexample :
  let run := delete_messages_batch
               (client := scripted_client second_unknown)
               three_chats true 2 2 (fresh tt) in
  let nameless := delete_messages_batch
                    (client := scripted_client all_fine)
                    one_without_name true 2 2 (fresh tt) in
  Py.len (frame_rows three_chats) = 4 /\
  fst run = Ok (mkStats 2 0 2 2 []) /\
  skipped (stats (snd run)) <> Py.len (frame_rows three_chats) /\
  failed (stats (snd run)) <> 0 /\
  Py.len (frame_rows one_without_name) = 3 /\
  fst nameless = Ok (mkStats 2 0 0 2 []) /\
  skipped (stats (snd nameless)) <> Py.len (frame_rows one_without_name).
Proof.
  vm_compute. repeat split; discriminate.
Qed.

(** The statistics belong to the deleter, not to the call: a second dry
    run on the same deleter adds its counts to those of the first. *)
Lemma dry_run_same_deleter_accumulates :
  let first := delete_messages_batch (client := scripted_client all_fine)
                                     two_chats true 2 2 (fresh tt) in
  let second := delete_messages_batch (client := scripted_client all_fine)
                                      two_chats true 2 2 (snd first) in
  fst first = Ok (mkStats 4 0 0 4 []) /\
  fst second = Ok (mkStats 8 0 0 8 []).
Proof.
  vm_compute. split; reflexivity.
Qed.

(** A batch size of zero makes [range] raise, a negative one makes every
    chat's loop empty. *)
Lemma dry_run_needs_positive_batch_size :
  fst (delete_messages_batch (client := scripted_client all_fine)
                             two_chats true 0 2 (fresh tt))
  = Raise (ValueError "range() arg 3 must not be zero") /\
  fst (delete_messages_batch (client := scripted_client all_fine)
                             two_chats true (-1) 2 (fresh tt))
  = Ok (mkStats 0 0 0 0 []).
Proof.
  vm_compute. split; reflexivity.
Qed.

(** ** Outcomes of live attempts *)

Section LiveOutcomes.
Context {W entity : Type} {client : TelegramClient W entity}.
Implicit Types s : state W entity.

(** C5, as the code has it. When the delete call of a live attempt
    raises a flood wait of [n] seconds, the attempt sleeps [n] seconds
    right after that call, and is recorded as failed with the detail
    [Rate limited, waited <n>s]; the loop then goes on with the ids that
    follow, without a second delete call for this id. Over a whole run
    there is at most one attempt and at most one delete call per
    candidate. *)
Theorem C5_flood_wait (chat_entity : entity) (name : string) (id n : Z)
        (rest : list Z) (m : Message) (w1 w2 : W) s :
  get_messages chat_entity id (world s) = (Ok (Some m), w1) ->
  out m = true ->
  delete_messages chat_entity [id] true w1 = (Raise (FloodWaitError n), w2) ->
  let detail := ("Rate limited, waited " ++ Py.str_of_Z n ++ "s")%string in
  let s' := mkState w2 (record_outcome name id (Failed detail) (stats s))
                    (trace s ++ [EvGetMessages chat_entity id;
                                 EvDeleteMessages chat_entity [id] true;
                                 EvSleep FloodBackoff n]) in
  process_message chat_entity name false id s = (Ok tt, s') /\
  for_each (id :: rest) (process_message chat_entity name false) s
  = for_each rest (process_message chat_entity name false) s' /\
  (forall df dry_run batch_size delay s0,
      0 < batch_size ->
      exists s1,
        delete_messages_batch df dry_run batch_size delay s0
        = (Ok (stats s1), s1) /\
        attempt_grade (Py.len (frame_rows df)) s0 s1).
Proof.
  intros Hget Hout Hdel detail s'.
  assert (Hrun : process_message chat_entity name false id s = (Ok tt, s')).
  { rewrite (process_message_delete_call chat_entity name id s m w1 _ w2
               Hget Hout Hdel).
    reflexivity. }
  split; [exact Hrun|]. split.
  - simpl for_each. unfold bind. now rewrite Hrun.
  - intros. now apply delete_messages_batch_attempts.
Qed.

(** C6, as the code has it. A live attempt first fetches the message by
    id. A fetch that finds nothing, or raises whatever exception, ends
    the attempt as failed with [Message not found]; a fetched message
    that is not outgoing ends it as failed with [Message is not from
    you]; in both cases no delete call is made. Otherwise the delete call
    is made with [revoke] set: a truthy answer counts the message as
    deleted, a falsy one gives the failure [Deletion failed], and a delete
    call that raises [ChatAdminRequiredError] or
    [MessageDeleteForbiddenError] gives the failure [Admin rights
    required] or [Message deletion forbidden]. *)
Theorem C6_live_attempt (chat_entity : entity) (name : string) (id : Z)
        (r1 : result (option Message)) (w1 : W) s :
  get_messages chat_entity id (world s) = (r1, w1) ->
  let after_fetch o :=
      (Ok tt, mkState w1 (record_outcome name id o (stats s))
                      (trace s ++ [EvGetMessages chat_entity id])) in
  let after_delete w2 o :=
      (Ok tt, mkState w2 (record_outcome name id o (stats s))
                      (trace s ++ [EvGetMessages chat_entity id;
                                   EvDeleteMessages chat_entity [id] true])) in
  let attempt := process_message chat_entity name false id s in
  ((r1 = Ok None \/ exists e, r1 = Raise e) ->
   attempt = after_fetch (Failed "Message not found")) /\
  (forall m, r1 = Ok (Some m) -> out m = false ->
             attempt = after_fetch (Failed "Message is not from you")) /\
  (forall m r2 w2,
      r1 = Ok (Some m) -> out m = true ->
      delete_messages chat_entity [id] true w1 = (r2, w2) ->
      (r2 = Ok true -> attempt = after_delete w2 Deleted) /\
      (r2 = Ok false ->
       attempt = after_delete w2 (Failed "Deletion failed")) /\
      (r2 = Raise ChatAdminRequiredError ->
       attempt = after_delete w2 (Failed "Admin rights required")) /\
      (r2 = Raise MessageDeleteForbiddenError ->
       attempt = after_delete w2 (Failed "Message deletion forbidden"))).
Proof.
  intros Hget after_fetch after_delete attempt. split; [|split].
  - intros Hr.
    apply (process_message_fetch_miss chat_entity name id s r1 w1 Hget Hr).
  - intros m -> Hout.
    apply (process_message_not_out chat_entity name id s m w1 Hget Hout).
  - intros m r2 w2 -> Hout Hdel.
    pose proof (process_message_delete_call chat_entity name id s m w1 r2 w2
                  Hget Hout Hdel) as Hrun.
    repeat split; intros ->; unfold attempt, after_delete; rewrite Hrun;
      simpl; rewrite ?app_nil_r; reflexivity.
Qed.

End LiveOutcomes.

(** C5 at message 2 of chat A, whose deletion hits a flood wait of five
    seconds; message 3 follows. *)
Lemma C5_flood_wait_witness :
  let s' := mkState tt
                    (mkStats 1 0 1 0 [mkError "A" 2 "Rate limited, waited 5s"])
                    [EvGetMessages 1 2; EvDeleteMessages 1 [2] true;
                     EvSleep FloodBackoff 5] in
  process_message (client := scripted_client flood_on_2) 1 "A" false 2
                  (fresh tt) = (Ok tt, s') /\
  for_each [2; 3] (process_message (client := scripted_client flood_on_2)
                                   1 "A" false) (fresh tt)
  = for_each [3] (process_message (client := scripted_client flood_on_2)
                                  1 "A" false) s' /\
  (forall df dry_run batch_size delay s0,
      0 < batch_size ->
      exists s1,
        delete_messages_batch (client := scripted_client flood_on_2)
                              df dry_run batch_size delay s0
        = (Ok (stats s1), s1) /\
        attempt_grade (Py.len (frame_rows df)) s0 s1).
Proof.
  exact (C5_flood_wait (client := scripted_client flood_on_2)
           1 "A" 2 5 [3] (mkMessage true) tt tt (fresh tt)
           eq_refl eq_refl eq_refl).
Defined.

(** C5 as stated fails. With a flood wait of five seconds on the deletion
    of message 2, the ledger entry reads [Rate limited, waited 5s], with a
    capital R. And when the flood wait is signalled to the fetch of the
    attempt rather than to its delete call, the run does not sleep at all
    and records [Message not found]. *)
Lemma C5_counterexample :
  let run := delete_messages_batch (client := scripted_client flood_on_2)
                                   two_chats false 2 0 (fresh tt) in
  let run' := delete_messages_batch (client := scripted_client signals_on_fetch)
                                    two_chats false 2 0 (fresh tt) in
  errors (stats (snd run)) = [mkError "A" 2 "Rate limited, waited 5s"] /\
  ~ In (mkError "A" 2 "rate limited, waited 5s") (errors (stats (snd run))) /\
  In (mkError "A" 2 "Message not found") (errors (stats (snd run'))) /\
  trace (snd run')
  = [EvGetEntity (PeerId 1);
     EvGetMessages 1 1; EvGetMessages 1 2;
     EvGetMessages 1 3; EvDeleteMessages 1 [3] true;
     EvGetEntity (PeerId 2);
     EvGetMessages 2 4; EvDeleteMessages 2 [4] true].
Proof.
  split; [vm_compute; reflexivity|].
  split; [vm_compute; intros [H|[]]; discriminate|].
  split; [vm_compute; auto|].
  vm_compute. reflexivity.
Qed.

(** C6 at the four messages of the mixed scenario: message 1 is gone,
    message 2 is not outgoing, the deletion of message 3 is not
    acknowledged, message 4 is deleted. *)
Lemma C6_live_attempt_witness :
  let attempt id :=
      process_message (client := scripted_client mixed_answers)
                      1 "A" false id (fresh tt) in
  attempt 1
  = (Ok tt, mkState tt (mkStats 1 0 1 0 [mkError "A" 1 "Message not found"])
                    [EvGetMessages 1 1]) /\
  attempt 2
  = (Ok tt, mkState tt
                    (mkStats 1 0 1 0 [mkError "A" 2 "Message is not from you"])
                    [EvGetMessages 1 2]) /\
  attempt 3
  = (Ok tt, mkState tt (mkStats 1 0 1 0 [mkError "A" 3 "Deletion failed"])
                    [EvGetMessages 1 3; EvDeleteMessages 1 [3] true]) /\
  attempt 4
  = (Ok tt, mkState tt (mkStats 1 1 0 0 [])
                    [EvGetMessages 1 4; EvDeleteMessages 1 [4] true]).
Proof.
  split; [|split; [|split]].
  - exact (proj1 (C6_live_attempt (client := scripted_client mixed_answers)
                    1 "A" 1 (Ok None) tt (fresh tt) eq_refl)
                 (or_introl eq_refl)).
  - exact (proj1 (proj2 (C6_live_attempt
                           (client := scripted_client mixed_answers)
                           1 "A" 2 (Ok (Some (mkMessage false))) tt (fresh tt)
                           eq_refl))
                 (mkMessage false) eq_refl eq_refl).
  - exact (proj1 (proj2 (proj2 (proj2 (C6_live_attempt
                           (client := scripted_client mixed_answers)
                           1 "A" 3 (Ok (Some (mkMessage true))) tt (fresh tt)
                           eq_refl))
                 (mkMessage true) (Ok false) tt eq_refl eq_refl eq_refl))
                 eq_refl).
  - exact (proj1 (proj2 (proj2 (C6_live_attempt
                           (client := scripted_client mixed_answers)
                           1 "A" 4 (Ok (Some (mkMessage true))) tt (fresh tt)
                           eq_refl))
                 (mkMessage true) (Ok true) tt eq_refl eq_refl eq_refl)
                 eq_refl).
Defined.

(** C6 as stated fails. The ledger of the mixed scenario reads
    [Message not found], [Message is not from you] and [Deletion failed],
    not [message not found], [not from you] and [deletion failed]. And a
    permission-denied signal that reaches the fetch of the attempt is
    recorded as [Message not found], not as a want of admin rights. *)
Lemma C6_counterexample :
  let run := delete_messages_batch (client := scripted_client mixed_answers)
                                   two_chats false 2 0 (fresh tt) in
  let run' := delete_messages_batch (client := scripted_client signals_on_fetch)
                                    two_chats false 2 0 (fresh tt) in
  errors (stats (snd run))
  = [mkError "A" 1 "Message not found";
     mkError "A" 2 "Message is not from you";
     mkError "A" 3 "Deletion failed"] /\
  ~ In (mkError "A" 1 "message not found") (errors (stats (snd run))) /\
  ~ In (mkError "A" 2 "not from you") (errors (stats (snd run))) /\
  ~ In (mkError "A" 3 "deletion failed") (errors (stats (snd run))) /\
  errors (stats (snd run'))
  = [mkError "A" 1 "Message not found"; mkError "A" 2 "Message not found"].
Proof.
  split; [vm_compute; reflexivity|].
  vm_compute. repeat split; try (intros [H|[H|[H|[]]]]; discriminate).
Qed.

(** ** Keyword matching *)

(** C9. With the keyword [card], whole-word matching finds the text
    [my card is here] and not the text [cardboard box], and partial
    matching finds both; this holds for [find_messages_by_keywords] and for
    the keyword loop of [api_only_delete_messages], with and without case
    sensitivity. *)
Theorem C9_whole_word_and_partial (case_sensitive : bool) :
  find_messages_by_keywords (Some (Frame [card_row; cardboard_row]))
                            ["card"] case_sensitive true
  = Ok (Frame [(card_row, "card")]) /\
  find_messages_by_keywords (Some (Frame [card_row; cardboard_row]))
                            ["card"] case_sensitive false
  = Ok (Frame [(card_row, "card"); (cardboard_row, "card")]) /\
  api_keyword_filter ["card"] case_sensitive true "my card is here"
  = Ok true /\
  api_keyword_filter ["card"] case_sensitive true "cardboard box"
  = Ok false /\
  api_keyword_filter ["card"] case_sensitive false "my card is here"
  = Ok true /\
  api_keyword_filter ["card"] case_sensitive false "cardboard box"
  = Ok true.
Proof.
  destruct case_sensitive; vm_compute; repeat split; reflexivity.
Qed.

(** ** Selection *)

Lemma mask_map {R} (p : R -> bool) (l : list R) :
  map fst (filter snd (combine l (map p l))) = filter p l.
Proof.
  induction l as [|x l IH]; [reflexivity|].
  simpl. destruct (p x); simpl; now rewrite IH.
Qed.

Lemma mask_rows_column {R A} (get : R -> A) (p : A -> bool) (l : list R) :
  mask_rows (map p (map get l)) (Frame l)
  = Frame (filter (fun r => p (get r)) l).
Proof.
  unfold mask_rows. rewrite map_map. now rewrite mask_map.
Qed.

Lemma empty_object_no_chats (data : export) :
  is_empty_object data = true ->
  personal_information data = None /\ chats data = [].
Proof.
  unfold is_empty_object, chats.
  destruct (personal_information data); [discriminate|].
  destruct (chats_entry data); [discriminate|]. auto.
Qed.

Section SelectionFacts.
Context {compiled : Type} {engine : RegexEngine compiled}.

(** Without keywords the selection is the age filter alone. *)
Lemma select_without_keywords (rows : list row) (now hours_to_keep : Z)
      (case_sensitive whole_words : bool) :
  select_old_messages (Frame rows) now hours_to_keep [] case_sensitive
                      whole_words
  = Ok (Frame (filter (fun r => date r <? now - hours_to_keep * 3600) rows)).
Proof.
  unfold select_old_messages. cbv zeta. cbn [column rbind].
  now rewrite (mask_rows_column date
                 (fun d => d <? now - hours_to_keep * 3600)).
Qed.

(** C8, as the code has it. Called with an empty keyword list,
    [find_messages_by_keywords] returns an empty frame: no message passes
    it. The selection does not call it then: with no keywords, the
    candidates of [auto_delete_old_messages] are all the outgoing messages
    of the export that are older than the cutoff, and the keyword filter
    of [api_only_delete_messages] lets every message through. *)
Theorem C8_empty_keywords (case_sensitive whole_words : bool) :
  (forall messages_df,
      find_messages_by_keywords (Some messages_df) [] case_sensitive
                                whole_words = Ok NoColumns) /\
  (forall data now hours_to_keep,
      candidates (Some data) now hours_to_keep [] case_sensitive whole_words
      = match determine_user_id data with
        | Ok user_id =>
            filter (fun r => date r <? now - hours_to_keep * 3600)
                   (flat_map
                      (fun chat =>
                         map (row_of chat)
                             (filter
                                (is_outgoing user_id (first_name_of data))
                                (c_messages chat)))
                      (chats data))
        | Raise _ => []
        end) /\
  (forall text,
      api_keyword_filter [] case_sensitive whole_words text = Ok true).
Proof.
  split; [reflexivity|]. split; [|reflexivity].
  intros data now hours_to_keep. unfold candidates, extract_outgoing_messages.
  destruct (is_empty_object data) eqn:Hempty.
  { apply empty_object_no_chats in Hempty as [Hp Hc].
    unfold determine_user_id. rewrite Hp, Hc. reflexivity. }
  destruct (determine_user_id data) as [user_id|e]; [|reflexivity].
  simpl rbind.
  destruct (flat_map _ (chats data)) as [|r rows] eqn:Hrows;
    [reflexivity|].
  unfold from_records. now rewrite select_without_keywords.
Qed.

End SelectionFacts.

(** C8 as stated fails for the keyword matcher itself: with an empty
    keyword list, [find_messages_by_keywords] returns no row of a frame that
    holds one. *)
Lemma C8_counterexample :
  find_messages_by_keywords (Some (Frame [card_row])) [] false true
  = Ok NoColumns /\
  ~ (forall r, In r [card_row] ->
               exists df,
                 find_messages_by_keywords (Some (Frame [card_row])) []
                                           false true = Ok df /\
                 In r (map fst (frame_rows df))).
Proof.
  split; [reflexivity|].
  intros H. destruct (H card_row (or_introl eq_refl)) as (df & Hdf & Hin).
  vm_compute in Hdf. injection Hdf as <-. exact Hin.
Qed.

(** C1 fails on the code at an export in which two chats number a message
    alike. With the keyword [card], the message [see you tomorrow] of chat
    Alice is selected next to the message [my card number] of chat Bank:
    the keyword filter keeps the old messages whose id is the id of some
    matching message, in whatever chat. *)
Theorem C1_id_collision_selects_non_matching :
  extract_outgoing_messages (Some colliding_export)
  = Ok (Frame [alice_row; bank_row]) /\
  find_messages_by_keywords (Some (Frame [alice_row; bank_row])) ["card"]
                            false true
  = Ok (Frame [(bank_row, "card")]) /\
  re_search "\bcard\b" (text alice_row) true = Ok false /\
  candidates (Some colliding_export) 1000000 24 ["card"] false true
  = [alice_row; bank_row].
Proof.
  vm_compute. repeat split; reflexivity.
Qed.

(** ** The selection when message ids are unique *)

Lemma nodup_map_injective {A B} (f : A -> B) (l : list A) (a b : A) :
  NoDup (map f l) -> In a l -> In b l -> f a = f b -> a = b.
Proof.
  induction l as [|x l IH]; simpl; [tauto|].
  intros Hnd Ha Hb Hf. inversion Hnd as [|y ys Hnotin Hnd']; subst.
  destruct Ha as [<-|Ha], Hb as [<-|Hb]; auto.
  - exfalso. apply Hnotin. rewrite Hf. now apply in_map.
  - exfalso. apply Hnotin. rewrite <- Hf. now apply in_map.
Qed.

Lemma match_nonempty {A X} (l : list A) (a b : X) :
  l <> [] -> match l with [] => b | _ :: _ => a end = a.
Proof. destruct l; congruence. Qed.

Section SelectionWithKeywords.
Context {compiled : Type} {engine : RegexEngine compiled}.
Context (keywords : list string) (case_sensitive whole_words : bool).
Context (pattern : compiled).

Hypothesis combined_compiles :
  re_compile (Py.join "|" (map (kw_pattern whole_words) keywords))
             (negb case_sensitive) = Ok pattern.

Hypothesis each_compiles :
  forall kw, In kw keywords ->
             exists c, re_compile (kw_pattern whole_words kw)
                                  (negb case_sensitive) = Ok c.

Lemma matched_keywords_returns (kws : list string) (text : string) :
  (forall kw, In kw kws -> In kw keywords) ->
  exists found,
    matched_keywords kws case_sensitive whole_words text = Ok found.
Proof.
  induction kws as [|kw kws IH]; intros Hsub; simpl.
  - eauto.
  - destruct (each_compiles kw (Hsub kw (or_introl eq_refl))) as [c Hc].
    unfold re_search. rewrite Hc. simpl.
    destruct (IH (fun k Hk => Hsub k (or_intror Hk))) as [found ->].
    simpl. eauto.
Qed.

(** The scan keeps the rows whose text the combined pattern finds. *)
Lemma scan_rows_returns (rows : list row) :
  exists matches,
    scan_rows pattern keywords case_sensitive whole_words rows = Ok matches /\
    map fst matches
    = filter (fun r => pattern_search pattern (text r)) rows.
Proof.
  induction rows as [|r rows (matches & Hscan & Hmap)]; simpl.
  - exists []. auto.
  - destruct (pattern_search pattern (text r)).
    + destruct (matched_keywords_returns keywords (text r) (fun _ H => H))
        as [found ->].
      simpl. rewrite Hscan. simpl. eexists. split; [reflexivity|].
      simpl. now rewrite Hmap.
    + exists matches. auto.
Qed.

(** With keywords, every old message that the pattern finds is selected;
    and when no two loaded messages share an id, only those are. *)
Lemma selection_with_keywords (rows : list row) (now hours_to_keep : Z) :
  keywords <> [] ->
  let cutoff_time := now - hours_to_keep * 3600 in
  let selected :=
      match select_old_messages (Frame rows) now hours_to_keep keywords
                                case_sensitive whole_words with
      | Ok old_messages => frame_rows old_messages
      | Raise _ => []
      end in
  (forall r, In r rows -> date r < cutoff_time ->
             pattern_search pattern (text r) = true -> In r selected) /\
  (NoDup (map message_id rows) ->
   forall r, In r selected ->
             In r rows /\ date r < cutoff_time /\
             pattern_search pattern (text r) = true).
Proof.
  intros Hne cutoff_time selected.
  destruct (scan_rows_returns rows) as (matches & Hscan & Hmap).
  assert (Hsel : selected
                 = match matches with
                   | [] => []
                   | _ :: _ =>
                       filter (fun r => existsb (Z.eqb (message_id r))
                                          (map message_id
                                             (filter
                                                (fun r' => pattern_search
                                                             pattern (text r'))
                                                rows)))
                              (filter (fun r => date r <? cutoff_time) rows)
                   end).
  { subst selected. unfold select_old_messages. cbv zeta.
    cbn [column rbind].
    rewrite (mask_rows_column date (fun d => d <? now - hours_to_keep * 3600)).
    rewrite (match_nonempty keywords) by exact Hne.
    unfold find_messages_by_keywords.
    rewrite (match_nonempty keywords) by exact Hne.
    cbv zeta. rewrite combined_compiles. cbn [rbind frame_rows].
    rewrite Hscan.
    cbn [rbind].
    destruct matches as [|m ms]; [reflexivity|].
    unfold from_records. cbn [column rbind]. unfold isin.
    rewrite (mask_rows_column message_id
               (fun v => existsb (Z.eqb v)
                           (map (fun m0 : row * string => message_id (fst m0))
                                (m :: ms)))).
    cbn [frame_rows]. rewrite <- Hmap, map_map. reflexivity. }
  rewrite Hsel. clear Hsel selected. split.
  - intros r Hin Hold Hmatch.
    assert (Hfound : In r (map fst matches)).
    { rewrite Hmap. apply filter_In. auto. }
    destruct matches as [|m ms]; [contradiction|].
    apply filter_In. split.
    + apply filter_In. split; [exact Hin|]. now apply Z.ltb_lt.
    + apply existsb_exists. exists (message_id r). split.
      * apply in_map, filter_In. auto.
      * apply Z.eqb_refl.
  - intros Hnd r Hin.
    destruct matches as [|m ms]; [contradiction|].
    apply filter_In in Hin as [Hold Hid].
    apply filter_In in Hold as [Hin Hold]. apply Z.ltb_lt in Hold.
    apply existsb_exists in Hid as (x & Hx & Heq).
    apply Z.eqb_eq in Heq.
    apply in_map_iff in Hx as (r' & Hr' & Hin').
    apply filter_In in Hin' as [Hin' Hmatch].
    assert (r' = r)
      by (apply (nodup_map_injective message_id rows); congruence).
    subst r'. auto.
Qed.

End SelectionWithKeywords.

(** ** A dry run never asks for a message *)

Lemma resolution_is_not_a_message_call {entity} (tr : list (event entity)) :
  forallb is_resolution_call tr = true -> message_calls tr = [].
Proof.
  unfold message_calls. induction tr as [|ev tr IH]; [reflexivity|].
  simpl. intros H. apply andb_prop in H as [Hev Htl].
  destruct ev; try discriminate; simpl; auto.
Qed.

Section DryRunCalls.
Context {W entity : Type} {client : TelegramClient W entity}.
Context (calls : list (event entity)).

Lemma process_chat_dry_calls (batch_size delay : Z)
      (group : group_key * list row) :
  preserves (fun s0 => message_calls (trace s0) = calls) (process_chat true batch_size delay group).
Proof.
  destruct group as [[cid name] rows]. unfold process_chat.
  apply preserves_bind.
  - intros s Hs.
    destruct (find_chat_quiet (Py.str_of_Z cid) s)
      as (a & s' & tr & Hrun & _ & Htr & Hall).
    rewrite Hrun. simpl.
    rewrite Htr, message_calls_app, Hs.
    rewrite (resolution_is_not_a_message_call tr Hall).
    apply app_nil_r.
  - intros [chat_entity|].
    + apply preserves_bind; [intros s Hs; exact Hs|].
      intros idxs. apply preserves_for_each. intros i.
      unfold process_batch. apply preserves_bind.
      * apply preserves_for_each. intros id s Hs.
        rewrite process_message_dry. exact Hs.
      * intros _. destruct (_ && _); intros s Hs; [|exact Hs].
        simpl. rewrite message_calls_app, Hs.
        apply app_nil_r.
    + intros s Hs. exact Hs.
Qed.

(** Whatever the chats, the batch size and the service do, a dry run
    fetches no message and deletes none. *)
Lemma dry_run_never_fetches_or_deletes (df : DataFrame row)
      (batch_size delay : Z) (s : state W entity) :
  message_calls (trace s) = calls ->
  message_calls
    (trace (snd (delete_messages_batch df true batch_size delay s)))
  = calls.
Proof.
  revert s.
  change (preserves (fun s0 => message_calls (trace s0) = calls)
                    (delete_messages_batch df true batch_size delay)).
  unfold delete_messages_batch. destruct (frame_empty df).
  - intros s Hs. exact Hs.
  - apply preserves_bind.
    + apply preserves_for_each. intros g. apply process_chat_dry_calls.
    + intros _ s Hs. exact Hs.
Qed.

End DryRunCalls.

(** ** Resolving a chat by its numeric id *)

Lemma digits_value_acc (d : Decimal.uint) (acc : positive) :
  Py.digits_value (Zpos acc) (NilEmpty.string_of_uint d)
  = Zpos (Pos.of_uint_acc d acc).
Proof.
  revert acc.
  induction d; intros acc; cbn [NilEmpty.string_of_uint Py.digits_value
                                 Pos.of_uint_acc];
    try reflexivity; rewrite <- IHd; f_equal;
    unfold Py.digit_value; cbn [nat_of_ascii]; vm_compute Z.of_nat; lia.
Qed.

Lemma digits_value_uint (d : Decimal.uint) :
  Py.digits_value 0 (NilEmpty.string_of_uint d) = Z.of_N (Pos.of_uint d).
Proof.
  induction d; simpl; try reflexivity; try exact IHd;
    apply (digits_value_acc d).
Qed.

Lemma string_of_uint_digits (d : Decimal.uint) :
  Py.all_chars Py.is_digit (NilEmpty.string_of_uint d) = true.
Proof. induction d; simpl; auto. Qed.

Lemma str_of_Z_positive (p : positive) :
  Py.isdigit (Py.str_of_Z (Zpos p)) = true /\
  Py.digits_value 0 (Py.str_of_Z (Zpos p)) = Zpos p.
Proof.
  unfold Py.str_of_Z. cbn [Z.to_int NilZero.string_of_int].
  pose proof (DecimalPos.Unsigned.of_to p) as Hp.
  destruct (Pos.to_uint p) eqn:Hd; [simpl in Hp; discriminate|..];
    (split;
     [ unfold NilZero.string_of_uint, Py.isdigit;
       cbn [NilEmpty.string_of_uint Py.all_chars];
       rewrite string_of_uint_digits; reflexivity
     | unfold NilZero.string_of_uint;
       rewrite digits_value_uint, Hp; reflexivity ]).
Qed.

(** [int(str(n)) = n], through the test that guards it. *)
Lemma int_of_str_of_Z (z : Z) :
  (Py.isdigit (Py.str_of_Z z)
   || Py.startswith (Py.str_of_Z z) "-"
      && Py.isdigit (Py.tail (Py.str_of_Z z))) = true /\
  Py.int_of_str (Py.str_of_Z z) = Ok z.
Proof.
  destruct z as [|p|p].
  - split; reflexivity.
  - destruct (str_of_Z_positive p) as [Hd Hv].
    unfold Py.int_of_str. rewrite Hd, Hv. auto.
  - destruct (str_of_Z_positive p) as [Hd Hv].
    assert (Hs : Py.str_of_Z (Zneg p) = String "-" (Py.str_of_Z (Zpos p)))
      by reflexivity.
    rewrite Hs. unfold Py.int_of_str.
    change (Py.isdigit (String "-" (Py.str_of_Z (Zpos p)))) with false.
    change (Py.tail (String "-" (Py.str_of_Z (Zpos p))))
      with (Py.str_of_Z (Zpos p)).
    assert (Hminus : Py.startswith (String "-" (Py.str_of_Z (Zpos p))) "-"
                     = true)
      by (unfold Py.startswith; simpl;
          destruct (Py.str_of_Z (Zpos p)); reflexivity).
    rewrite Hminus, Hd, Hv. auto.
Qed.

(** For the [str(chat_id)] that [delete_messages_batch] passes,
    [find_chat_by_name_or_id] is one [get_entity] call with the integer id,
    and the chat resolves exactly when that call returns. *)
Lemma find_chat_by_id {W entity} {client : TelegramClient W entity}
      (cid : Z) (s : state W entity) :
  find_chat_by_name_or_id (Py.str_of_Z cid) s
  = let (r, w') := get_entity (PeerId cid) (world s) in
    (Ok match r with
        | Ok chat_entity => Some chat_entity
        | Raise _ => None
        end,
     mkState w' (stats s) (trace s ++ [EvGetEntity (PeerId cid)])).
Proof.
  destruct (int_of_str_of_Z cid) as [Hguard Hint].
  unfold find_chat_by_name_or_id. rewrite Hguard.
  unfold try_except, bind, lift_result, remote, ret. rewrite Hint.
  destruct (get_entity (PeerId cid) (world s)) as [[e|e] w']; reflexivity.
Qed.


(* ================================================================= *)
(** * Part III: further properties of the code *)
(* ================================================================= *)

(** ** Grouping by chat *)

Lemma key_compare_eq (k1 k2 : group_key) :
  key_compare k1 k2 = Eq -> k1 = k2.
Proof.
  destruct k1 as [z1 n1], k2 as [z2 n2]. unfold key_compare. simpl.
  destruct (Z.compare_spec z1 z2) as [->| |]; try discriminate.
  intros H. apply String.compare_eq_iff in H. now subst.
Qed.

(** What holds of a row and its key when the row is put into a group
    holds of every row of every group. *)
Lemma insert_row_members (P : group_key -> row -> Prop) (key : group_key)
      (r : row) (gs : list (group_key * list row)) :
  (forall k rs r0, In (k, rs) gs -> In r0 rs -> P k r0) ->
  P key r ->
  forall k rs r0, In (k, rs) (insert_row key r gs) -> In r0 rs -> P k r0.
Proof.
  induction gs as [|[k0 rs0] gs IH]; intros Hgs Hr k rs r0; simpl.
  - intros [H|[]]. injection H as <- <-. intros [<-|[]]. exact Hr.
  - destruct (key_compare key k0) eqn:Hc; simpl.
    + intros [H|H] Hin.
      * injection H as <- <-. apply in_app_or in Hin as [Hin|[<-|[]]].
        -- exact (Hgs k0 rs0 r0 (or_introl eq_refl) Hin).
        -- apply key_compare_eq in Hc. now subst.
      * exact (Hgs k rs r0 (or_intror H) Hin).
    + intros [H|H] Hin.
      * injection H as <- <-. destruct Hin as [<-|[]]. exact Hr.
      * exact (Hgs k rs r0 H Hin).
    + intros [H|H] Hin.
      * exact (Hgs k rs r0 (or_introl H) Hin).
      * apply (IH (fun k' rs' r' H' => Hgs k' rs' r' (or_intror H')) Hr
                  k rs r0 H Hin).
Qed.

(** Every row of a group is a row of the frame, and has the key of the
    group. *)
Lemma groupby_members (rows : list row) (k : group_key) (rs : list row)
      (r0 : row) :
  In (k, rs) (groupby rows) -> In r0 rs ->
  In r0 rows /\ key_of r0 = Some k.
Proof.
  unfold groupby.
  assert (H : forall todo acc,
             (forall r, In r todo -> In r rows) ->
             (forall k rs r0, In (k, rs) acc -> In r0 rs ->
                              In r0 rows /\ key_of r0 = Some k) ->
             forall k rs r0,
               In (k, rs) (fold_left group_row todo acc) -> In r0 rs ->
               In r0 rows /\ key_of r0 = Some k).
  { induction todo as [|r todo IH]; intros acc Hsub Hacc; simpl fold_left.
    - exact Hacc.
    - apply IH; [intros r' Hr'; apply Hsub; now right|].
      unfold group_row. destruct (key_of r) as [key|] eqn:Hkey;
        [|exact Hacc].
      apply insert_row_members; [exact Hacc|].
      split; [apply Hsub; now left | exact Hkey]. }
  apply (H rows []); [auto | intros ? ? ? []].
Qed.

(** Grouping does not see the rows without a chat name. *)
Lemma groupby_with_chat_name (rows : list row) :
  groupby (with_chat_name rows) = groupby rows.
Proof.
  unfold groupby. generalize (@nil (group_key * list row)).
  induction rows as [|r rows IH]; intros acc; [reflexivity|].
  unfold with_chat_name. simpl filter. rewrite key_of_has_chat_name.
  destruct (key_of r) as [key|] eqn:Hkey; simpl fold_left.
  - apply IH.
  - replace (group_row acc r) with acc
      by (unfold group_row; now rewrite Hkey).
    apply IH.
Qed.

(** X1. A candidate whose chat name is missing is passed over in silence
    by [delete_messages_batch]: [groupby] leaves its row out, so that the
    run over a frame is the run over those of its rows that have a chat
    name, with the same result, statistics, calls and sleeps.  Such a
    candidate is not attempted and is not counted, not even as failed. *)
Theorem X1_candidates_without_chat_name_are_passed_over {W entity}
        {client : TelegramClient W entity} (df : DataFrame row)
        (dry_run : bool) (batch_size delay : Z) (s : state W entity) :
  delete_messages_batch df dry_run batch_size delay s
  = delete_messages_batch (Frame (with_chat_name (frame_rows df))) dry_run
                          batch_size delay s.
Proof.
  unfold delete_messages_batch, frame_empty. cbn [frame_rows].
  rewrite groupby_with_chat_name.
  destruct (frame_rows df) as [|r rows] eqn:Hrows; [reflexivity|].
  rewrite <- Hrows. clear Hrows r rows.
  destruct (with_chat_name (frame_rows df)) as [|r rows] eqn:Hnamed;
    [|reflexivity].
  rewrite <- groupby_with_chat_name, Hnamed. reflexivity.
Qed.

(** X2. For the identifier [str(chat_id)] that [delete_messages_batch]
    passes, with [chat_id] any integer, [find_chat_by_name_or_id] makes
    exactly one call, [get_entity] with that integer: it returns the entity
    when the call returns one, and [None] when the call raises, whatever it
    raises. *)
Theorem X2_resolution_by_numeric_id {W entity}
        {client : TelegramClient W entity} (cid : Z) (s : state W entity) :
  Py.int_of_str (Py.str_of_Z cid) = Ok cid /\
  find_chat_by_name_or_id (Py.str_of_Z cid) s
  = let (r, w') := get_entity (PeerId cid) (world s) in
    (Ok match r with
        | Ok chat_entity => Some chat_entity
        | Raise _ => None
        end,
     mkState w' (stats s) (trace s ++ [EvGetEntity (PeerId cid)])).
Proof.
  split; [apply int_of_str_of_Z | apply find_chat_by_id].
Qed.

Lemma search_dialogs_find {entity} (chat_identifier : string)
      (dialogs : list (dialog entity)) :
  search_dialogs chat_identifier dialogs
  = option_map dialog_entity (find (dialog_matches chat_identifier) dialogs).
Proof.
  induction dialogs as [|d dialogs IH]; [reflexivity|].
  cbn [search_dialogs find]. unfold dialog_matches at 1.
  destruct (dialog_name d) as [[|c n]|]; try exact IH.
  destruct (Py.contains _ _); [reflexivity | exact IH].
Qed.

(** X3. An identifier that is neither an optionally signed number nor an
    [@]handle is resolved by one [get_dialogs] call: the result is the
    entity of the first dialog, in listing order, whose non-empty name
    contains the identifier, both taken in lower case; dialogs without a
    name are passed over, and the result is [None] when no dialog matches
    or when the listing raises. *)
Theorem X3_resolution_by_name {W entity} {client : TelegramClient W entity}
        (chat_identifier : string) (s : state W entity) :
  Py.isdigit chat_identifier = false ->
  Py.startswith chat_identifier "-" && Py.isdigit (Py.tail chat_identifier)
  = false ->
  Py.startswith chat_identifier "@" = false ->
  find_chat_by_name_or_id chat_identifier s
  = let (r, w') := get_dialogs (world s) in
    (Ok match r with
        | Ok dialogs =>
            option_map dialog_entity
                       (find (dialog_matches chat_identifier) dialogs)
        | Raise _ => None
        end,
     mkState w' (stats s) (trace s ++ [EvGetDialogs])).
Proof.
  intros Hd Hm Ha. unfold find_chat_by_name_or_id.
  rewrite Hd, Hm, Ha. simpl orb. cbv iota.
  unfold try_except, bind, remote, ret.
  destruct (get_dialogs (world s)) as [[ds|e] w']; [|reflexivity].
  now rewrite search_dialogs_find.
Qed.

(** X3 at the identifier [family] and three dialogs: the nameless dialog
    is passed over and [Family Group], listed before [My family group
    chat], wins. *)
Lemma X3_resolution_by_name_witness :
  find_chat_by_name_or_id (client := dialogs_client named_dialogs)
                          "family" (fresh tt)
  = (Ok (Some 8), mkState tt init_stats [EvGetDialogs]).
Proof.
  exact (X3_resolution_by_name (client := dialogs_client named_dialogs)
           "family" (fresh tt) eq_refl eq_refl eq_refl).
Defined.

(** ** Single attempts *)

(** The shape of an attempt: what it returns and what it adds to the
    trace. *)
Lemma delete_message_shape {W entity}
        {client : TelegramClient W entity} (chat_entity : entity) (id : Z)
        (revoke dry_run : bool) (s : state W entity) :
  exists success detail s' tr,
    delete_message chat_entity id revoke dry_run s
    = (Ok (success, detail), s') /\
    stats s' = stats s /\
    trace s' = trace s ++ tr /\
    (if dry_run
     then tr = [] /\ world s' = world s /\ success = true
     else (tr = [EvGetMessages chat_entity id] /\ success = false) \/
          exists backoff,
            tr = EvGetMessages chat_entity id
                   :: EvDeleteMessages chat_entity [id] revoke :: backoff /\
            (success = true -> backoff = []) /\
            (backoff = [] \/ exists n, backoff = [EvSleep FloodBackoff n])).
Proof.
  destruct dry_run.
  - exists true, "DRY RUN: Would delete message", s, [].
    rewrite app_nil_r. repeat split; reflexivity.
  - unfold delete_message, get_message_from_chat. munfold.
    destruct (get_messages chat_entity id (world s)) as [[[m|]|e] w1]; simpl.
    + destruct (out m); simpl.
      * destruct (delete_messages chat_entity [id] revoke w1)
          as [[[|]|e] w2]; simpl.
        -- exists true, "Message deleted successfully".
           eexists. exists [EvGetMessages chat_entity id;
                            EvDeleteMessages chat_entity [id] revoke].
           split; [reflexivity|]. simpl. rewrite <- app_assoc.
           repeat split. right. exists []. auto.
        -- exists false, "Deletion failed".
           eexists. exists [EvGetMessages chat_entity id;
                            EvDeleteMessages chat_entity [id] revoke].
           split; [reflexivity|]. simpl. rewrite <- app_assoc.
           repeat split. right. exists []. auto.
        -- destruct e; simpl;
             try (exists false; eexists; eexists;
                  exists [EvGetMessages chat_entity id;
                          EvDeleteMessages chat_entity [id] revoke];
                  split; [reflexivity|]; simpl; rewrite <- app_assoc;
                  repeat split; right; exists []; auto; fail).
           exists false. eexists. eexists.
           exists [EvGetMessages chat_entity id;
                   EvDeleteMessages chat_entity [id] revoke;
                   EvSleep FloodBackoff seconds].
           split; [reflexivity|]. simpl. rewrite <- !app_assoc.
           repeat split. right. eexists. split; [reflexivity|].
           split; [discriminate|]. eauto.
      * exists false, "Message is not from you". eexists.
        exists [EvGetMessages chat_entity id].
        split; [reflexivity|]. repeat split. left. auto.
    + exists false, "Message not found". eexists.
      exists [EvGetMessages chat_entity id].
      split; [reflexivity|]. repeat split. left. auto.
    + exists false, "Message not found". eexists.
      exists [EvGetMessages chat_entity id].
      split; [reflexivity|]. repeat split. left. auto.
Qed.

(** X4. [delete_message] never raises, whatever the client does, and
    never touches the statistics. A dry-run attempt reports success without
    any call. A live attempt fetches the message first; it makes at most
    one delete call, for this one id and with the [revoke] it was given,
    only after that fetch, and it reports success only when it has made the
    delete call and no back-off sleep followed. *)
Theorem X4_delete_message_contained {W entity}
        {client : TelegramClient W entity} (chat_entity : entity) (id : Z)
        (revoke dry_run : bool) (s : state W entity) :
  exists success detail s' tr,
    delete_message chat_entity id revoke dry_run s
    = (Ok (success, detail), s') /\
    stats s' = stats s /\
    trace s' = trace s ++ tr /\
    (if dry_run
     then tr = [] /\ world s' = world s /\ success = true
     else (tr = [EvGetMessages chat_entity id] /\ success = false) \/
          exists backoff,
            tr = EvGetMessages chat_entity id
                   :: EvDeleteMessages chat_entity [id] revoke :: backoff /\
            (success = true -> backoff = []) /\
            (backoff = [] \/ exists n, backoff = [EvSleep FloodBackoff n])).
Proof.
  apply delete_message_shape.
Qed.

(** ** Whole runs *)

#[global] Instance account_grade_graded {W entity} :
  Graded (@account_grade W entity).
Proof.
  split.
  - intros s s' tr Hst _ _. unfold account_grade. rewrite Hst. lia.
  - unfold account_grade. intros a b s s1 s2 H1 H2. lia.
Qed.

#[global] Instance ledger_grade_graded {W entity} :
  Graded (@ledger_grade W entity).
Proof.
  split.
  - intros s s' tr Hst _ _. unfold ledger_grade. rewrite Hst. lia.
  - unfold ledger_grade. intros a b s s1 s2 H1 H2. lia.
Qed.

(** X5. With a positive batch size, a run accounts exactly once for
    every candidate that has a chat name, in either mode and whatever the
    service answers: the call returns, and
    [successfully_deleted + failed + skipped] has grown by the number of
    rows of the frame whose chat name is not missing. *)
Theorem X5_every_candidate_accounted_for {W entity}
        {client : TelegramClient W entity} (df : DataFrame row)
        (dry_run : bool) (batch_size delay : Z) (s : state W entity) :
  0 < batch_size ->
  exists s',
    delete_messages_batch df dry_run batch_size delay s
    = (Ok (stats s'), s') /\
    successfully_deleted (stats s') + failed (stats s') + skipped (stats s')
    = successfully_deleted (stats s) + failed (stats s) + skipped (stats s)
      + Py.len (with_chat_name (frame_rows df)).
Proof.
  intros HB.
  apply (delete_messages_batch_graded account_grade dry_run batch_size delay
           HB).
  - intros chat_entity name id s0.
    destruct (process_message_delta chat_entity name dry_run id s0)
      as (s1 & Hrun & Hcases).
    exists s1. split; [exact Hrun|]. unfold account_grade.
    destruct Hcases as [[_ H]|[[_ H]|[_ [detail H]]]];
      destruct H as (T & D & F & K & E); lia.
  - intros r s0 s1 n _ _ _. unfold account_grade. simpl. lia.
Qed.

(** X5 at three candidates of which the second has no chat name and the
    third is in a chat that does not resolve, live: two are accounted
    for. *)
Lemma X5_every_candidate_accounted_for_witness :
  0 < 2 /\
  exists s',
    delete_messages_batch (client := scripted_client second_unknown)
                          one_without_name false 2 2 (fresh tt)
    = (Ok (stats s'), s') /\
    successfully_deleted (stats s') + failed (stats s') + skipped (stats s')
    = 0 + 0 + 0 + 2.
Proof.
  split; [lia|].
  exact (X5_every_candidate_accounted_for
           (client := scripted_client second_unknown)
           one_without_name false 2 2 (fresh tt) ltac:(lia)).
Defined.

(** X6. A dry run, whatever the batch size and whatever the service
    answers to the resolution of the chats, fetches no message and deletes
    none: the fetches and delete calls in the trace after the run are those
    that were there before. *)
Theorem X6_dry_run_is_harmless {W entity} {client : TelegramClient W entity}
        (df : DataFrame row) (batch_size delay : Z) (s : state W entity) :
  message_calls
    (trace (snd (delete_messages_batch df true batch_size delay s)))
  = message_calls (trace s).
Proof.
  now apply dry_run_never_fetches_or_deletes.
Qed.

(** X7. In a live run over chats that all resolve, with a positive batch
    size, every candidate that has a chat name is attempted, no attempt is
    skipped, each attempt ends as a deletion or as a failure, and every
    failure has its entry in the ledger: [total_processed] grows by the
    number of rows whose chat name is not missing, [skipped] stays,
    [successfully_deleted + failed] grows by that number and [len(errors)]
    grows as [failed] does. *)
Theorem X7_live_run_ledger_complete {W entity}
        {client : TelegramClient W entity} (df : DataFrame row)
        (batch_size delay : Z) (s : state W entity) :
  0 < batch_size ->
  (forall r s0, In r (frame_rows df) ->
                exists chat_entity s1,
                  find_chat_by_name_or_id (Py.str_of_Z (chat_id r)) s0
                  = (Ok (Some chat_entity), s1)) ->
  exists s',
    delete_messages_batch df false batch_size delay s = (Ok (stats s'), s') /\
    total_processed (stats s')
    = total_processed (stats s) + Py.len (with_chat_name (frame_rows df)) /\
    skipped (stats s') = skipped (stats s) /\
    successfully_deleted (stats s') + failed (stats s')
    = successfully_deleted (stats s) + failed (stats s)
      + Py.len (with_chat_name (frame_rows df)) /\
    Py.len (errors (stats s')) - Py.len (errors (stats s))
    = failed (stats s') - failed (stats s).
Proof.
  intros HB Hres.
  destruct (delete_messages_batch_graded ledger_grade false batch_size delay
              HB) with (df := df) (s := s) as (s' & Hrun & HR).
  - intros chat_entity name id s0.
    destruct (process_message_delta chat_entity name false id s0)
      as (s1 & Hrun & Hcases).
    exists s1. split; [exact Hrun|]. unfold ledger_grade.
    destruct Hcases as [[_ H]|[[Hd _]|[_ [detail H]]]];
      try discriminate;
      destruct H as (T & D & F & K & E); rewrite T, D, F, K, E;
      unfold Py.len; rewrite List.length_app; simpl List.length; lia.
  - intros r s0 s1 n Hin Hnone _.
    destruct (Hres r s0 Hin) as (e & s1' & Hsome). congruence.
  - exists s'. split; [exact Hrun|].
    destruct HR as (T & K & A & L & _). auto.
Qed.

(** X7 at the mixed scenario: of four attempts three fail, and the ledger
    has three entries. *)
Lemma X7_live_run_ledger_complete_witness :
  exists s',
    delete_messages_batch (client := scripted_client mixed_answers)
                          two_chats false 2 0 (fresh tt)
    = (Ok (stats s'), s') /\
    total_processed (stats s') = 0 + 4 /\
    skipped (stats s') = 0 /\
    successfully_deleted (stats s') + failed (stats s') = 0 + 0 + 4 /\
    Py.len (errors (stats s')) - 0 = failed (stats s') - 0.
Proof.
  apply (X7_live_run_ledger_complete (client := scripted_client mixed_answers)
           two_chats 2 0 (fresh tt)).
  - lia.
  - intros r s0 Hin. simpl in Hin.
    destruct Hin as [<-|[<-|[<-|[<-|[]]]]]; do 2 eexists; reflexivity.
Defined.

(** ** Batch sizes that are not positive *)

Lemma range_negative_step (n step : Z) :
  0 <= n -> step < 0 -> Py.range 0 n step = Ok [].
Proof.
  intros Hn Hs. unfold Py.range.
  destruct (Z.eqb_spec step 0); [lia|].
  destruct (Z.ltb_spec 0 step); [lia|].
  replace (Z.to_nat (0 - n)) with 0%nat by lia. reflexivity.
Qed.

Lemma range_zero_step (n : Z) :
  Py.range 0 n 0 = Raise (ValueError "range() arg 3 must not be zero").
Proof. reflexivity. Qed.

Section NonPositiveBatchSize.
Context {W entity : Type} {client : TelegramClient W entity}.
Context (dry_run : bool) (batch_size delay : Z).
Hypothesis not_positive : batch_size <= 0.

Lemma batch_loop_without_batches (chat_entity : entity) (name : string)
      (ids : list Z) (s : state W entity) :
  snd ((idxs <- lift_result (Py.range 0 (Py.len ids) batch_size) ;;
        for_each idxs
                 (process_batch chat_entity name ids dry_run batch_size delay))
         s) = s.
Proof.
  unfold bind, lift_result.
  destruct (Z.eq_dec batch_size 0) as [->|Hnz].
  - reflexivity.
  - rewrite range_negative_step by (pose proof (len_nonneg ids); lia).
    reflexivity.
Qed.

Lemma process_chat_attempts_nothing (st : Stats) (calls : list (event entity))
      (group : group_key * list row) :
  preserves (fun s0 : state W entity =>
               total_processed (stats s0) = total_processed st /\
               successfully_deleted (stats s0) = successfully_deleted st /\
               skipped (stats s0) = skipped st /\
               errors (stats s0) = errors st /\
               message_calls (trace s0) = calls)
            (process_chat dry_run batch_size delay group).
Proof.
  destruct group as [[cid name] rows]. unfold process_chat.
  apply preserves_bind.
  - intros s Hs.
    destruct (find_chat_quiet (Py.str_of_Z cid) s)
      as (a & s' & tr & Hrun & Hst & Htr & Hall).
    rewrite Hrun. simpl. rewrite Hst, Htr, message_calls_app.
    rewrite (resolution_is_not_a_message_call tr Hall), app_nil_r.
    exact Hs.
  - intros [chat_entity|] s Hs.
    + now rewrite batch_loop_without_batches.
    + exact Hs.
Qed.

End NonPositiveBatchSize.

(** X8. With a batch size that is zero or negative no message is ever
    attempted, in either mode: after the call [total_processed],
    [successfully_deleted], [skipped] and the ledger are what they were, and
    no message has been fetched or deleted. Only chats that do not resolve
    leave a mark, in [failed]. *)
Theorem X8_non_positive_batch_size {W entity}
        {client : TelegramClient W entity} (df : DataFrame row)
        (dry_run : bool) (batch_size delay : Z) (s : state W entity) :
  batch_size <= 0 ->
  let s' := snd (delete_messages_batch df dry_run batch_size delay s) in
  total_processed (stats s') = total_processed (stats s) /\
  successfully_deleted (stats s') = successfully_deleted (stats s) /\
  skipped (stats s') = skipped (stats s) /\
  errors (stats s') = errors (stats s) /\
  message_calls (trace s') = message_calls (trace s).
Proof.
  intros HB.
  assert (H : preserves
                (fun s0 : state W entity =>
                   total_processed (stats s0) = total_processed (stats s) /\
                   successfully_deleted (stats s0)
                   = successfully_deleted (stats s) /\
                   skipped (stats s0) = skipped (stats s) /\
                   errors (stats s0) = errors (stats s) /\
                   message_calls (trace s0) = message_calls (trace s))
                (delete_messages_batch df dry_run batch_size delay)).
  { unfold delete_messages_batch. destruct (frame_empty df).
    - intros s0 Hs. exact Hs.
    - apply preserves_bind.
      + apply preserves_for_each. intros g.
        now apply process_chat_attempts_nothing.
      + intros _ s0 Hs. exact Hs. }
  apply H. repeat split.
Qed.

(** X8 at the two chats, live, with the batch sizes 0 and -5. *)
Lemma X8_non_positive_batch_size_witness :
  let zero := snd (delete_messages_batch (client := scripted_client all_fine)
                                         two_chats false 0 2 (fresh tt)) in
  let negative := snd (delete_messages_batch
                         (client := scripted_client all_fine)
                         two_chats false (-5) 2 (fresh tt)) in
  (total_processed (stats zero) = 0 /\
   successfully_deleted (stats zero) = 0 /\
   skipped (stats zero) = 0 /\
   errors (stats zero) = [] /\
   message_calls (trace zero) = []) /\
  (total_processed (stats negative) = 0 /\
   successfully_deleted (stats negative) = 0 /\
   skipped (stats negative) = 0 /\
   errors (stats negative) = [] /\
   message_calls (trace negative) = []).
Proof.
  split.
  - apply (X8_non_positive_batch_size (client := scripted_client all_fine)
             two_chats false 0 2 (fresh tt)). lia.
  - apply (X8_non_positive_batch_size (client := scripted_client all_fine)
             two_chats false (-5) 2 (fresh tt)). lia.
Defined.

(** ** What a run asks to delete *)

Lemma in_slice {A} (l : list A) (i j : Z) (x : A) :
  In x (Py.slice l i j) -> In x l.
Proof.
  unfold Py.slice. intros H.
  set (a := Z.to_nat (Py.norm_index (Py.len l) i)) in *.
  set (n := Z.to_nat (Py.norm_index (Py.len l) j
                      - Py.norm_index (Py.len l) i)) in *.
  rewrite <- (firstn_skipn a l). apply in_or_app. right.
  rewrite <- (firstn_skipn n (skipn a l)). apply in_or_app. now left.
Qed.

Lemma preserves_for_each_in {W entity A} (P : state W entity -> Prop)
      (l : list A) (body : A -> M W entity unit) :
  (forall x, In x l -> preserves P (body x)) -> preserves P (for_each l body).
Proof.
  induction l as [|x l IH]; intros Hb; simpl.
  - intros s HP. exact HP.
  - apply preserves_bind.
    + apply Hb. now left.
    + intros _. apply IH. intros y Hy. apply Hb. now right.
Qed.

Section DeleteCalls.
Context {W entity : Type} {client : TelegramClient W entity}.
Context (ok : event entity -> Prop) (before : list (event entity)).

Hypothesis other_events_pass : forall ev, is_delete_call ev = false -> ok ev.

(** The trace is [before] followed by events that are all [ok]: an attempt
    keeps it so when the delete call it may make is [ok]. *)
Lemma process_message_delete_calls (chat_entity : entity) (name : string)
      (dry_run : bool) (id : Z) :
  ok (EvDeleteMessages chat_entity [id] true) ->
  preserves (fun s0 : state W entity =>
               exists tr, trace s0 = before ++ tr /\ Forall ok tr)
            (process_message chat_entity name dry_run id).
Proof.
  intros Hid s (tr & Htr & Hok).
  assert (Hext : forall (t more : list (event entity)),
             t = trace s ++ more ->
             Forall ok more ->
             exists tr', t = before ++ tr' /\ Forall ok tr').
  { intros s' more Hs' Hmore. exists (tr ++ more).
    rewrite Hs', Htr, app_assoc. split; [reflexivity|].
    apply Forall_app. auto. }
  destruct dry_run.
  - rewrite process_message_dry. simpl. exists tr. auto.
  - destruct (get_messages chat_entity id (world s)) as [r1 w1] eqn:Hget.
    assert (Hmiss : (r1 = Ok None \/ exists e, r1 = Raise e) ->
                    exists tr', trace (snd (process_message chat_entity name
                                                            false id s))
                                = before ++ tr' /\ Forall ok tr').
    { intros Hr.
      rewrite (process_message_fetch_miss chat_entity name id s r1 w1 Hget Hr).
      simpl. eapply Hext; [reflexivity|].
      constructor; [now apply other_events_pass | constructor]. }
    destruct r1 as [[m|]|e]; [|apply Hmiss; auto|apply Hmiss; eauto].
    destruct (out m) eqn:Hout.
    + destruct (delete_messages chat_entity [id] true w1) as [r2 w2] eqn:Hdel.
      rewrite (process_message_delete_call chat_entity name id s m w1 r2 w2
                 Hget Hout Hdel).
      simpl. eapply Hext; [reflexivity|].
      constructor; [now apply other_events_pass|]. constructor; [exact Hid|].
      destruct r2 as [[|]|[]]; simpl;
        repeat (constructor; try now apply other_events_pass).
    + rewrite (process_message_not_out chat_entity name id s m w1 Hget Hout).
      simpl. eapply Hext; [reflexivity|].
      constructor; [now apply other_events_pass | constructor].
Qed.

End DeleteCalls.

(** From a trace that starts with [before] and goes on with delete calls
    for candidates only, a run leads to such a trace. *)
Lemma delete_messages_batch_delete_calls {W entity}
      {client : TelegramClient W entity} (df : DataFrame row)
      (dry_run : bool) (batch_size delay : Z)
      (before : list (event entity)) :
  preserves
    (fun s0 : state W entity =>
       exists tr, trace s0 = before ++ tr /\
                  Forall (delete_call_of_candidate (frame_rows df)) tr)
    (delete_messages_batch df dry_run batch_size delay).
Proof.
  set (ok := delete_call_of_candidate (client := client) (frame_rows df)).
  assert (Hother : forall ev : event entity,
             is_delete_call ev = false -> ok ev).
  { intros [] H; try discriminate; exact I. }
  unfold delete_messages_batch. destruct (frame_empty df).
  - intros s0 Hs. exact Hs.
  - apply preserves_bind; [|intros _ s0 Hs; exact Hs].
    apply preserves_for_each_in. intros [[cid name] rows] Hin.
    intros s0 (tr & Htr & Hok). unfold process_chat.
    destruct (find_chat_quiet (Py.str_of_Z cid) s0)
      as (a & s1 & more & Hrun & _ & Hmore & Hall).
    unfold bind at 1. rewrite Hrun.
    assert (Hs1 : exists tr1, trace s1 = before ++ tr1 /\ Forall ok tr1).
    { exists (tr ++ more).
      rewrite Hmore, Htr, app_assoc. split; [reflexivity|].
      apply Forall_app. split; [exact Hok|].
      clear -Hall Hother. induction more as [|ev more IH]; [constructor|].
      simpl in Hall. apply andb_prop in Hall as [Hev Htl].
      constructor; [|auto].
      apply Hother. destruct ev; try discriminate; reflexivity. }
    destruct a as [chat_entity|]; [|exact Hs1].
    revert Hs1. generalize s1.
    change (preserves
              (fun s2 : state W entity =>
                 exists tr1, trace s2 = before ++ tr1 /\ Forall ok tr1)
              (idxs <- lift_result
                         (Py.range 0 (Py.len (map message_id rows))
                                   batch_size) ;;
               for_each idxs
                        (process_batch chat_entity name
                                       (map message_id rows) dry_run
                                       batch_size delay))).
    apply preserves_bind; [intros s2 Hs; exact Hs|].
    intros idxs. apply preserves_for_each. intros i.
    unfold process_batch. apply preserves_bind.
    + apply preserves_for_each_in. intros id Hid.
      apply (process_message_delete_calls ok before Hother).
      apply in_slice in Hid. apply in_map_iff in Hid as (r & <- & Hr).
      destruct (groupby_members _ _ _ _ Hin Hr) as [Hrow Hkey].
      split; [reflexivity|]. exists r.
      split; [exact Hrow|].
      split; [rewrite key_of_has_chat_name, Hkey; reflexivity|].
      split; [reflexivity|].
      apply key_of_some in Hkey as [-> _]. eauto.
    + intros _. destruct (_ && _); intros s2 Hs; [|exact Hs].
      destruct Hs as (tr2 & Htr2 & Hok2). simpl.
      exists (tr2 ++ [EvSleep BatchPacing delay]).
      rewrite Htr2, app_assoc. split; [reflexivity|].
      apply Forall_app. split; [exact Hok2|]. repeat constructor.
Qed.

(** X9. Whatever the mode, the batch size and the answers of the service,
    every delete call a run makes is a call for a candidate: it asks, with
    [revoke] set, for exactly one message, that message is the
    [message_id] of a row of the frame that has a chat name, and the chat
    entity it is sent to is one that [find_chat_by_name_or_id] answered
    for the [chat_id] of that same row.  The run never asks to delete in a
    chat a message that is not a candidate of that chat. *)
Theorem X9_only_candidates_are_deleted {W entity}
        {client : TelegramClient W entity} (df : DataFrame row)
        (dry_run : bool) (batch_size delay : Z) (s : state W entity) :
  exists tr,
    trace (snd (delete_messages_batch df dry_run batch_size delay s))
    = trace s ++ tr /\
    Forall (delete_call_of_candidate (frame_rows df)) tr.
Proof.
  apply (delete_messages_batch_delete_calls df dry_run batch_size delay
           (trace s)).
  exists []. rewrite app_nil_r. split; [reflexivity | constructor].
Qed.

(** ** Extraction of the outgoing messages *)

Lemma frame_rows_from_records {R} (l : list R) :
  frame_rows (from_records l) = l.
Proof. destruct l; reflexivity. Qed.

Lemma first_user_from_id_app (l1 l2 : list json_message) :
  first_user_from_id (l1 ++ l2)
  = match first_user_from_id l1 with
    | Ok None => first_user_from_id l2
    | r => r
    end.
Proof.
  induction l1 as [|m l1 IH]; [reflexivity|].
  simpl. destruct (j_from_id m) as [| |u]; auto.
  destruct (Py.startswith u "user"); auto.
Qed.

Lemma first_user_from_id_found (l : list json_message) (u : string) :
  first_user_from_id l = Ok (Some u) -> exists a u', u = String a u'.
Proof.
  induction l as [|m l IH]; simpl; [discriminate|].
  destruct (j_from_id m) as [| |v]; try discriminate; auto.
  destruct (Py.startswith v "user") eqn:Hv; auto.
  intros H. injection H as <-. destruct v; [discriminate|]. eauto.
Qed.

(** The scan goes through the messages of the export in order, chat after
    chat. *)
Lemma scan_user_id_flat (cs : list json_chat) :
  scan_user_id cs = first_user_from_id (flat_map c_messages cs).
Proof.
  induction cs as [|c cs IH]; [reflexivity|].
  simpl. rewrite first_user_from_id_app.
  destruct (first_user_from_id (c_messages c)) as [[u|]|e] eqn:Hc; simpl; auto.
  destruct (first_user_from_id_found _ _ Hc) as (a & u' & ->). reflexivity.
Qed.

Lemma first_user_from_id_skip (pre rest : list json_message) :
  forallb no_user_from_id pre = true ->
  first_user_from_id (pre ++ rest) = first_user_from_id rest.
Proof.
  induction pre as [|m pre IH]; [reflexivity|].
  simpl. unfold no_user_from_id at 1. intros H.
  apply andb_prop in H as [Hm Hpre].
  destruct (j_from_id m) as [| |u]; try discriminate; auto.
  destruct (Py.startswith u "user"); [discriminate | auto].
Qed.

Lemma no_personal_user_id (data : export) :
  match personal_information data with
  | Some p => p_user_id p = None \/ p_user_id p = Some 0
  | None => True
  end ->
  determine_user_id data
  = rbind (scan_user_id (chats data))
          (fun found => Ok (option_map UidStr found)).
Proof.
  unfold determine_user_id.
  destruct (personal_information data) as [p|]; [|reflexivity].
  intros [-> | ->]; reflexivity.
Qed.

(** An object that holds a message is not the empty object. *)
Lemma object_with_message (data : export) (pre post : list json_message)
      (m : json_message) :
  flat_map c_messages (chats data) = pre ++ m :: post ->
  is_empty_object data = false.
Proof.
  intros Hflat. destruct (is_empty_object data) eqn:Hempty; [|reflexivity].
  apply empty_object_no_chats in Hempty as [_ Hc]. rewrite Hc in Hflat.
  destruct pre; discriminate.
Qed.

(** X10. When the export carries no usable [personal_information.user_id]
    (none, or 0), the owner is taken to be whoever wrote the first message
    of the export, in chat and message order, whose [from_id] starts with
    [user]: extraction succeeds and every message with that [from_id], in
    any chat, is extracted as outgoing, whether the account owner wrote it
    or not. *)
Theorem X10_first_sender_becomes_owner (data : export)
        (pre post : list json_message) (m : json_message) (u : string) :
  match personal_information data with
  | Some p => p_user_id p = None \/ p_user_id p = Some 0
  | None => True
  end ->
  flat_map c_messages (chats data) = pre ++ m :: post ->
  forallb no_user_from_id pre = true ->
  j_from_id m = Str u ->
  Py.startswith u "user" = true ->
  determine_user_id data = Ok (Some (UidStr u)) /\
  exists df,
    extract_outgoing_messages (Some data) = Ok df /\
    forall chat m',
      In chat (chats data) -> In m' (c_messages chat) ->
      j_from_id m' = Str u ->
      In (row_of chat m') (frame_rows df).
Proof.
  intros Hp Hflat Hpre Hm Hu.
  assert (Hdet : determine_user_id data = Ok (Some (UidStr u))).
  { rewrite (no_personal_user_id data Hp), scan_user_id_flat, Hflat.
    rewrite first_user_from_id_skip by exact Hpre.
    simpl. now rewrite Hm, Hu. }
  split; [exact Hdet|].
  unfold extract_outgoing_messages.
  rewrite (object_with_message data pre post m Hflat), Hdet. simpl rbind.
  eexists. split; [reflexivity|].
  intros chat m' Hchat Hm' Hfrom. rewrite frame_rows_from_records.
  apply in_flat_map. exists chat. split; [exact Hchat|].
  apply in_map, filter_In. split; [exact Hm'|].
  unfold is_outgoing. destruct (j_out m'); [reflexivity|].
  assert (Htruthy : uid_truthy (Some (UidStr u)) = true).
  { destruct u; [discriminate | reflexivity]. }
  rewrite Htruthy, Hfrom. simpl andb. cbn [str_of_uid jfield_is].
  rewrite String.eqb_refl.
  match goal with
  | |- context [String.eqb ?a ?b] => destruct (String.eqb a b)
  end; reflexivity.
Qed.

(** X10 at the export without personal information: Bob wrote the first
    message with a sender, so both messages of Bob are extracted. *)
Lemma X10_first_sender_becomes_owner_witness :
  determine_user_id anonymous_export = Ok (Some (UidStr "user77")) /\
  exists df,
    extract_outgoing_messages (Some anonymous_export) = Ok df /\
    forall chat m',
      In chat (chats anonymous_export) -> In m' (c_messages chat) ->
      j_from_id m' = Str "user77" ->
      In (row_of chat m') (frame_rows df).
Proof.
  exact (X10_first_sender_becomes_owner anonymous_export
           [mkJMessage 1 1000 (TextStr "service") false Absent Absent]
           [mkJMessage 3 1200 (TextStr "hi Bob") true (Str "user42") (Str "Me");
            mkJMessage 4 1300 (TextStr "bye") false (Str "user77") (Str "Bob")]
           (mkJMessage 2 1100 (TextStr "hello") false (Str "user77") (Str "Bob"))
           "user77" I eq_refl eq_refl eq_refl eq_refl).
Defined.

(** X11. When the export carries no usable [personal_information.user_id]
    and the scan for a sender meets a message whose [from_id] is [null]
    before any [from_id] that starts with [user], extraction raises
    [AttributeError]: no message is extracted at all. *)
Theorem X11_null_sender_aborts_extraction (data : export)
        (pre post : list json_message) (m : json_message) :
  match personal_information data with
  | Some p => p_user_id p = None \/ p_user_id p = Some 0
  | None => True
  end ->
  flat_map c_messages (chats data) = pre ++ m :: post ->
  forallb no_user_from_id pre = true ->
  j_from_id m = Null ->
  extract_outgoing_messages (Some data)
  = Raise (AttributeError "'NoneType' object has no attribute 'startswith'").
Proof.
  intros Hp Hflat Hpre Hm.
  unfold extract_outgoing_messages.
  rewrite (object_with_message data pre post m Hflat).
  rewrite (no_personal_user_id data Hp), scan_user_id_flat, Hflat.
  rewrite first_user_from_id_skip by exact Hpre.
  simpl. now rewrite Hm.
Qed.

(** X11 at the export led by a message without sender. *)
Lemma X11_null_sender_aborts_extraction_witness :
  extract_outgoing_messages (Some null_sender_export)
  = Raise (AttributeError "'NoneType' object has no attribute 'startswith'").
Proof.
  exact (X11_null_sender_aborts_extraction null_sender_export []
           [mkJMessage 3 1200 (TextStr "hi Bob") true (Str "user42") (Str "Me")]
           (mkJMessage 1 1000 (TextStr "gone") false Null Null)
           I eq_refl eq_refl eq_refl).
Defined.

(** ** The keyword search *)

Section KeywordSearch.
Context {compiled : Type} {engine : RegexEngine compiled}.



Lemma mask_rows_subset {R} (mask : list bool) (l : list R) (r : R) :
  In r (frame_rows (mask_rows mask (Frame l))) -> In r l.
Proof.
  simpl. intros H. apply in_map_iff in H as ([r0 b] & <- & Hin).
  apply filter_In in Hin as [Hin _]. now apply in_combine_l in Hin.
Qed.

(** What is selected is old and was loaded, with or without keywords and
    whatever the engine answers. *)
Lemma select_old_messages_subset (rows : list row) (now hours_to_keep : Z)
      (keywords : list string) (case_sensitive whole_words : bool)
      (old_messages : DataFrame row) (r : row) :
  select_old_messages (Frame rows) now hours_to_keep keywords case_sensitive
                      whole_words = Ok old_messages ->
  In r (frame_rows old_messages) ->
  In r rows /\ date r < now - hours_to_keep * 3600.
Proof.
  unfold select_old_messages. cbv zeta. cbn [column rbind].
  rewrite (mask_rows_column date (fun d => d <? now - hours_to_keep * 3600)).
  assert (Hold : forall r0,
             In r0 (filter (fun r1 => date r1 <? now - hours_to_keep * 3600)
                           rows) ->
             In r0 rows /\ date r0 < now - hours_to_keep * 3600).
  { intros r0 H. apply filter_In in H as [H1 H2]. apply Z.ltb_lt in H2. auto. }
  destruct keywords as [|kw kws].
  - intros H. injection H as <-. apply Hold.
  - destruct (find_messages_by_keywords _ _ _ _) as [km|e]; cbn [rbind];
      [|discriminate].
    destruct (column "message_id" _ km) as [ids|e]; cbn [rbind];
      [|discriminate].
    intros H. injection H as <-. intros Hin.
    apply mask_rows_subset in Hin. now apply Hold.
Qed.

(** X13. Keywords that match no loaded message do not give an empty
    selection but an exception: when the keyword list is not empty, the
    patterns compile and the combined pattern finds the text of no row,
    [select_old_messages] raises [KeyError('message_id')], which
    [auto_delete_old_messages] reports as an error. *)
Theorem X13_no_match_is_a_key_error (rows : list row) (now hours_to_keep : Z)
        (keywords : list string) (case_sensitive whole_words : bool)
        (pattern : compiled) :
  keywords <> [] ->
  re_compile (Py.join "|" (map (kw_pattern whole_words) keywords))
             (negb case_sensitive) = Ok pattern ->
  (forall r, In r rows -> pattern_search pattern (text r) = false) ->
  select_old_messages (Frame rows) now hours_to_keep keywords case_sensitive
                      whole_words
  = Raise (KeyError "message_id").
Proof.
  intros Hne Hcombined Hnone.
  assert (Hscan : scan_rows pattern keywords case_sensitive whole_words rows
                  = Ok []).
  { induction rows as [|r rows IH]; [reflexivity|].
    simpl. rewrite (Hnone r (or_introl eq_refl)).
    apply IH. intros r0 Hr0. apply Hnone. now right. }
  unfold select_old_messages. cbv zeta. cbn [column rbind].
  rewrite (mask_rows_column date (fun d => d <? now - hours_to_keep * 3600)).
  rewrite (match_nonempty keywords) by exact Hne.
  unfold find_messages_by_keywords.
  rewrite (match_nonempty keywords) by exact Hne.
  cbv zeta. rewrite Hcombined. cbn [rbind frame_rows]. rewrite Hscan.
  reflexivity.
Qed.

(** X14. An export that is not the empty object and in which no message
    is outgoing does not give an empty selection either: the frame of
    outgoing messages has no columns, and the selection raises
    [KeyError('date')].  (The empty object is taken for data that was
    never loaded, and extraction raises [ValueError] for it.) *)
Theorem X14_no_outgoing_message_is_a_key_error (data : export)
        (user_id : option uid) (now hours_to_keep : Z)
        (keywords : list string) (case_sensitive whole_words : bool) :
  is_empty_object data = false ->
  determine_user_id data = Ok user_id ->
  (forall chat m, In chat (chats data) -> In m (c_messages chat) ->
                  is_outgoing user_id (first_name_of data) m = false) ->
  extract_outgoing_messages (Some data) = Ok NoColumns /\
  rbind (extract_outgoing_messages (Some data))
        (fun all_messages =>
           select_old_messages all_messages now hours_to_keep keywords
                               case_sensitive whole_words)
  = Raise (KeyError "date").
Proof.
  intros Hobject Hdet Hnone.
  assert (Hrows : flat_map
                    (fun chat =>
                       map (row_of chat)
                           (filter (is_outgoing user_id (first_name_of data))
                                   (c_messages chat)))
                    (chats data) = []).
  { induction (chats data) as [|c cs IH]; [reflexivity|].
    simpl. rewrite IH by (intros chat m Hc; apply Hnone; now right).
    assert (Hf : filter (is_outgoing user_id (first_name_of data))
                        (c_messages c) = []).
    { specialize (Hnone c). specialize (fun m => Hnone m (or_introl eq_refl)).
      induction (c_messages c) as [|m ms IHm]; [reflexivity|].
      simpl. rewrite (Hnone m (or_introl eq_refl)).
      apply IHm. intros m0 Hm0. apply Hnone. now right. }
    now rewrite Hf. }
  unfold extract_outgoing_messages. rewrite Hobject, Hdet. cbn [rbind].
  rewrite Hrows. split; reflexivity.
Qed.

(** X15. Whatever the keywords and whatever the engine answers, every
    candidate of [auto_delete_old_messages] is the row of an outgoing
    message of the export and is strictly older than the cutoff: a recent
    message or a message of somebody else is never selected. *)
Theorem X15_candidates_are_old_and_outgoing (data : export)
        (now hours_to_keep : Z) (keywords : list string)
        (case_sensitive whole_words : bool) (r : row) :
  In r (candidates (Some data) now hours_to_keep keywords case_sensitive
                   whole_words) ->
  date r < now - hours_to_keep * 3600 /\
  exists user_id chat m,
    determine_user_id data = Ok user_id /\
    In chat (chats data) /\ In m (c_messages chat) /\
    is_outgoing user_id (first_name_of data) m = true /\
    r = row_of chat m.
Proof.
  unfold candidates, extract_outgoing_messages.
  destruct (is_empty_object data); cbn [rbind]; [intros []|].
  destruct (determine_user_id data) as [user_id|e]; cbn [rbind]; [|intros []].
  set (rows := flat_map _ (chats data)).
  destruct (select_old_messages (from_records rows) now hours_to_keep keywords
                                case_sensitive whole_words)
    as [old_messages|e] eqn:Hsel; [|intros []].
  intros Hin.
  destruct rows as [|r0 rows0] eqn:Hrows.
  - discriminate Hsel.
  - rewrite <- Hrows in *. clear Hrows r0 rows0.
    assert (Hfr : from_records rows = Frame rows)
      by (subst rows; destruct (flat_map _ _); [|reflexivity];
          discriminate Hsel).
    rewrite Hfr in Hsel.
    destruct (select_old_messages_subset _ _ _ _ _ _ _ _ Hsel Hin)
      as [Hr Hold].
    split; [exact Hold|].
    subst rows. apply in_flat_map in Hr as (chat & Hchat & Hr).
    apply in_map_iff in Hr as (m & <- & Hm).
    apply filter_In in Hm as [Hm Hout].
    exists user_id, chat, m. auto.
Qed.

End KeywordSearch.


(** X13 at a keyword that is in no text. *)
Lemma X13_no_match_is_a_key_error_witness :
  select_old_messages (Frame [card_row; cardboard_row]) 1000000 24
                      ["invoice"] false false
  = Raise (KeyError "message_id").
Proof.
  apply (X13_no_match_is_a_key_error [card_row; cardboard_row] 1000000 24
           ["invoice"] false false
           (Re.mkCompiled
              [[Re.Lit "i"; Re.Lit "n"; Re.Lit "v"; Re.Lit "o"; Re.Lit "i";
                Re.Lit "c"; Re.Lit "e"]] true)).
  - discriminate.
  - reflexivity.
  - intros r [<-|[<-|[]]]; reflexivity.
Defined.

(** X14 at the export of account 42 that holds one message of Bob. *)
Lemma X14_no_outgoing_message_is_a_key_error_witness :
  extract_outgoing_messages (Some incoming_only_export) = Ok NoColumns /\
  rbind (extract_outgoing_messages (Some incoming_only_export))
        (fun all_messages =>
           select_old_messages all_messages 1000000 24 [] false true)
  = Raise (KeyError "date").
Proof.
  apply (X14_no_outgoing_message_is_a_key_error incoming_only_export
           (Some (UidInt 42)) 1000000 24 [] false true).
  - reflexivity.
  - reflexivity.
  - intros chat m [<-|[]] [<-|[]]. reflexivity.
Defined.

(** X15 at the Alice message of the export with colliding ids. *)
Lemma X15_candidates_are_old_and_outgoing_witness :
  In alice_row (candidates (Some colliding_export) 1000000 24 ["card"]
                           false true) /\
  date alice_row < 1000000 - 24 * 3600 /\
  exists user_id chat m,
    determine_user_id colliding_export = Ok user_id /\
    In chat (chats colliding_export) /\ In m (c_messages chat) /\
    is_outgoing user_id (first_name_of colliding_export) m = true /\
    alice_row = row_of chat m.
Proof.
  assert (Hin : In alice_row
                   (candidates (Some colliding_export) 1000000 24 ["card"]
                               false true))
    by (vm_compute; auto).
  split; [exact Hin|].
  exact (X15_candidates_are_old_and_outgoing colliding_export 1000000 24
           ["card"] false true alice_row Hin).
Defined.

(** ** The export-file run as a whole *)

Section ExportRun.
Context {W entity : Type} {client : TelegramClient W entity}
        {session : SessionClient W}.
Context {compiled : Type} {engine : RegexEngine compiled}.
Implicit Types s : state W entity.

Lemma connect_returns s :
  exists connected w',
    connect s = (Ok connected, mkState w' (stats s) (trace s)) /\
    (connected = true ->
     exists w1, start (world s) = (Ok tt, w1) /\ get_me w1 = (Ok tt, w')).
Proof.
  unfold connect, try_except, bind, untraced, ret. simpl.
  destruct (start (world s)) as [[[]|e] w1] eqn:Hstart; simpl.
  - destruct (get_me w1) as [[[]|e] w2] eqn:Hme; simpl.
    + exists true, w2. split; [reflexivity|]. eauto.
    + exists false, w2. split; [reflexivity | discriminate].
  - exists false, w1. split; [reflexivity | discriminate].
Qed.

(** X16. Whatever the [re] engine, [auto_delete_old_messages] does
    nothing at all, and returns without an exception, when a required
    setting is missing, when the export cannot be loaded, when there is no
    candidate, be it because nothing is selected or because extraction or
    selection raised, when the preview cannot be written or when the log
    file cannot be opened: the service is not even connected to. *)
Theorem X16_nothing_to_do_leaves_service_alone (config : Config)
        (loaded : result export) (disk : files) (now hours_to_keep : Z)
        (keywords : list string) (case_sensitive whole_words : bool) s :
  missing_settings config <> [] \/
  (exists e, loaded = Raise e) \/
  (exists data, loaded = Ok data /\
                candidates (Some data) now hours_to_keep keywords
                           case_sensitive whole_words = []) \/
  (exists e, preview_to_csv disk = Raise e) \/
  (exists e, setup_logging disk = Raise e) ->
  auto_delete_old_messages config loaded disk now hours_to_keep keywords
                           case_sensitive whole_words s
  = (Ok tt, s).
Proof.
  intros Hidle.
  unfold auto_delete_old_messages, try_except, bind, lift_result, ret.
  unfold validate.
  destruct (missing_settings config) as [|name names] eqn:Hmissing;
    [|reflexivity].
  destruct loaded as [data|e]; [|reflexivity].
  destruct (extract_outgoing_messages (Some data)) as [all_messages|e]
    eqn:Hextract; [|reflexivity].
  destruct (select_old_messages all_messages now hours_to_keep keywords
                                case_sensitive whole_words)
    as [old_messages|e] eqn:Hselect; [|reflexivity].
  unfold frame_empty.
  destruct (frame_rows old_messages) as [|r rows] eqn:Hrows; [reflexivity|].
  destruct (preview_to_csv disk) as [[]|e] eqn:Hpreview; [|reflexivity].
  destruct (setup_logging disk) as [[]|e] eqn:Hlog; [|reflexivity].
  destruct Hidle as [H | [[e H] | [(d & H & Hnone) | [[e H] | [e H]]]]].
  - congruence.
  - discriminate.
  - injection H as <-. unfold candidates in Hnone.
    rewrite Hextract in Hnone. cbn [rbind] in Hnone.
    rewrite Hselect, Hrows in Hnone. discriminate.
  - discriminate.
  - discriminate.
Qed.

(** X17. Whatever the settings, the export, the file system, the
    keywords, the [re] engine and the answers of the service,
    [auto_delete_old_messages] never raises, and every delete call it
    makes is a call for one of its candidates: it asks, with [revoke] set,
    for exactly one message, the [message_id] of a candidate that has a
    chat name, in a chat entity that [find_chat_by_name_or_id] answered
    for the [chat_id] of that same candidate. *)
Theorem X17_export_run_deletes_candidates_only (config : Config)
        (loaded : result export) (disk : files) (now hours_to_keep : Z)
        (keywords : list string) (case_sensitive whole_words : bool) s :
  exists s' tr,
    auto_delete_old_messages config loaded disk now hours_to_keep keywords
                             case_sensitive whole_words s
    = (Ok tt, s') /\
    trace s' = trace s ++ tr /\
    Forall (delete_call_of_candidate
              match loaded with
              | Ok data =>
                  candidates (Some data) now hours_to_keep keywords
                             case_sensitive whole_words
              | Raise _ => []
              end) tr.
Proof.
  assert (Hidle : forall rows,
             exists s' tr,
               (@Ok unit tt, s) = (Ok tt, s') /\
               trace s' = trace s ++ tr /\
               Forall (delete_call_of_candidate (client := client) rows) tr).
  { intros rows. exists s, []. rewrite app_nil_r.
    repeat split. constructor. }
  unfold auto_delete_old_messages, try_except, bind, lift_result, ret.
  destruct (validate config) as [_|e]; [|apply Hidle].
  destruct loaded as [data|e]; [|apply Hidle].
  unfold candidates.
  destruct (extract_outgoing_messages (Some data)) as [all_messages|e];
    cbn [rbind]; [|apply Hidle].
  destruct (select_old_messages all_messages now hours_to_keep keywords
                                case_sensitive whole_words)
    as [old_messages|e]; [|apply Hidle].
  destruct (frame_empty old_messages); [apply Hidle|].
  destruct (preview_to_csv disk) as [[]|e]; [|apply Hidle].
  destruct (setup_logging disk) as [[]|e]; [|apply Hidle].
  unfold update_stats at 1.
  set (s0 := mkState (world s) init_stats (trace s)).
  destruct (connect_returns s0) as (connected & w' & Hconnect & _).
  rewrite Hconnect.
  set (s1 := mkState w' (stats s0) (trace s0)).
  destruct connected; cbv beta iota zeta delta [negb].
  - unfold try_finally, disconnect_deleter, untraced.
    destruct (delete_messages_batch_delete_calls old_messages false BATCH_SIZE
                DELAY_BETWEEN_BATCHES (trace s) s1) as (tr & Htr & Hok).
    { exists []. rewrite app_nil_r. split; [reflexivity | constructor]. }
    destruct (delete_messages_batch old_messages false BATCH_SIZE
                                    DELAY_BETWEEN_BATCHES s1)
      as [[st|e] s2]; simpl in Htr;
      [destruct (errors st); [|destruct (save_error_report disk) as [[]|?]]|];
      destruct (disconnect (world s2)) as [[[]|?] w3];
      eexists; exists tr; (split; [reflexivity|]); auto.
  - eexists. exists []. split; [reflexivity|]. simpl.
    rewrite app_nil_r. split; [reflexivity | constructor].
Qed.

(** X18. When the settings are there, the export loads, the selection
    [old_messages] is not empty, the preview and the log file can be
    written and the session opens, [auto_delete_old_messages] is a live
    run of [delete_messages_batch] over exactly [old_messages], in batches
    of 100 with a delay of 2 seconds, by a deleter whose statistics start
    from zero; that run returns, and the session is closed after it,
    whether the error report can be written or not. *)
Theorem X18_export_run_is_a_live_batch_run (config : Config) (data : export)
        (disk : files) (now hours_to_keep : Z) (keywords : list string)
        (case_sensitive whole_words : bool)
        (old_messages : DataFrame row) (w1 w2 : W) s :
  missing_settings config = [] ->
  rbind (extract_outgoing_messages (Some data))
        (fun all_messages =>
           select_old_messages all_messages now hours_to_keep keywords
                               case_sensitive whole_words)
  = Ok old_messages ->
  frame_rows old_messages <> [] ->
  preview_to_csv disk = Ok tt ->
  setup_logging disk = Ok tt ->
  start (world s) = (Ok tt, w1) ->
  get_me w1 = (Ok tt, w2) ->
  exists s1,
    delete_messages_batch old_messages false 100 2
                          (mkState w2 init_stats (trace s))
    = (Ok (stats s1), s1) /\
    auto_delete_old_messages config (Ok data) disk now hours_to_keep keywords
                             case_sensitive whole_words s
    = (Ok tt, mkState (snd (disconnect (world s1))) (stats s1) (trace s1)).
Proof.
  intros Hconfig Hselect Hrows Hpreview Hlog Hstart Hme.
  destruct (delete_messages_batch_attempts old_messages false 100 2
              (mkState w2 init_stats (trace s)) ltac:(lia))
    as (s1 & Hrun & _).
  exists s1. split; [exact Hrun|].
  unfold auto_delete_old_messages, try_except, bind, lift_result, ret.
  unfold validate. rewrite Hconfig.
  destruct (extract_outgoing_messages (Some data)) as [all_messages|e];
    [|discriminate].
  cbn [rbind] in Hselect. rewrite Hselect.
  unfold frame_empty.
  destruct (frame_rows old_messages) as [|r rows] eqn:Hr; [congruence|].
  rewrite Hpreview, Hlog.
  unfold update_stats at 1.
  unfold connect, try_except, bind, untraced, ret. simpl world.
  rewrite Hstart. simpl. rewrite Hme. simpl.
  unfold try_finally, disconnect_deleter, untraced, BATCH_SIZE,
    DELAY_BETWEEN_BATCHES.
  rewrite Hrun. simpl.
  destruct (errors (stats s1));
    [|destruct (save_error_report disk) as [[]|?]];
    destruct (disconnect (world s1)) as [[[]|?] w3]; reflexivity.
Qed.

End ExportRun.

(** X16 at an export that gives two candidates, with the settings there
    and a service that would answer, but without the directory [output]. *)
Lemma X16_nothing_to_do_leaves_service_alone_witness :
  auto_delete_old_messages (client := scripted_client all_fine)
                           (session := easy_session)
                           full_config (Ok colliding_export)
                           no_output_directory 1000000 24 [] false true
                           (fresh tt)
  = (Ok tt, fresh tt).
Proof.
  apply (X16_nothing_to_do_leaves_service_alone
           (client := scripted_client all_fine) (session := easy_session)).
  do 3 right. left. eexists. reflexivity.
Defined.

(** X18 at the export with two old messages of the owner, no keywords,
    and a service on which every call succeeds. *)
Lemma X18_export_run_is_a_live_batch_run_witness :
  exists s1,
    delete_messages_batch (client := scripted_client all_fine)
                          (Frame [alice_row; bank_row]) false 100 2
                          (mkState tt init_stats [])
    = (Ok (stats s1), s1) /\
    auto_delete_old_messages (client := scripted_client all_fine)
                             (session := easy_session)
                             full_config (Ok colliding_export) writable
                             1000000 24 [] false true (fresh tt)
    = (Ok tt,
       mkState (snd (disconnect (SessionClient := easy_session) (world s1)))
               (stats s1) (trace s1)).
Proof.
  exact (X18_export_run_is_a_live_batch_run
           (client := scripted_client all_fine) (session := easy_session)
           full_config colliding_export writable 1000000 24 [] false true
           (Frame [alice_row; bank_row]) tt tt (fresh tt)
           eq_refl eq_refl ltac:(discriminate) eq_refl eq_refl eq_refl
           eq_refl).
Defined.

(** ** The deletion loop of the API-only mode *)

Section ApiOnly.
Context {W entity : Type} {client : TelegramClient W entity}.
Implicit Types s : state W entity.

Lemma delete_message_live_calls (chat_entity : entity) (id : Z) s :
  exists success detail s',
    delete_message chat_entity id true false s = (Ok (success, detail), s') /\
    stats s' = stats s /\
    count_events is_delete_call (trace s)
    <= count_events is_delete_call (trace s')
    <= count_events is_delete_call (trace s) + 1 /\
    (success = true ->
     count_events is_delete_call (trace s')
     = count_events is_delete_call (trace s) + 1).
Proof.
  destruct (delete_message_shape chat_entity id true false s)
    as (success & detail & s' & tr & Hrun & Hst & Htr & Hshape).
  exists success, detail, s'. split; [exact Hrun|]. split; [exact Hst|].
  rewrite Htr, count_events_app.
  destruct Hshape as [[-> ->] | (backoff & -> & _ & Hb)].
  - change (count_events is_delete_call [EvGetMessages chat_entity id])
      with 0.
    split; [lia | discriminate].
  - assert (Hone : count_events is_delete_call
                     (EvGetMessages chat_entity id
                        :: EvDeleteMessages chat_entity [id] true :: backoff)
                   = 1)
      by (destruct Hb as [->|[n ->]]; reflexivity).
    rewrite Hone. split; [lia | reflexivity].
Qed.

(** X19. The deletion loop of the API-only mode never raises and counts
    every message of its list exactly once, as deleted or as failed; a
    message is counted as deleted only if a delete call was made for it,
    and there is at most one delete call per message. The statistics of the
    deleter are left as they are: this mode does not feed them. *)
Theorem X19_api_loop_counts_every_message
        (messages_to_delete : list (to_delete (entity := entity)))
        (deleted_count failed_count : Z) s :
  exists deleted failed s',
    api_delete_loop messages_to_delete deleted_count failed_count s
    = (Ok (deleted, failed), s') /\
    deleted + failed
    = deleted_count + failed_count + Py.len messages_to_delete /\
    deleted_count <= deleted /\ failed_count <= failed /\
    stats s' = stats s /\
    deleted - deleted_count
    <= count_events is_delete_call (trace s')
       - count_events is_delete_call (trace s)
    <= Py.len messages_to_delete.
Proof.
  revert deleted_count failed_count s.
  induction messages_to_delete as [|msg rest IH];
    intros deleted_count failed_count s.
  - exists deleted_count, failed_count, s. simpl.
    unfold ret, Py.len. simpl. repeat split; lia.
  - assert (Hlen : Py.len (msg :: rest) = Py.len rest + 1)
      by (unfold Py.len; simpl List.length; lia).
    pose proof (len_nonneg rest) as Hpos.
    destruct (delete_message_live_calls (td_chat_entity msg)
                                        (td_message_id msg) s)
      as (success & detail & s1 & Hrun & Hst & Hcalls & Hsucc).
    cbn [api_delete_loop]. unfold bind at 1. unfold try_except, bind, ret.
    rewrite Hrun. cbn [fst].
    destruct success.
    + destruct (IH (deleted_count + 1) failed_count s1)
        as (d & f & s' & Hloop & Hsum & Hd & Hf & Hst' & Hc).
      exists d, f, s'. split; [exact Hloop|].
      specialize (Hsucc eq_refl). rewrite Hlen, Hst', Hst.
      repeat split; lia.
    + destruct (IH deleted_count (failed_count + 1) s1)
        as (d & f & s' & Hloop & Hsum & Hd & Hf & Hst' & Hc).
      exists d, f, s'. split; [exact Hloop|].
      rewrite Hlen, Hst', Hst. repeat split; lia.
Qed.

End ApiOnly.

(** ** The command line *)

(** X20. On the command line of the deleter the flag [--dry-run] has no
    effect: the run is a dry run exactly when [--execute] is not given. *)
Theorem X20_only_execute_matters (dry_run_given execute_given : bool) :
  main_dry_run dry_run_given execute_given = negb execute_given.
Proof.
  destruct dry_run_given, execute_given; reflexivity.
Qed.

(** ** Case sensitivity in the API-only mode *)

Lemma lower_char_not_upper (c : ascii) :
  Py.is_upper (Py.lower_char c) = false.
Proof.
  unfold Py.lower_char. destruct (Py.is_upper c) eqn:Hc; [|exact Hc].
  unfold Py.is_upper in *.
  apply andb_prop in Hc as [H1 H2].
  apply Nat.leb_le in H1. apply Nat.leb_le in H2.
  rewrite nat_ascii_embedding by lia.
  apply andb_false_iff. right. apply Nat.leb_gt. lia.
Qed.

Lemma lower_has_no_upper (t : string) :
  Py.all_chars (fun c => negb (Py.is_upper c)) (Py.lower t) = true.
Proof.
  induction t as [|c t IH]; [reflexivity|].
  simpl. now rewrite lower_char_not_upper, IH.
Qed.

Lemma prefix_all_chars (p : ascii -> bool) (needle hay : string) :
  String.prefix needle hay = true ->
  Py.all_chars p hay = true -> Py.all_chars p needle = true.
Proof.
  revert hay. induction needle as [|c needle IH]; intros hay; [reflexivity|].
  destruct hay as [|d hay]; simpl; [discriminate|].
  destruct (ascii_dec c d) as [->|]; [|discriminate].
  intros Hpre Hall. apply andb_prop in Hall as [Hd Hhay].
  rewrite Hd. simpl. now apply (IH hay).
Qed.

Lemma contains_all_chars (p : ascii -> bool) (needle hay : string) :
  Py.contains needle hay = true ->
  Py.all_chars p hay = true -> Py.all_chars p needle = true.
Proof.
  induction hay as [|d hay IH]; simpl.
  - rewrite orb_false_r. intros H _.
    now apply (prefix_all_chars p needle EmptyString).
  - intros H Hall. apply orb_prop in H as [H|H].
    + now apply (prefix_all_chars p needle (String d hay)).
    + apply andb_prop in Hall as [_ Hhay]. auto.
Qed.

(** X21. In the API-only mode with [case_sensitive] set and partial
    matching, a keyword that contains an upper-case letter matches no
    message at all: the text is put in lower case before the test and the
    keyword is not. With keywords that all contain one, no message passes
    the keyword filter. *)
Theorem X21_api_case_sensitive_upper_case_never_matches
        {compiled : Type} {engine : RegexEngine compiled}
        (keywords : list string) (message : string) :
  keywords <> [] ->
  (forall kw, In kw keywords ->
              Py.all_chars (fun c => negb (Py.is_upper c)) kw = false) ->
  api_keyword_filter keywords true false message = Ok false.
Proof.
  intros Hne Hupper. unfold api_keyword_filter.
  rewrite (match_nonempty keywords) by exact Hne. cbv zeta.
  clear Hne. induction keywords as [|kw kws IH]; [reflexivity|].
  cbn [api_keyword_loop negb].
  destruct (Py.contains kw (Py.lower message)) eqn:Hc.
  - pose proof (contains_all_chars _ _ _ Hc (lower_has_no_upper message))
      as Hlow.
    rewrite (Hupper kw (or_introl eq_refl)) in Hlow. discriminate.
  - apply IH. intros k Hk. apply Hupper. now right.
Qed.

(** X21 at the keyword [Card] and a text that contains it as it is. *)
Lemma X21_api_case_sensitive_upper_case_never_matches_witness :
  api_keyword_filter ["Card"] true false "my Card is here" = Ok false.
Proof.
  apply (X21_api_case_sensitive_upper_case_never_matches ["Card"]
           "my Card is here").
  - discriminate.
  - intros kw [<-|[]]. reflexivity.
Defined.

(** ** The combined pattern and the patterns of the keywords *)

Lemma parse_then_bar (n : nat) :
  forall (s1 : string) (cur : list Re.atom) (bs1 : list (list Re.atom))
         (s2 : string),
    (String.length s1 <= n)%nat ->
    Re.parse s1 cur = Some bs1 ->
    Re.parse (s1 ++ String "|" s2) cur
    = match Re.parse s2 [] with
      | Some bs2 => Some (bs1 ++ bs2)
      | None => None
      end.
Proof.
  induction n as [|n IH]; intros s1 cur bs1 s2 Hlen Hparse.
  - destruct s1; [|simpl in Hlen; lia].
    simpl in Hparse. injection Hparse as <-.
    simpl. destruct (Re.parse s2 []); reflexivity.
  - destruct s1 as [|c s1].
    + simpl in Hparse. injection Hparse as <-.
      simpl. destruct (Re.parse s2 []); reflexivity.
    + simpl in Hlen. cbn [String.append]. cbn [Re.parse] in *.
      destruct (Ascii.eqb c "\").
      * destruct s1 as [|d s1]; [discriminate|].
        simpl in Hlen. cbn [String.append].
        destruct (Ascii.eqb d "b").
        -- apply IH; [lia | exact Hparse].
        -- destruct (Re.is_alnum d); [discriminate|].
           apply IH; [lia | exact Hparse].
      * destruct (Ascii.eqb c "|").
        -- destruct (Re.parse s1 []) as [bs|] eqn:Hs1; [|discriminate].
           simpl in Hparse. injection Hparse as <-.
           rewrite (IH s1 [] bs s2 ltac:(lia) Hs1).
           destruct (Re.parse s2 []); reflexivity.
        -- destruct (Re.is_meta c); [discriminate|].
           apply IH; [lia | exact Hparse].
Qed.

Lemma search_from_app (ic : bool) (bs1 bs2 : list (list Re.atom))
      (prev : option ascii) (rest : string) :
  Re.search_from ic (bs1 ++ bs2) prev rest
  = Re.search_from ic bs1 prev rest || Re.search_from ic bs2 prev rest.
Proof.
  revert prev. induction rest as [|d rest IH]; intros prev; simpl.
  - rewrite existsb_app, !orb_false_r. reflexivity.
  - rewrite existsb_app, IH.
    destruct (existsb _ bs1), (existsb _ bs2),
      (Re.search_from ic bs1 (Some d) rest),
      (Re.search_from ic bs2 (Some d) rest); reflexivity.
Qed.

(** The pattern joined with [|] from patterns that compile compiles, and
    finds a text exactly when one of them does. *)
Lemma joined_pattern_search (ic : bool) (patterns : list string) :
  patterns <> [] ->
  (forall p, In p patterns -> exists c, Re.compile p ic = Ok c) ->
  exists combined,
    Re.compile (Py.join "|" patterns) ic = Ok combined /\
    forall t,
      Re.search combined t
      = existsb (fun p => match re_search p t ic with
                          | Ok hit => hit
                          | Raise _ => false
                          end) patterns.
Proof.
  assert (Hparse : forall p, (exists c, Re.compile p ic = Ok c) ->
                             exists bs, Re.parse p [] = Some bs).
  { intros p [c Hc]. unfold Re.compile in Hc.
    destruct (Re.parse p []) as [bs|]; [eauto | discriminate]. }
  induction patterns as [|p ps IH]; intros Hne Hall; [congruence|].
  destruct (Hparse p (Hall p (or_introl eq_refl))) as [bs Hbs].
  assert (Hp : forall t,
             match re_search (engine := fragment_engine) p t ic with
             | Ok hit => hit
             | Raise _ => false
             end = Re.search_from ic bs None t).
  { intros t. unfold re_search. simpl. unfold Re.compile. rewrite Hbs.
    reflexivity. }
  destruct ps as [|q ps].
  - exists (Re.mkCompiled bs ic). split.
    + change (Py.join "|" [p]) with p. unfold Re.compile. now rewrite Hbs.
    + intros t. cbn [existsb]. rewrite orb_false_r. symmetry. apply Hp.
  - destruct IH as (combined & Hc & Hsearch).
    + discriminate.
    + intros p0 Hp0. apply Hall. now right.
    + unfold Re.compile in Hc.
      destruct (Re.parse (Py.join "|" (q :: ps)) []) as [bsr|] eqn:Hr;
        [|discriminate].
      injection Hc as <-.
      exists (Re.mkCompiled (bs ++ bsr) ic).
      change (Py.join "|" (p :: q :: ps))
        with (p ++ String "|" (Py.join "|" (q :: ps)))%string.
      unfold Re.compile.
      rewrite (parse_then_bar (String.length p) p [] bs _ (le_n _) Hbs), Hr.
      split; [reflexivity|]. intros t.
      unfold Re.search. simpl Re.branches. simpl Re.ignorecase.
      rewrite search_from_app.
      change (existsb ?f (p :: q :: ps))
        with (f p || existsb f (q :: ps)).
      f_equal; [symmetry; apply Hp | apply (Hsearch t)].
Qed.

(** X22. With the engine for literal keywords, when the pattern of every
    keyword compiles, [find_messages_by_keywords] does what its docstring
    says, find the messages containing any of the keywords: it returns
    without an exception, and a row of the frame is among the rows it
    returns exactly when the pattern of at least one keyword finds its
    text. *)
Theorem X22_any_keyword (df : DataFrame row) (keywords : list string)
        (case_sensitive whole_words : bool) :
  keywords <> [] ->
  (forall kw, In kw keywords ->
              exists c, Re.compile (kw_pattern whole_words kw)
                                   (negb case_sensitive) = Ok c) ->
  exists matches,
    find_messages_by_keywords (Some df) keywords case_sensitive whole_words
    = Ok (from_records matches) /\
    forall r,
      In r (map fst matches) <->
      In r (frame_rows df) /\
      exists kw, In kw keywords /\
                 re_search (kw_pattern whole_words kw) (text r)
                           (negb case_sensitive) = Ok true.
Proof.
  intros Hne Hall.
  destruct (joined_pattern_search (negb case_sensitive)
              (map (kw_pattern whole_words) keywords))
    as (combined & Hc & Hsearch).
  - destruct keywords; [congruence | discriminate].
  - intros p Hp. apply in_map_iff in Hp as (kw & <- & Hkw). now apply Hall.
  - destruct (scan_rows_returns (engine := fragment_engine) keywords
                case_sensitive whole_words combined Hall (frame_rows df))
      as (matches & Hscan & Hmap).
    exists matches. split.
    + unfold find_messages_by_keywords.
      rewrite (match_nonempty keywords) by exact Hne.
      cbv zeta.
      change (re_compile (Py.join "|" (map (kw_pattern whole_words) keywords))
                         (negb case_sensitive))
        with (Re.compile (Py.join "|" (map (kw_pattern whole_words) keywords))
                         (negb case_sensitive)).
      rewrite Hc. cbn [rbind]. rewrite Hscan. reflexivity.
    + intros r. rewrite Hmap, filter_In.
      change (pattern_search combined (text r))
        with (Re.search combined (text r)).
      rewrite Hsearch, existsb_exists. split.
      * intros [Hin (p & Hp & Hhit)]. split; [exact Hin|].
        apply in_map_iff in Hp as (kw & <- & Hkw).
        exists kw. split; [exact Hkw|].
        destruct (re_search _ _ _) as [[|]|e]; try discriminate. reflexivity.
      * intros [Hin (kw & Hkw & Hhit)]. split; [exact Hin|].
        exists (kw_pattern whole_words kw). split; [now apply in_map|].
        now rewrite Hhit.
Qed.

(** X22 at the keywords [card] and [box], as whole words without case. *)
Lemma X22_any_keyword_witness :
  exists matches,
    find_messages_by_keywords (Some (Frame [card_row; cardboard_row]))
                              ["card"; "box"] false true
    = Ok (from_records matches) /\
    forall r,
      In r (map fst matches) <->
      In r [card_row; cardboard_row] /\
      exists kw, In kw ["card"; "box"] /\
                 re_search (kw_pattern true kw) (text r) true = Ok true.
Proof.
  apply (X22_any_keyword (Frame [card_row; cardboard_row]) ["card"; "box"]
           false true).
  - discriminate.
  - intros kw [<-|[<-|[]]]; eexists; reflexivity.
Defined.

(** ** The settings *)

(** X23. [Config.validate] returns [True] exactly when [API_ID],
    [API_HASH] and [PHONE_NUMBER] are all set to non-empty strings;
    otherwise it raises [ValueError], and the names its message lists are
    exactly the names of the settings that are unset or empty. *)
Theorem X23_validate (cls : Config) :
  (validate cls = Ok true <->
   env_truthy (API_ID cls) = true /\ env_truthy (API_HASH cls) = true /\
   env_truthy (PHONE_NUMBER cls) = true) /\
  (validate cls = Ok true \/
   validate cls
   = Raise (ValueError ("Missing required configuration: "
                          ++ Py.join ", " (missing_settings cls))%string)) /\
  (forall name,
      In name (missing_settings cls) <->
      (name = "API_ID" /\ env_truthy (API_ID cls) = false) \/
      (name = "API_HASH" /\ env_truthy (API_HASH cls) = false) \/
      (name = "PHONE_NUMBER" /\ env_truthy (PHONE_NUMBER cls) = false)).
Proof.
  unfold validate, missing_settings. simpl.
  destruct (env_truthy (API_ID cls)), (env_truthy (API_HASH cls)),
    (env_truthy (PHONE_NUMBER cls)); simpl;
    (split; [split; [try discriminate; auto | intros (H1 & H2 & H3);
                                               try discriminate; auto]|]);
    (split; [auto|]);
    intros name; split; intros H;
    repeat match goal with
           | H : _ \/ _ |- _ => destruct H
           | H : _ /\ _ |- _ => destruct H
           | H : False |- _ => destruct H
           end; subst; try discriminate; auto 10.
Qed.
